(** * Juby: goal-based savings ledger over a share vault

    A shallow embedding of the two Solidity contracts of the repository,
    [MockMorphoVault] (the share vault) and [JubyVault] (the goal savings
    ledger), together with the properties of their share accounting and
    of the early-withdrawal penalty.

    - [uint256] values are integers in [Z]; every arithmetic operation is
      the checked operation of Solidity 0.8 and reverts with a panic
      instead of wrapping. Addresses are integers too.
    - A Solidity [mapping] is a finite map read with the zero default.
    - A contract function is a computation in a state monad over the
      contract's storage whose results are call trees: a node of the
      tree is a low-level call to another contract, and it records the
      storage the callee would observe if it read the caller back.
    - A transaction either commits or reverts as a whole.
    - The asset (MockUSDC) is not among the sources and is modelled from
      the spec as an ERC20 ledger of balances and allowances.

    The definitions come first: the two contracts, the asset, the
    composition of the three into one deployed system, and a small
    scenario on which the statements are run. The properties follow. *)

From Stdlib Require Import ZArith Lia Bool List.
From stdpp Require Import base option gmap strings.
Import ListNotations.

Local Open Scope string_scope.
Local Open Scope Z_scope.

(** ** Machine integers and reverts *)

Definition address := Z.

Definition MAX_UINT256 : Z := 2 ^ 256 - 1.

Definition is_uint256 (x : Z) : Prop := 0 <= x <= MAX_UINT256.

Inductive Error : Type :=
| Require (msg : string)   (* require(cond, msg) failed *)
| Panic (code : Z)         (* 0x11 arithmetic overflow, 0x12 division by zero *)
| DecodeError.             (* abi.decode on malformed return data *)

Inductive Result (A : Type) : Type :=
| Ok (a : A)
| Revert (e : Error).
Arguments Ok {A} a.
Arguments Revert {A} e.

#[global] Instance Result_ret : MRet Result := fun _ a => Ok a.
#[global] Instance Result_bind : MBind Result :=
  fun _ _ f r => match r with Ok a => f a | Revert e => Revert e end.

Definition checked_add (a b : Z) : Result Z :=
  if a + b <=? MAX_UINT256 then Ok (a + b) else Revert (Panic 17).
Definition checked_sub (a b : Z) : Result Z :=
  if b <=? a then Ok (a - b) else Revert (Panic 17).
Definition checked_mul (a b : Z) : Result Z :=
  if a * b <=? MAX_UINT256 then Ok (a * b) else Revert (Panic 17).
Definition checked_div (a b : Z) : Result Z :=
  if b =? 0 then Revert (Panic 18) else Ok (a / b).

Infix "+!" := checked_add (at level 50, left associativity).
Infix "-!" := checked_sub (at level 50, left associativity).
Infix "*!" := checked_mul (at level 40, left associativity).
Infix "/!" := checked_div (at level 40, left associativity).

(** Reading a mapping: an absent key holds the zero value. *)
Definition mget {K} `{Countable K} (m : gmap K Z) (k : K) : Z :=
  default 0 (m !! k).

(** ** Low-level calls and call trees *)

Inductive CallKind : Type := CALL | STATICCALL.

(** [target.call(abi.encodeWithSignature(sig, args))]; arguments are
    32-byte words. *)
Record ExtCall : Type := mkCall {
  target : address;
  kind : CallKind;
  sig : string;
  args : list Z
}.

(** [(bool success, bytes memory data)], the data as a list of words. *)
Record Reply : Type := mkReply {
  success : bool;
  data : list Z
}.

Definition abi_decode_uint256 (d : list Z) : Result Z :=
  match d with
  | w :: _ => Ok (w mod 2 ^ 256)
  | [] => Revert DecodeError
  end.

Definition abi_decode_bool (d : list Z) : Result bool :=
  match d with
  | w :: _ => if w =? 0 then Ok false
              else if w =? 1 then Ok true
              else Revert DecodeError
  | [] => Revert DecodeError
  end.

(** The execution of a function of a contract with storage [S] and
    events [E]: what it returns, or the revert, after a sequence of
    events and low-level calls. [External st c k] performs the call [c]
    while the contract's storage is [st]. *)
Inductive Prog (S E A : Type) : Type :=
| Done (a : A)
| Abort (e : Error)
| Emit (ev : E) (k : Prog S E A)
| External (st : S) (c : ExtCall) (k : Reply -> Prog S E A).
Arguments Done {S E A} a.
Arguments Abort {S E A} e.
Arguments Emit {S E A} ev k.
Arguments External {S E A} st c k.

Fixpoint bindP {S E A B} (p : Prog S E A) (f : A -> Prog S E B) : Prog S E B :=
  match p with
  | Done a => f a
  | Abort e => Abort e
  | Emit ev k => Emit ev (bindP k f)
  | External st c k => External st c (fun r => bindP (k r) f)
  end.

Definition M (S E A : Type) : Type := S -> Prog S E (A * S).

#[global] Instance M_ret {S E} : MRet (M S E) := fun _ a s => Done (a, s).
#[global] Instance M_bind {S E} : MBind (M S E) :=
  fun _ _ f m s => bindP (m s) (fun '(a, s') => f a s').

Section MonadOps.
Context {S E : Type}.

Definition fail {A} (e : Error) : M S E A := fun _ => Abort e.
Definition gets {A} (f : S -> A) : M S E A := fun s => Done (f s, s).
Definition modify (f : S -> S) : M S E unit := fun s => Done (tt, f s).
Definition emit (ev : E) : M S E unit := fun s => Emit ev (Done (tt, s)).
Definition call (c : ExtCall) : M S E Reply :=
  fun s => External s c (fun r => Done (r, s)).
Definition liftR {A} (r : Result A) : M S E A :=
  match r with Ok a => mret a | Revert e => fail e end.
(** A [view] function reads the storage. *)
Definition view {A} (f : S -> Result A) : M S E A := fun s => liftR (f s) s.
Definition require (b : bool) (msg : string) : M S E unit :=
  if b then mret tt else fail (Require msg).
Definition when (b : bool) (m : M S E unit) : M S E unit :=
  if b then m else mret tt.

(** The token helpers shared by both contracts. *)
Definition token_call_ok (r : Reply) : Result bool :=
  if success r then
    match data r with
    | [] => Ok true
    | d => abi_decode_bool d
    end
  else Ok false.

Definition _transfer (token to amount : Z) : M S E unit :=
  r ← call (mkCall token CALL "transfer(address,uint256)" [to; amount]);
  ok ← liftR (token_call_ok r);
  require ok "Transfer failed".

Definition _transferFrom (token from to amount : Z) : M S E unit :=
  r ← call (mkCall token CALL "transferFrom(address,address,uint256)"
                   [from; to; amount]);
  ok ← liftR (token_call_ok r);
  require ok "TransferFrom failed".

Definition _approve (token spender amount : Z) : M S E unit :=
  r ← call (mkCall token CALL "approve(address,uint256)" [spender; amount]);
  ok ← liftR (token_call_ok r);
  require ok "Approve failed".
End MonadOps.

(** ** MockMorphoVault *)

Module MockMorphoVault.

Definition ANNUAL_YIELD_BPS : Z := 500.
Definition DEAD_ADDRESS : address := 0xdEaD.
Definition DEAD_SHARES : Z := 10 ^ 9.
Definition SECONDS_365_DAYS : Z := 31536000.

Record State : Type := mkState {
  asset : address;
  totalSupply : Z;
  _totalAssets : Z;
  lastYieldUpdate : Z;
  initialized : bool;
  balanceOf : gmap address Z;
  allowance : gmap (address * address) Z
}.

Inductive Event : Type :=
| Deposit (sender owner : address) (assets shares : Z)
| Withdraw (sender receiver owner : address) (assets shares : Z)
| Transfer (from to : address) (value : Z)
| Approval (owner spender : address) (value : Z).

Definition set_totalSupply (x : Z) (v : State) : State :=
  mkState (asset v) x (_totalAssets v) (lastYieldUpdate v) (initialized v)
          (balanceOf v) (allowance v).
Definition set_totalAssets (x : Z) (v : State) : State :=
  mkState (asset v) (totalSupply v) x (lastYieldUpdate v) (initialized v)
          (balanceOf v) (allowance v).
Definition set_lastYieldUpdate (x : Z) (v : State) : State :=
  mkState (asset v) (totalSupply v) (_totalAssets v) x (initialized v)
          (balanceOf v) (allowance v).
Definition set_initialized (x : bool) (v : State) : State :=
  mkState (asset v) (totalSupply v) (_totalAssets v) (lastYieldUpdate v) x
          (balanceOf v) (allowance v).
Definition set_balanceOf (a : address) (x : Z) (v : State) : State :=
  mkState (asset v) (totalSupply v) (_totalAssets v) (lastYieldUpdate v)
          (initialized v) (<[a := x]> (balanceOf v)) (allowance v).
Definition set_allowance (o s : address) (x : Z) (v : State) : State :=
  mkState (asset v) (totalSupply v) (_totalAssets v) (lastYieldUpdate v)
          (initialized v) (balanceOf v) (<[(o, s) := x]> (allowance v)).

(** The constructor: [lastYieldUpdate = block.timestamp]. *)
Definition constructor (_asset : address) (now : Z) : Result State :=
  if _asset =? 0 then Revert (Require "Invalid asset")
  else Ok (mkState _asset 0 0 now false ∅ ∅).

(** Every stored quantity is a [uint256]. *)
Definition wf (v : State) : Prop :=
  is_uint256 (totalSupply v) /\ is_uint256 (_totalAssets v)
  /\ is_uint256 (lastYieldUpdate v).

(** The pool is the same in [v] and [v']: what the bookkeeping of
    allowances and balances leaves alone. *)
Definition same_pool (v v' : State) : Prop :=
  asset v' = asset v /\ totalSupply v' = totalSupply v
  /\ _totalAssets v' = _totalAssets v
  /\ lastYieldUpdate v' = lastYieldUpdate v.

(** *** Views *)

Definition totalAssets (v : State) (now : Z) : Result Z :=
  if _totalAssets v =? 0 then Ok 0
  else
    timeElapsed ← now -! lastYieldUpdate v;
    if timeElapsed =? 0 then Ok (_totalAssets v)
    else
      t1 ← _totalAssets v *! ANNUAL_YIELD_BPS;
      t2 ← t1 *! timeElapsed;
      d ← SECONDS_365_DAYS *! 10000;
      yield ← t2 /! d;
      _totalAssets v +! yield.

Definition convertToShares (v : State) (now : Z) (assets : Z) : Result Z :=
  let supply := totalSupply v in
  total ← totalAssets v now;
  if (supply =? 0) || (total =? 0) then Ok assets
  else
    t ← assets *! supply;
    t /! total.

Definition convertToAssets (v : State) (now : Z) (shares : Z) : Result Z :=
  let supply := totalSupply v in
  if supply =? 0 then Ok shares
  else
    total ← totalAssets v now;
    t ← shares *! total;
    t /! supply.

Definition previewDeposit (v : State) (now : Z) (assets : Z) : Result Z :=
  convertToShares v now assets.

Definition previewMint (v : State) (now : Z) (shares : Z) : Result Z :=
  let supply := totalSupply v in
  if supply =? 0 then Ok shares
  else
    total ← totalAssets v now;
    t1 ← shares *! total;
    t2 ← t1 +! supply;
    t3 ← t2 -! 1;
    t3 /! supply.

Definition previewWithdraw (v : State) (now : Z) (assets : Z) : Result Z :=
  let supply := totalSupply v in
  total ← totalAssets v now;
  if (supply =? 0) || (total =? 0) then Ok assets
  else
    t1 ← assets *! supply;
    t2 ← t1 +! total;
    t3 ← t2 -! 1;
    t3 /! total.

Definition previewRedeem (v : State) (now : Z) (shares : Z) : Result Z :=
  convertToAssets v now shares.

Definition maxWithdraw (v : State) (now : Z) (owner : address) : Result Z :=
  convertToAssets v now (mget (balanceOf v) owner).

Definition maxRedeem (v : State) (owner : address) : Z :=
  mget (balanceOf v) owner.

(** *** State-changing functions

    [this] is [address(this)], [sender] is [msg.sender] and [now] is
    [block.timestamp]. *)

Definition Op (A : Type) : Type := M State Event A.

Definition totalSupply_add (x : Z) : Op unit :=
  cur ← gets totalSupply; new ← liftR (cur +! x); modify (set_totalSupply new).
Definition totalSupply_sub (x : Z) : Op unit :=
  cur ← gets totalSupply; new ← liftR (cur -! x); modify (set_totalSupply new).
Definition totalAssets_add (x : Z) : Op unit :=
  cur ← gets _totalAssets; new ← liftR (cur +! x); modify (set_totalAssets new).
Definition totalAssets_sub (x : Z) : Op unit :=
  cur ← gets _totalAssets; new ← liftR (cur -! x); modify (set_totalAssets new).
Definition balanceOf_add (a : address) (x : Z) : Op unit :=
  cur ← gets (fun v => mget (balanceOf v) a);
  new ← liftR (cur +! x);
  modify (set_balanceOf a new).
Definition balanceOf_sub (a : address) (x : Z) : Op unit :=
  cur ← gets (fun v => mget (balanceOf v) a);
  new ← liftR (cur -! x);
  modify (set_balanceOf a new).
Definition allowance_sub (o s : address) (x : Z) : Op unit :=
  cur ← gets (fun v => mget (allowance v) (o, s));
  new ← liftR (cur -! x);
  modify (set_allowance o s new).

Definition _accrueYield (now : Z) : Op unit :=
  newTotalAssets ← view (fun v => totalAssets v now);
  modify (set_totalAssets newTotalAssets);;
  modify (set_lastYieldUpdate now).

Definition _initializeVault (firstDeposit : Z) : Op unit :=
  require (firstDeposit >=? DEAD_SHARES) "First deposit too small";;
  modify (set_totalSupply DEAD_SHARES);;
  modify (set_balanceOf DEAD_ADDRESS DEAD_SHARES);;
  modify (set_totalAssets DEAD_SHARES);;
  emit (Transfer 0 DEAD_ADDRESS DEAD_SHARES).

Definition deposit (this sender : address) (now : Z)
    (assets : Z) (receiver : address) : Op Z :=
  require (assets >? 0) "Cannot deposit 0";;
  require (negb (receiver =? 0)) "Invalid receiver";;
  _accrueYield now;;
  init ← gets initialized;
  when (negb init)
    (_initializeVault assets;; modify (set_initialized true));;
  shares ← view (fun v => convertToShares v now assets);
  require (shares >? 0) "Zero shares";;
  tok ← gets asset;
  _transferFrom tok sender this assets;;
  totalSupply_add shares;;
  balanceOf_add receiver shares;;
  totalAssets_add assets;;
  emit (Deposit sender receiver assets shares);;
  emit (Transfer 0 receiver shares);;
  mret shares.

Definition mint (this sender : address) (now : Z)
    (shares : Z) (receiver : address) : Op Z :=
  require (shares >? 0) "Cannot mint 0";;
  require (negb (receiver =? 0)) "Invalid receiver";;
  _accrueYield now;;
  init ← gets initialized;
  assets ← (if negb init then
              _initializeVault shares;;
              modify (set_initialized true);;
              mret shares
            else view (fun v => convertToAssets v now shares));
  require (assets >? 0) "Zero assets";;
  tok ← gets asset;
  _transferFrom tok sender this assets;;
  totalSupply_add shares;;
  balanceOf_add receiver shares;;
  totalAssets_add assets;;
  emit (Deposit sender receiver assets shares);;
  emit (Transfer 0 receiver shares);;
  mret assets.

Definition spend_allowance (sender owner : address) (shares : Z) : Op unit :=
  when (negb (sender =? owner))
    (allowed ← gets (fun v => mget (allowance v) (owner, sender));
     require (allowed >=? shares) "Insufficient allowance";;
     allowance_sub owner sender shares).

Definition withdraw (this sender : address) (now : Z)
    (assets : Z) (receiver owner : address) : Op Z :=
  require (assets >? 0) "Cannot withdraw 0";;
  require (negb (receiver =? 0)) "Invalid receiver";;
  _accrueYield now;;
  shares ← view (fun v => convertToShares v now assets);
  require (shares >? 0) "Zero shares";;
  spend_allowance sender owner shares;;
  bal ← gets (fun v => mget (balanceOf v) owner);
  require (bal >=? shares) "Insufficient balance";;
  balanceOf_sub owner shares;;
  totalSupply_sub shares;;
  totalAssets_sub assets;;
  tok ← gets asset;
  _transfer tok receiver assets;;
  emit (Withdraw sender receiver owner assets shares);;
  emit (Transfer owner 0 shares);;
  mret shares.

Definition redeem (this sender : address) (now : Z)
    (shares : Z) (receiver owner : address) : Op Z :=
  require (shares >? 0) "Cannot redeem 0";;
  require (negb (receiver =? 0)) "Invalid receiver";;
  spend_allowance sender owner shares;;
  bal ← gets (fun v => mget (balanceOf v) owner);
  require (bal >=? shares) "Insufficient balance";;
  _accrueYield now;;
  assets ← view (fun v => convertToAssets v now shares);
  require (assets >? 0) "Zero assets";;
  balanceOf_sub owner shares;;
  totalSupply_sub shares;;
  totalAssets_sub assets;;
  tok ← gets asset;
  _transfer tok receiver assets;;
  emit (Withdraw sender receiver owner assets shares);;
  emit (Transfer owner 0 shares);;
  mret assets.

(** The share token's own ERC20 functions. *)

Definition approve (sender spender : address) (amount : Z) : Op bool :=
  modify (set_allowance sender spender amount);;
  emit (Approval sender spender amount);;
  mret true.

Definition transfer (sender to : address) (amount : Z) : Op bool :=
  bal ← gets (fun v => mget (balanceOf v) sender);
  require (bal >=? amount) "Insufficient balance";;
  balanceOf_sub sender amount;;
  balanceOf_add to amount;;
  emit (Transfer sender to amount);;
  mret true.

Definition transferFrom (sender from to : address) (amount : Z) : Op bool :=
  allowed ← gets (fun v => mget (allowance v) (from, sender));
  require (allowed >=? amount) "Insufficient allowance";;
  bal ← gets (fun v => mget (balanceOf v) from);
  require (bal >=? amount) "Insufficient balance";;
  allowance_sub from sender amount;;
  balanceOf_sub from amount;;
  balanceOf_add to amount;;
  emit (Transfer from to amount);;
  mret true.

End MockMorphoVault.

(** ** The pooled asset *)

Module Token.

(** Modelled from the spec: the asset contract (MockUSDC.sol) is not
    among the sources; only its ABI is, with the standard ERC20
    functions. The spec gives its interface as the AssetTransferPort,
    [pull(from, amount)] and [push(to, amount)], "each failing explicitly
    (not silently) if the underlying balance/allowance is insufficient".
    The state is the balances and the allowances. *)
Record State : Type := mkState {
  balanceOf : gmap address Z;
  allowance : gmap (address * address) Z
}.

(** Modelled from the spec: [approve] of the asset, missing from the
    sources; it records the allowance of [spender] over [sender]. *)
Definition approve (sender spender : address) (amount : Z)
    (t : State) : Result State :=
  Ok (mkState (balanceOf t) (<[(sender, spender) := amount]> (allowance t))).

(** Modelled from the spec: the balance update of [push] and [pull],
    missing from the sources; it fails when the balance is insufficient. *)
Definition move (from to : address) (amount : Z)
    (b : gmap address Z) : Result (gmap address Z) :=
  if mget b from <? amount then Revert (Require "Insufficient balance")
  else
    let b1 := <[from := mget b from - amount]> b in
    new ← mget b1 to +! amount;
    Ok (<[to := new]> b1).

(** Modelled from the spec: [push(to, amount)], the asset's [transfer],
    missing from the sources. *)
Definition transfer (sender to : address) (amount : Z)
    (t : State) : Result State :=
  b ← move sender to amount (balanceOf t);
  Ok (mkState b (allowance t)).

(** Modelled from the spec: [pull(from, amount)], the asset's
    [transferFrom], missing from the sources; it fails when the
    allowance or the balance is insufficient. *)
Definition transferFrom (sender from to : address) (amount : Z)
    (t : State) : Result State :=
  let allowed := mget (allowance t) (from, sender) in
  if allowed <? amount then Revert (Require "Insufficient allowance")
  else
    b ← move from to amount (balanceOf t);
    Ok (mkState b (<[(from, sender) := allowed - amount]> (allowance t))).

End Token.

(** ** JubyVault *)

Module JubyVault.

Record UserDeposit : Type := mkUserDeposit {
  shares : Z;
  principal : Z;
  goalDate : Z;
  depositDate : Z;
  exists_ : bool
}.

Definition no_deposit : UserDeposit := mkUserDeposit 0 0 0 0 false.

Record State : Type := mkState {
  asset : address;
  morphoVault : address;
  jubyTreasury : address;
  owner : address;
  deposits : gmap address UserDeposit
}.

Inductive Event : Type :=
| Deposited (user : address) (amount shares goalDate depositDate : Z)
| Withdrawn (user : address) (principal yield penalty totalReceived : Z)
            (isEarly : bool)
| PenaltyCollected (user : address) (amount : Z)
| TreasuryUpdated (oldTreasury newTreasury : address).

(** [deposits[user]] *)
Definition deposit_of (st : State) (user : address) : UserDeposit :=
  default no_deposit (deposits st !! user).

Definition set_deposit (user : address) (d : UserDeposit) (st : State) : State :=
  mkState (asset st) (morphoVault st) (jubyTreasury st) (owner st)
          (<[user := d]> (deposits st)).
(** [delete deposits[user]] *)
Definition delete_deposit (user : address) (st : State) : State :=
  mkState (asset st) (morphoVault st) (jubyTreasury st) (owner st)
          (delete user (deposits st)).
Definition set_jubyTreasury (a : address) (st : State) : State :=
  mkState (asset st) (morphoVault st) a (owner st) (deposits st).
Definition set_owner (a : address) (st : State) : State :=
  mkState (asset st) (morphoVault st) (jubyTreasury st) a (deposits st).

Definition constructor (sender _asset _morphoVault _jubyTreasury : address)
    : Result State :=
  if _asset =? 0 then Revert (Require "Invalid asset")
  else if _morphoVault =? 0 then Revert (Require "Invalid vault")
  else if _jubyTreasury =? 0 then Revert (Require "Invalid treasury")
  else Ok (mkState _asset _morphoVault _jubyTreasury sender ∅).

Definition Op (A : Type) : Type := M State Event A.

(** *** Morpho vault interactions *)

Definition _depositToMorpho (this : address) (assets : Z) : Op Z :=
  vault ← gets morphoVault;
  r ← call (mkCall vault CALL "deposit(uint256,address)" [assets; this]);
  require (success r) "Morpho deposit failed";;
  liftR (abi_decode_uint256 (data r)).

Definition _redeemFromMorpho (this : address) (shares : Z) : Op Z :=
  vault ← gets morphoVault;
  r ← call (mkCall vault CALL "redeem(uint256,address,address)"
                   [shares; this; this]);
  require (success r) "Morpho redeem failed";;
  liftR (abi_decode_uint256 (data r)).

Definition _convertToAssets (shares : Z) : Op Z :=
  vault ← gets morphoVault;
  r ← call (mkCall vault STATICCALL "convertToAssets(uint256)" [shares]);
  require (success r) "convertToAssets failed";;
  liftR (abi_decode_uint256 (data r)).

(** *** External functions *)

Definition deposit (this sender : address) (now : Z)
    (amount goalDate : Z) : Op Z :=
  require (amount >? 0) "Cannot deposit 0";;
  require (goalDate >? now) "Goal date must be in future";;
  d ← gets (fun st => deposit_of st sender);
  require (negb (exists_ d)) "Existing deposit found. Withdraw first.";;
  tok ← gets asset;
  vault ← gets morphoVault;
  _transferFrom tok sender this amount;;
  _approve tok vault amount;;
  shares ← _depositToMorpho this amount;
  modify (set_deposit sender (mkUserDeposit shares amount goalDate now true));;
  emit (Deposited sender amount shares goalDate now);;
  mret shares.

Definition withdraw (this sender : address) (now : Z) : Op Z :=
  userDeposit ← gets (fun st => deposit_of st sender);
  require (exists_ userDeposit) "No deposit found";;
  currentValue ← _convertToAssets (shares userDeposit);
  yield ← (if currentValue >? principal userDeposit
           then liftR (currentValue -! principal userDeposit)
           else mret 0);
  let isEarly := now <? goalDate userDeposit in
  '(penalty, userReceives) ←
    (if isEarly && (yield >? 0) then
       penalty ← liftR (yield /! 2);
       rest ← liftR (yield -! penalty);
       userReceives ← liftR (principal userDeposit +! rest);
       mret (penalty, userReceives)
     else mret (0, currentValue));
  modify (delete_deposit sender);;
  assetsReceived ← _redeemFromMorpho this (shares userDeposit);
  floor ← liftR (currentValue -! 10);
  require (assetsReceived >=? floor) "Slippage too high";;
  tok ← gets asset;
  when (penalty >? 0)
    (treasury ← gets jubyTreasury;
     _transfer tok treasury penalty;;
     emit (PenaltyCollected sender penalty));;
  _transfer tok sender userReceives;;
  emit (Withdrawn sender (principal userDeposit) yield penalty userReceives
                  isEarly);;
  mret userReceives.

Record UserInfo : Type := mkUserInfo {
  ui_principal : Z;
  ui_currentValue : Z;
  ui_yield : Z;
  ui_goalDate : Z;
  ui_isEarly : bool;
  ui_potentialPenalty : Z
}.

Definition getUserInfo (now : Z) (user : address) : Op UserInfo :=
  userDeposit ← gets (fun st => deposit_of st user);
  if negb (exists_ userDeposit) then mret (mkUserInfo 0 0 0 0 false 0)
  else
    let principal := principal userDeposit in
    currentValue ← _convertToAssets (shares userDeposit);
    yield ← (if currentValue >? principal
             then liftR (currentValue -! principal)
             else mret 0);
    let goalDate := goalDate userDeposit in
    let isEarly := now <? goalDate in
    potentialPenalty ← (if isEarly && (yield >? 0)
                        then liftR (yield /! 2) else mret 0);
    mret (mkUserInfo principal currentValue yield goalDate isEarly
                     potentialPenalty).

Definition previewWithdrawal (now : Z) (user : address) : Op (Z * Z) :=
  userDeposit ← gets (fun st => deposit_of st user);
  if negb (exists_ userDeposit) then mret (0, 0)
  else
    currentValue ← _convertToAssets (shares userDeposit);
    yield ← (if currentValue >? principal userDeposit
             then liftR (currentValue -! principal userDeposit)
             else mret 0);
    let isEarly := now <? goalDate userDeposit in
    if isEarly && (yield >? 0) then
      penaltyAmount ← liftR (yield /! 2);
      rest ← liftR (yield -! penaltyAmount);
      userWillReceive ← liftR (principal userDeposit +! rest);
      mret (userWillReceive, penaltyAmount)
    else mret (currentValue, 0).

(** *** Admin functions *)

Definition updateTreasury (sender newTreasury : address) : Op unit :=
  o ← gets owner;
  require (sender =? o) "Only owner";;
  require (negb (newTreasury =? 0)) "Invalid treasury";;
  oldTreasury ← gets jubyTreasury;
  modify (set_jubyTreasury newTreasury);;
  emit (TreasuryUpdated oldTreasury newTreasury).

Definition transferOwnership (sender newOwner : address) : Op unit :=
  o ← gets owner;
  require (sender =? o) "Only owner";;
  require (negb (newOwner =? 0)) "Invalid owner";;
  modify (set_owner newOwner).

End JubyVault.

(** ** Running a call tree *)

(** [handle env c] is what the rest of the chain answers to the call [c]
    and the state it is left in; a callee that reverts leaves its state
    as it was and answers [success = false]. The callees of this
    repository, the share vault and the asset, never call their caller
    back, so the caller's storage is the same after the call. An [Abort]
    reverts the whole transaction. *)
Fixpoint run {S E A Env : Type} (handle : Env -> ExtCall -> Reply * Env)
    (p : Prog S E A) (env : Env) : Result (A * list E * Env) :=
  match p with
  | Done a => Ok (a, [], env)
  | Abort e => Revert e
  | Emit ev k =>
      '(a, log, env') ← run handle k env;
      Ok (a, ev :: log, env')
  | External _ c k =>
      let '(r, env') := handle env c in
      run handle (k r) env'
  end.

(** The low-level calls a call tree can make, whatever the replies, each
    with the storage the caller has at that moment: what the callee sees
    if it reads the caller back. *)
Fixpoint Calls {S E A : Type} (p : Prog S E A) (st' : S) (c' : ExtCall)
    : Prop :=
  match p with
  | Done _ | Abort _ => False
  | Emit _ k => Calls k st' c'
  | External st c k => (st = st' /\ c = c') \/ exists r, Calls (k r) st' c'
  end.

(** ** The deployed system: asset, share vault and ledger *)

Module World.

Record World : Type := mkWorld {
  token_addr : address;
  vault_addr : address;
  ledger_addr : address;
  token : Token.State;
  vault : MockMorphoVault.State;
  ledger : JubyVault.State
}.

(** The asset's function selector. *)
Definition token_dispatch (caller : address) (c : ExtCall)
    (t : Token.State) : Result (list Z * Token.State) :=
  match kind c with
  | STATICCALL =>
      if String.eqb (sig c) "balanceOf(address)" then
        match args c with
        | [a] => Ok ([mget (Token.balanceOf t) a], t)
        | _ => Revert DecodeError
        end
      else Revert DecodeError
  | CALL =>
      if String.eqb (sig c) "transfer(address,uint256)" then
        match args c with
        | [to; amount] =>
            t' ← Token.transfer caller to amount t; Ok ([1], t')
        | _ => Revert DecodeError
        end
      else if String.eqb (sig c) "transferFrom(address,address,uint256)" then
        match args c with
        | [from; to; amount] =>
            t' ← Token.transferFrom caller from to amount t; Ok ([1], t')
        | _ => Revert DecodeError
        end
      else if String.eqb (sig c) "approve(address,uint256)" then
        match args c with
        | [spender; amount] =>
            t' ← Token.approve caller spender amount t; Ok ([1], t')
        | _ => Revert DecodeError
        end
      else Revert DecodeError
  end.

(** What the share vault can reach: the asset. A call to an address
    without code succeeds with no data. *)
Definition handle_vault (tok vault_a : address)
    (t : Token.State) (c : ExtCall) : Reply * Token.State :=
  if target c =? tok then
    match token_dispatch vault_a c t with
    | Ok (d, t') => (mkReply true d, t')
    | Revert _ => (mkReply false [], t)
    end
  else (mkReply true [], t).

Definition Env : Type := MockMorphoVault.State * Token.State.

Definition run_vault {A} (tok vault_a : address)
    (op : MockMorphoVault.Op A) (env : Env) : Result (A * Env) :=
  '(a, v', _, t') ← run (handle_vault tok vault_a) (op env.1) env.2;
  Ok (a, (v', t')).

(** The share vault's function selector. *)
Definition vault_dispatch (tok vault_a caller : address) (now : Z)
    (c : ExtCall) (env : Env) : Result (list Z * Env) :=
  if String.eqb (sig c) "convertToAssets(uint256)" then
    match args c with
    | [shares] =>
        a ← MockMorphoVault.convertToAssets env.1 now shares;
        Ok ([a], env)
    | _ => Revert DecodeError
    end
  else
    match kind c with
    | STATICCALL => Revert DecodeError
    | CALL =>
        if String.eqb (sig c) "deposit(uint256,address)" then
          match args c with
          | [assets; receiver] =>
              '(s, env') ← run_vault tok vault_a
                  (MockMorphoVault.deposit vault_a caller now assets receiver)
                  env;
              Ok ([s], env')
          | _ => Revert DecodeError
          end
        else if String.eqb (sig c) "redeem(uint256,address,address)" then
          match args c with
          | [shares; receiver; owner] =>
              '(a, env') ← run_vault tok vault_a
                  (MockMorphoVault.redeem vault_a caller now shares receiver
                                          owner)
                  env;
              Ok ([a], env')
          | _ => Revert DecodeError
          end
        else Revert DecodeError
    end.

(** What the ledger can reach: the share vault and the asset. *)
Definition handle_ledger (tok vault_a ledger_a : address) (now : Z)
    (env : Env) (c : ExtCall) : Reply * Env :=
  if target c =? vault_a then
    match vault_dispatch tok vault_a ledger_a now c env with
    | Ok (d, env') => (mkReply true d, env')
    | Revert _ => (mkReply false [], env)
    end
  else if target c =? tok then
    match token_dispatch ledger_a c env.2 with
    | Ok (d, t') => (mkReply true d, (env.1, t'))
    | Revert _ => (mkReply false [], env)
    end
  else (mkReply true [], env).

(** A transaction sent to the ledger at time [now]. *)
Definition exec {A} (w : World) (now : Z) (op : JubyVault.Op A)
    : Result (A * list JubyVault.Event * World) :=
  '(a, st', log, env') ←
    run (handle_ledger (token_addr w) (vault_addr w) (ledger_addr w) now)
        (op (ledger w)) (vault w, token w);
  Ok (a, log, mkWorld (token_addr w) (vault_addr w) (ledger_addr w)
                      env'.2 env'.1 st').

(** A transaction sent to the share vault at time [now]. *)
Definition exec_vault {A} (w : World) (op : MockMorphoVault.Op A)
    : Result (A * World) :=
  '(a, env') ← run_vault (token_addr w) (vault_addr w) op (vault w, token w);
  Ok (a, mkWorld (token_addr w) (vault_addr w) (ledger_addr w)
                 env'.2 env'.1 (ledger w)).

Definition withdraw (w : World) (sender : address) (now : Z) :=
  exec w now (JubyVault.withdraw (ledger_addr w) sender now).
Definition deposit (w : World) (sender : address) (now amount goalDate : Z) :=
  exec w now (JubyVault.deposit (ledger_addr w) sender now amount goalDate).
Definition previewWithdrawal (w : World) (now : Z) (user : address) :=
  exec w now (JubyVault.previewWithdrawal now user).

Definition balance (w : World) (a : address) : Z :=
  mget (Token.balanceOf (token w)) a.

(** The ledger is deployed over this asset and this vault. *)
Definition wired (w : World) : Prop :=
  JubyVault.asset (ledger w) = token_addr w
  /\ JubyVault.morphoVault (ledger w) = vault_addr w
  /\ MockMorphoVault.asset (vault w) = token_addr w
  /\ token_addr w <> vault_addr w.

End World.

(** ** A deployment

    The asset at [USDC], the share vault at [VAULT], the ledger at
    [LEDGER], all deployed at time [1000]. Amounts are in the asset's
    smallest unit (six decimals). *)

Module Scenario.
Import World.

Definition USDC : address := 100.
Definition VAULT : address := 200.
Definition LEDGER : address := 300.
Definition TREASURY : address := 400.
Definition ADMIN : address := 9.
Definition ALICE : address := 1.
Definition BOB : address := 2.

Definition vault0 : MockMorphoVault.State :=
  MockMorphoVault.mkState USDC 0 0 1000 false ∅ ∅.
Definition ledger0 : JubyVault.State :=
  JubyVault.mkState USDC VAULT TREASURY ADMIN ∅.

(** Alice holds 1000 USDC and Bob 5 units, both approved to the ledger;
    570 units were sent to the vault to pay the simulated yield. *)
Definition token0 : Token.State :=
  Token.mkState
    (<[ALICE := 10 ^ 9]> (<[BOB := 5]> (<[VAULT := 570]> ∅)))
    (<[(ALICE, LEDGER) := 10 ^ 9]> (<[(BOB, LEDGER) := 5]> ∅)).
Definition genesis : World := mkWorld USDC VAULT LEDGER token0 vault0 ledger0.

(** After Alice's [deposit(10^9, goal)] through the ledger at time 1000. *)
Definition token1 : Token.State :=
  Token.mkState
    (<[ALICE := 0]> (<[BOB := 5]> (<[VAULT := 10 ^ 9 + 570]>
      (<[LEDGER := 0]> ∅))))
    (<[(ALICE, LEDGER) := 0]> (<[(BOB, LEDGER) := 5]>
      (<[(LEDGER, VAULT) := 0]> ∅))).
Definition vault1 : MockMorphoVault.State :=
  MockMorphoVault.mkState USDC (2 * 10 ^ 9) (2 * 10 ^ 9) 1000 true
    (<[MockMorphoVault.DEAD_ADDRESS := 10 ^ 9]> (<[LEDGER := 10 ^ 9]> ∅)) ∅.
Definition ledger1 (goal : Z) : JubyVault.State :=
  JubyVault.mkState USDC VAULT TREASURY ADMIN
    (<[ALICE := JubyVault.mkUserDeposit (10 ^ 9) (10 ^ 9) goal 1000 true]> ∅).
Definition funded (goal : Z) : World :=
  mkWorld USDC VAULT LEDGER token1 vault1 (ledger1 goal).

(** After Bob's [deposit(5, 2000)] through the ledger, also at time 1000. *)
Definition token2 : Token.State :=
  Token.mkState
    (<[ALICE := 0]> (<[BOB := 0]> (<[VAULT := 10 ^ 9 + 575]>
      (<[LEDGER := 0]> ∅))))
    (<[(ALICE, LEDGER) := 0]> (<[(BOB, LEDGER) := 0]>
      (<[(LEDGER, VAULT) := 0]> ∅))).
Definition vault2 : MockMorphoVault.State :=
  MockMorphoVault.mkState USDC (2 * 10 ^ 9 + 5) (2 * 10 ^ 9 + 5) 1000 true
    (<[MockMorphoVault.DEAD_ADDRESS := 10 ^ 9]>
      (<[LEDGER := 10 ^ 9 + 5]> ∅)) ∅.
Definition ledger2 : JubyVault.State :=
  JubyVault.mkState USDC VAULT TREASURY ADMIN
    (<[ALICE := JubyVault.mkUserDeposit (10 ^ 9) (10 ^ 9) 2000 1000 true]>
      (<[BOB := JubyVault.mkUserDeposit 5 5 2000 1000 true]> ∅)).
Definition dust : World := mkWorld USDC VAULT LEDGER token2 vault2 ledger2.

(** A fresh vault used without the ledger: Alice approved the vault. *)
Definition token_direct : Token.State :=
  Token.mkState (<[ALICE := 10 ^ 9]> ∅) (<[(ALICE, VAULT) := 10 ^ 9]> ∅).
Definition fresh : World :=
  mkWorld USDC VAULT LEDGER token_direct vault0 ledger0.

(** After Alice's own [deposit(10^9, ALICE)] into the fresh vault. *)
Definition token_direct1 : Token.State :=
  Token.mkState (<[ALICE := 0]> (<[VAULT := 10 ^ 9]> ∅))
                (<[(ALICE, VAULT) := 0]> ∅).
Definition vault_direct1 : MockMorphoVault.State :=
  MockMorphoVault.mkState USDC (2 * 10 ^ 9) (2 * 10 ^ 9) 1000 true
    (<[MockMorphoVault.DEAD_ADDRESS := 10 ^ 9]> (<[ALICE := 10 ^ 9]> ∅)) ∅.
Definition seeded : World :=
  mkWorld USDC VAULT LEDGER token_direct1 vault_direct1 ledger0.

End Scenario.

(** ** The ledger's interface *)

Module Ledger.
Import JubyVault.

(** The external functions of the ledger. *)
Inductive Tx : Type :=
| TxDeposit (amount goalDate : Z)
| TxWithdraw
| TxGetUserInfo (user : address)
| TxPreviewWithdrawal (user : address)
| TxUpdateTreasury (newTreasury : address)
| TxTransferOwnership (newOwner : address).

Definition dispatch (this sender : address) (now : Z) (tx : Tx) : Op unit :=
  match tx with
  | TxDeposit amount goalDate =>
      deposit this sender now amount goalDate;; mret tt
  | TxWithdraw => withdraw this sender now;; mret tt
  | TxGetUserInfo user => getUserInfo now user;; mret tt
  | TxPreviewWithdrawal user => previewWithdrawal now user;; mret tt
  | TxUpdateTreasury newTreasury => updateTreasury sender newTreasury
  | TxTransferOwnership newOwner => transferOwnership sender newOwner
  end.

(** The state of an account's record. *)
Inductive Status : Type := NoDeposit | Active.

Definition status (st : State) (user : address) : Status :=
  if exists_ (deposit_of st user) then Active else NoDeposit.

(** The three low-level calls of [withdraw()]. *)
Definition convertToAssets_call (st : State) (shares : Z) : ExtCall :=
  mkCall (morphoVault st) STATICCALL "convertToAssets(uint256)" [shares].
Definition redeem_call (st : State) (this : address) (shares : Z) : ExtCall :=
  mkCall (morphoVault st) CALL "redeem(uint256,address,address)"
         [shares; this; this].
Definition transfer_call (st : State) (to : address) (amount : Z) : ExtCall :=
  mkCall (asset st) CALL "transfer(address,uint256)" [to; amount].

Definition DUPLICATE_ACTIVE_DEPOSIT : Error :=
  Require "Existing deposit found. Withdraw first.".
Definition NO_ACTIVE_DEPOSIT : Error := Require "No deposit found".
End Ledger.

(** ** The spec's formulas *)

(** The penalty policy, as the spec writes it. *)
Definition spec_yield (currentValue principal : Z) : Z :=
  Z.max (currentValue - principal) 0.
Definition spec_penalty (isEarly : bool) (yield : Z) : Z :=
  if isEarly && (0 <? yield) then yield / 2 else 0.
Definition spec_userReceives (isEarly : bool) (principal currentValue : Z) : Z :=
  let yield := spec_yield currentValue principal in
  if isEarly && (0 <? yield)
  then principal + (yield - spec_penalty isEarly yield)
  else currentValue.


(** The yield accrued by a pool of [cached] assets over [elapsed]
    seconds, as the spec writes it. *)
Definition spec_accrued (cached elapsed : Z) : Z :=
  cached * MockMorphoVault.ANNUAL_YIELD_BPS * elapsed
  / (MockMorphoVault.SECONDS_365_DAYS * 10000).

(** ** The share vault's interface and its steps *)

Module Vault.
Import MockMorphoVault.

(** The state-changing external functions of the share vault. *)
Inductive Tx : Type :=
| TxDeposit (assets : Z) (receiver : address)
| TxMint (shares : Z) (receiver : address)
| TxWithdraw (assets : Z) (receiver owner : address)
| TxRedeem (shares : Z) (receiver owner : address)
| TxApprove (spender : address) (amount : Z)
| TxTransfer (to : address) (amount : Z)
| TxTransferFrom (from to : address) (amount : Z).

Definition dispatch (this sender : address) (now : Z) (tx : Tx) : Op unit :=
  match tx with
  | TxDeposit assets receiver => deposit this sender now assets receiver;; mret tt
  | TxMint shares receiver => mint this sender now shares receiver;; mret tt
  | TxWithdraw assets receiver owner =>
      withdraw this sender now assets receiver owner;; mret tt
  | TxRedeem shares receiver owner =>
      redeem this sender now shares receiver owner;; mret tt
  | TxApprove spender amount => approve sender spender amount;; mret tt
  | TxTransfer to amount => transfer sender to amount;; mret tt
  | TxTransferFrom from to amount => transferFrom sender from to amount;; mret tt
  end.

(** The sum of all share balances. *)
Definition sum_balances (m : gmap address Z) : Z :=
  map_fold (fun _ x acc => x + acc) 0 m.

(** The storage after [_accrueYield] has cached [total] at [now]. *)
Definition accrued (now total : Z) (v : State) : State :=
  set_lastYieldUpdate now (set_totalAssets total v).

(** The storage after [_initializeVault] and [initialized = true]. *)
Definition with_dead_shares (v : State) : State :=
  set_initialized true
    (set_totalAssets DEAD_SHARES
       (set_balanceOf DEAD_ADDRESS DEAD_SHARES
          (set_totalSupply DEAD_SHARES v))).

(** The storage [deposit] and [mint] work on: after the accrual and, on
    the first call, the initialization. *)
Definition prepared (now total : Z) (v : State) : State :=
  if initialized v then accrued now total v
  else with_dead_shares (accrued now total v).

(** The storage after minting [shares] to [receiver] against [assets]. *)
Definition minted (receiver : address) (shares assets : Z) (v : State) : State :=
  set_totalAssets (_totalAssets v + assets)
    (set_balanceOf receiver (mget (balanceOf v) receiver + shares)
       (set_totalSupply (totalSupply v + shares) v)).

(** The storage after burning [shares] of [owner] against [assets]. *)
Definition burned (owner : address) (shares assets : Z) (v : State) : State :=
  set_totalAssets (_totalAssets v - assets)
    (set_totalSupply (totalSupply v - shares)
       (set_balanceOf owner (mget (balanceOf v) owner - shares) v)).

(** The storage after the allowance check of [withdraw] and [redeem]. *)
Definition spent (sender owner : address) (shares : Z) (v : State) : State :=
  if sender =? owner then v
  else set_allowance owner sender
         (mget (allowance v) (owner, sender) - shares) v.

(** The storage after moving [amount] shares from [from] to [to]. *)
Definition moved (from to : address) (amount : Z) (v : State) : State :=
  let v1 := set_balanceOf from (mget (balanceOf v) from - amount) v in
  set_balanceOf to (mget (balanceOf v1) to + amount) v1.

(** The arguments of a call are [uint256] values. *)
Definition tx_wf (tx : Tx) : Prop :=
  match tx with
  | TxDeposit x _ | TxMint x _ | TxWithdraw x _ _ | TxRedeem x _ _
  | TxApprove _ x | TxTransfer _ x | TxTransferFrom _ _ x => is_uint256 x
  end.

(** The share token's own functions. *)
Definition share_move (tx : Tx) : bool :=
  match tx with
  | TxApprove _ _ | TxTransfer _ _ | TxTransferFrom _ _ _ => true
  | _ => false
  end.

(** Every share is held by someone: the balances are not negative and
    add up to the supply, and a vault never initialized has no share. *)
Definition accounted (v : State) : Prop :=
  (forall a, 0 <= mget (balanceOf v) a)
  /\ sum_balances (balanceOf v) = totalSupply v
  /\ (initialized v = false -> totalSupply v = 0).

(** The dead shares are in place and nobody may spend them. *)
Definition dead_locked (v : State) : Prop :=
  (initialized v = true -> DEAD_SHARES <= mget (balanceOf v) DEAD_ADDRESS)
  /\ (forall spender, mget (allowance v) (DEAD_ADDRESS, spender) = 0).

End Vault.

(** The three low-level calls of the ledger's [deposit]. *)
Module LedgerCalls.
Import JubyVault.

Definition transferFrom_call (st : State) (from to : address) (amount : Z)
    : ExtCall :=
  mkCall (asset st) CALL "transferFrom(address,address,uint256)"
         [from; to; amount].
Definition approve_call (st : State) (amount : Z) : ExtCall :=
  mkCall (asset st) CALL "approve(address,uint256)" [morphoVault st; amount].
Definition deposit_call (st : State) (this : address) (amount : Z) : ExtCall :=
  mkCall (morphoVault st) CALL "deposit(uint256,address)" [amount; this].

End LedgerCalls.

(** Alice again holds 1000 USDC approved to the vault, after her own
    first deposit. *)
Module VaultScenario.
Import Scenario.

Definition token_again : Token.State :=
  Token.mkState (<[ALICE := 10 ^ 9]> (<[VAULT := 10 ^ 9]> ∅))
                (<[(ALICE, VAULT) := 10 ^ 9]> ∅).

End VaultScenario.

(** * Properties *)

(** ** Checked arithmetic *)

Lemma MAX_UINT256_big : 10 ^ 30 <= MAX_UINT256.
Proof. unfold MAX_UINT256. apply Z.leb_le. vm_compute. reflexivity. Qed.

Lemma checked_add_Ok a b c :
  a +! b = Ok c <-> c = a + b /\ a + b <= MAX_UINT256.
Proof.
  unfold checked_add. destruct (Z.leb_spec (a + b) MAX_UINT256); split.
  - intros [= <-]. auto.
  - intros [-> _]. reflexivity.
  - discriminate.
  - intros [_ Hle]. lia.
Qed.

Lemma checked_sub_Ok a b c : a -! b = Ok c <-> c = a - b /\ b <= a.
Proof.
  unfold checked_sub. destruct (Z.leb_spec b a); split.
  - intros [= <-]. auto.
  - intros [-> _]. reflexivity.
  - discriminate.
  - intros [_ Hle]. lia.
Qed.

Lemma checked_mul_Ok a b c :
  a *! b = Ok c <-> c = a * b /\ a * b <= MAX_UINT256.
Proof.
  unfold checked_mul. destruct (Z.leb_spec (a * b) MAX_UINT256); split.
  - intros [= <-]. auto.
  - intros [-> _]. reflexivity.
  - discriminate.
  - intros [_ Hle]. lia.
Qed.

Lemma checked_div_Ok a b c : a /! b = Ok c <-> c = a / b /\ b <> 0.
Proof.
  unfold checked_div. destruct (Z.eqb_spec b 0); split.
  - discriminate.
  - intros [_ Hne]. contradiction.
  - intros [= <-]. auto.
  - intros [-> _]. reflexivity.
Qed.

Lemma bind_Ok {A B} (r : Result A) (f : A -> Result B) b :
  r ≫= f = Ok b <-> exists a, r = Ok a /\ f a = Ok b.
Proof.
  destruct r as [a|e]; simpl; split.
  - intros H. exists a. split; [reflexivity | exact H].
  - intros (x & H1 & H2). inversion H1; subst. exact H2.
  - intros H. discriminate H.
  - intros (x & H1 & _). discriminate H1.
Qed.

Lemma bind_Ok_eq {A B} (a : A) (f : A -> Result B) : Ok a ≫= f = f a.
Proof. reflexivity. Qed.

Lemma checked_add_eq a b : a + b <= MAX_UINT256 -> a +! b = Ok (a + b).
Proof. intros H. apply checked_add_Ok. auto. Qed.
Lemma checked_sub_eq a b : b <= a -> a -! b = Ok (a - b).
Proof. intros H. apply checked_sub_Ok. auto. Qed.
Lemma checked_mul_eq a b : a * b <= MAX_UINT256 -> a *! b = Ok (a * b).
Proof. intros H. apply checked_mul_Ok. auto. Qed.
Lemma checked_div_eq a b : b <> 0 -> a /! b = Ok (a / b).
Proof. intros H. apply checked_div_Ok. auto. Qed.

(** Peel one checked operation off a successful computation. *)
Ltac peel H :=
  let x := fresh "x" in
  let Hx := fresh "Hx" in
  apply bind_Ok in H as (x & Hx & H);
  first [ apply checked_add_Ok in Hx as [-> Hx]
        | apply checked_sub_Ok in Hx as [-> Hx]
        | apply checked_mul_Ok in Hx as [-> Hx]
        | apply checked_div_Ok in Hx as [-> Hx]
        | idtac ].

(** ** The share vault's pricing *)

Section Pricing.
Import MockMorphoVault.

Lemma spec_accrued_nonneg cached elapsed :
  0 <= cached -> 0 <= elapsed -> 0 <= spec_accrued cached elapsed.
Proof.
  intros Hc He. unfold spec_accrued, ANNUAL_YIELD_BPS, SECONDS_365_DAYS.
  apply Z.div_pos; nia.
Qed.

Lemma spec_accrued_mono cached e1 e2 :
  0 <= cached -> e1 <= e2 -> spec_accrued cached e1 <= spec_accrued cached e2.
Proof.
  intros Hc He. unfold spec_accrued, ANNUAL_YIELD_BPS, SECONDS_365_DAYS.
  apply Z.div_le_mono; nia.
Qed.

(** What a successful [totalAssets()] has computed. *)
Lemma totalAssets_Ok v now r :
  totalAssets v now = Ok r ->
  r = _totalAssets v + spec_accrued (_totalAssets v) (now - lastYieldUpdate v)
  /\ (_totalAssets v = 0
      \/ lastYieldUpdate v <= now
         /\ (now = lastYieldUpdate v
             \/ _totalAssets v * ANNUAL_YIELD_BPS * (now - lastYieldUpdate v)
                  <= MAX_UINT256 /\ r <= MAX_UINT256)).
Proof.
  unfold totalAssets, spec_accrued.
  destruct (Z.eqb_spec (_totalAssets v) 0) as [E|E].
  - intros [= <-]. rewrite E. split; [reflexivity | auto].
  - intros H. peel H.
    destruct (Z.eqb_spec (now - lastYieldUpdate v) 0) as [E0|E0].
    + inversion H; subst. rewrite E0, Z.mul_0_r, Zdiv_0_l.
      split; [lia | right; split; [lia | left; lia]].
    + peel H. peel H. peel H. peel H.
      apply checked_add_Ok in H as [-> Hle].
      split; [reflexivity | right; split; [lia | right; split; assumption]].
Qed.

(** [totalAssets()] returns whenever the product does not overflow. *)
Lemma totalAssets_defined v now :
  is_uint256 (_totalAssets v) ->
  lastYieldUpdate v <= now ->
  _totalAssets v * ANNUAL_YIELD_BPS * (now - lastYieldUpdate v) <= MAX_UINT256 ->
  totalAssets v now
  = Ok (_totalAssets v
        + spec_accrued (_totalAssets v) (now - lastYieldUpdate v)).
Proof.
  intros [H0 HM] Ht Hno. pose proof MAX_UINT256_big as Hbig.
  unfold totalAssets, spec_accrued.
  destruct (Z.eqb_spec (_totalAssets v) 0) as [E|E].
  { rewrite E. reflexivity. }
  rewrite checked_sub_eq, bind_Ok_eq by lia.
  destruct (Z.eqb_spec (now - lastYieldUpdate v) 0) as [E0|E0].
  { rewrite E0, Z.mul_0_r, Zdiv_0_l. f_equal. lia. }
  set (T := _totalAssets v) in *. set (el := now - lastYieldUpdate v) in *.
  assert (Hel : 1 <= el) by lia.
  assert (HT : T * ANNUAL_YIELD_BPS <= MAX_UINT256).
  { unfold ANNUAL_YIELD_BPS in *. nia. }
  assert (Hy : (SECONDS_365_DAYS * 10000)
               * (T * ANNUAL_YIELD_BPS * el / (SECONDS_365_DAYS * 10000))
               <= T * ANNUAL_YIELD_BPS * el).
  { apply Z.mul_div_le. unfold SECONDS_365_DAYS. lia. }
  assert (Hy0 : 0 <= T * ANNUAL_YIELD_BPS * el / (SECONDS_365_DAYS * 10000)).
  { apply Z.div_pos; unfold ANNUAL_YIELD_BPS, SECONDS_365_DAYS; nia. }
  rewrite (checked_mul_eq T), bind_Ok_eq by exact HT.
  rewrite (checked_mul_eq (T * ANNUAL_YIELD_BPS)), bind_Ok_eq by exact Hno.
  rewrite (checked_mul_eq SECONDS_365_DAYS), bind_Ok_eq
    by (unfold SECONDS_365_DAYS; lia).
  rewrite checked_div_eq, bind_Ok_eq by (unfold SECONDS_365_DAYS; lia).
  apply checked_add_eq.
  unfold ANNUAL_YIELD_BPS, SECONDS_365_DAYS in *. lia.
Qed.

Lemma totalAssets_range v now r :
  wf v -> totalAssets v now = Ok r -> 0 <= r <= MAX_UINT256.
Proof.
  intros (_ & [H0 HM] & _) H. pose proof MAX_UINT256_big.
  apply totalAssets_Ok in H as [-> [E | [Ht [-> | [_ Hle]]]]].
  - rewrite E. unfold spec_accrued. rewrite !Z.mul_0_l, Zdiv_0_l. lia.
  - rewrite Z.sub_diag. unfold spec_accrued. rewrite Z.mul_0_r, Zdiv_0_l. lia.
  - split; [| exact Hle].
    pose proof (spec_accrued_nonneg (_totalAssets v) (now - lastYieldUpdate v)).
    lia.
Qed.

Lemma totalAssets_earlier v t1 t2 r2 :
  wf v -> lastYieldUpdate v <= t1 <= t2 ->
  totalAssets v t2 = Ok r2 ->
  exists r1, totalAssets v t1 = Ok r1 /\ r1 <= r2.
Proof.
  intros Hwf [H1 H2] Hr2. destruct Hwf as (Hs & HT & Hl).
  pose proof Hr2 as Hinv.
  apply totalAssets_Ok in Hinv as [-> [E | [Ht [-> | [Hno _]]]]].
  - exists 0. unfold totalAssets. rewrite E. simpl.
    split; [reflexivity |]. unfold spec_accrued.
    rewrite !Z.mul_0_l, Zdiv_0_l. lia.
  - assert (t1 = lastYieldUpdate v) as -> by lia.
    eexists. split; [apply totalAssets_defined; auto; try lia | lia].
    rewrite Z.sub_diag, Z.mul_0_r. pose proof MAX_UINT256_big. lia.
  - eexists. split.
    + apply totalAssets_defined; auto.
      destruct HT. unfold ANNUAL_YIELD_BPS in *. nia.
    + destruct HT.
      pose proof (spec_accrued_mono (_totalAssets v)
                    (t1 - lastYieldUpdate v) (t2 - lastYieldUpdate v)).
      lia.
Qed.

(** C7. [totalAssets()] is [cachedTotalAssets] plus the floor of
    [cachedTotalAssets * annualYieldRateBps * elapsedSeconds /
    (secondsPerYear * 10000)], the elapsed time running from
    [lastAccrualTime] to now; it is [0] whenever [cachedTotalAssets] is
    [0]; and it is a read: as an operation on the vault it performs no
    call, emits no event and hands back the storage it was given. The
    value is returned whenever the product fits a [uint256] (checked
    arithmetic reverts otherwise), and whatever it returns is that
    value. *)
Theorem totalAssets_spec (v : State) (now : Z) :
  let cached := _totalAssets v in
  let elapsed := now - lastYieldUpdate v in
  let value := cached + cached * 500 * elapsed / (31536000 * 10000) in
  (cached = 0 -> totalAssets v now = Ok 0)
  /\ (is_uint256 cached -> lastYieldUpdate v <= now ->
      cached * 500 * elapsed <= MAX_UINT256 ->
      totalAssets v now = Ok value)
  /\ (forall r, totalAssets v now = Ok r -> r = value)
  /\ (forall r, totalAssets v now = Ok r ->
      view (S := State) (E := Event) (fun s => totalAssets s now) v
      = Done (r, v)).
Proof.
  cbv zeta. repeat split.
  - intros E. unfold totalAssets. rewrite E. reflexivity.
  - intros Hu Ht Hno. apply totalAssets_defined; assumption.
  - intros r Hr. apply totalAssets_Ok in Hr as [-> _]. reflexivity.
  - intros r Hr. unfold view. rewrite Hr. reflexivity.
Qed.

(** The vault of the scenario, 360 seconds after its accrual. *)
Lemma totalAssets_spec_witness :
  totalAssets Scenario.vault1 1360 = Ok 2000001141.
Proof.
  apply (proj1 (proj2 (totalAssets_spec Scenario.vault1 1360))).
  - unfold is_uint256, MAX_UINT256. simpl. lia.
  - simpl. lia.
  - unfold MAX_UINT256. simpl. lia.
Defined.

(** What the two conversions have computed when they return. *)
Lemma convertToShares_Ok v now assets s :
  convertToShares v now assets = Ok s ->
  exists total, totalAssets v now = Ok total
    /\ (s = assets /\ (totalSupply v = 0 \/ total = 0)
        \/ s = assets * totalSupply v / total
           /\ totalSupply v <> 0 /\ total <> 0
           /\ assets * totalSupply v <= MAX_UINT256).
Proof.
  unfold convertToShares. intros H.
  apply bind_Ok in H as (total & Ht & H). exists total. split; [exact Ht |].
  destruct (Z.eqb_spec (totalSupply v) 0) as [E|E]; simpl in H.
  { inversion H. auto. }
  destruct (Z.eqb_spec total 0) as [E'|E'].
  { inversion H. auto. }
  peel H. apply checked_div_Ok in H as [-> _]. right. auto.
Qed.

Lemma convertToAssets_Ok v now shares a :
  convertToAssets v now shares = Ok a ->
  a = shares /\ totalSupply v = 0
  \/ exists total, totalAssets v now = Ok total
       /\ a = shares * total / totalSupply v
       /\ totalSupply v <> 0 /\ shares * total <= MAX_UINT256.
Proof.
  unfold convertToAssets. intros H.
  destruct (Z.eqb_spec (totalSupply v) 0) as [E|E].
  { inversion H. auto. }
  apply bind_Ok in H as (total & Ht & H).
  peel H. apply checked_div_Ok in H as [-> _]. right. exists total. auto.
Qed.

Lemma convertToAssets_defined v now shares total :
  totalSupply v <> 0 -> totalAssets v now = Ok total ->
  shares * total <= MAX_UINT256 ->
  convertToAssets v now shares = Ok (shares * total / totalSupply v).
Proof.
  intros Hs Ht Hno. unfold convertToAssets.
  destruct (Z.eqb_spec (totalSupply v) 0) as [E|_]; [contradiction |].
  rewrite Ht, bind_Ok_eq, checked_mul_eq, bind_Ok_eq by exact Hno.
  apply checked_div_eq. exact Hs.
Qed.

Lemma convertToShares_defined v now assets total :
  totalSupply v <> 0 -> total <> 0 -> totalAssets v now = Ok total ->
  assets * totalSupply v <= MAX_UINT256 ->
  convertToShares v now assets = Ok (assets * totalSupply v / total).
Proof.
  intros Hs Hne Ht Hno. unfold convertToShares.
  rewrite Ht, bind_Ok_eq.
  destruct (Z.eqb_spec (totalSupply v) 0) as [E|_]; [contradiction |].
  destruct (Z.eqb_spec total 0) as [E|_]; [contradiction | simpl].
  rewrite checked_mul_eq, bind_Ok_eq by exact Hno.
  apply checked_div_eq. exact Hne.
Qed.

(** Floor, then floor back, never gains. *)
Lemma floor_round_trip a s t :
  0 <= a -> 0 < s -> 0 < t -> a * s / t * t / s <= a.
Proof.
  intros Ha Hs Ht.
  assert (H1 : t * (a * s / t) <= a * s) by (apply Z.mul_div_le; lia).
  assert (H2 : a * s / t * t / s <= a * s / s).
  { apply Z.div_le_mono; lia. }
  rewrite Z.div_mul in H2 by lia. exact H2.
Qed.

(** C4. With a nonzero share supply, converting assets to shares and
    back never yields more than the starting amount; and both
    conversions return whenever the pool's value is defined and
    [assets * totalSupply] fits a [uint256]. *)
Theorem convert_round_trip (v : State) (now assets : Z) :
  wf v -> 0 < totalSupply v -> 0 <= assets ->
  (forall s a,
      convertToShares v now assets = Ok s ->
      convertToAssets v now s = Ok a ->
      a <= assets)
  /\ (forall total,
      totalAssets v now = Ok total ->
      assets * totalSupply v <= MAX_UINT256 ->
      exists s a,
        convertToShares v now assets = Ok s
        /\ convertToAssets v now s = Ok a
        /\ a <= assets).
Proof.
  intros Hwf Hs Ha.
  assert (Hround : forall s a,
      convertToShares v now assets = Ok s ->
      convertToAssets v now s = Ok a -> a <= assets).
  { intros s a H1 H2.
    apply convertToShares_Ok in H1 as (total & Ht & H1).
    pose proof (totalAssets_range _ _ _ Hwf Ht) as [Ht0 _].
    apply convertToAssets_Ok in H2 as [[_ E] | (total' & Ht' & -> & _ & _)];
      [lia |].
    rewrite Ht in Ht'. inversion Ht'; subst total'.
    destruct H1 as [[-> [E | ->]] | (-> & _ & Hne & _)]; [lia | |].
    - rewrite Z.mul_0_r, Zdiv_0_l. exact Ha.
    - apply floor_round_trip; lia. }
  split; [exact Hround |].
  intros total Ht Hno.
  pose proof (totalAssets_range _ _ _ Hwf Ht) as [Ht0 _].
  pose proof MAX_UINT256_big as Hbig.
  destruct (Z.eq_dec total 0) as [-> | Hne].
  - exists assets, 0.
    assert (H1 : convertToShares v now assets = Ok assets).
    { unfold convertToShares. rewrite Ht, bind_Ok_eq.
      rewrite orb_true_r. reflexivity. }
    assert (H2 : convertToAssets v now assets = Ok 0).
    { rewrite (convertToAssets_defined v now assets 0) by (auto; lia).
      rewrite Z.mul_0_r, Zdiv_0_l. reflexivity. }
    auto.
  - eexists _, _.
    assert (H1 := convertToShares_defined v now assets total
                    ltac:(lia) Hne Ht Hno).
    assert (H2 : convertToAssets v now (assets * totalSupply v / total)
                 = Ok (assets * totalSupply v / total * total
                       / totalSupply v)).
    { apply convertToAssets_defined; [lia | exact Ht |].
      pose proof (Z.mul_div_le (assets * totalSupply v) total ltac:(lia)).
      lia. }
    split; [exact H1 |]. split; [exact H2 |]. exact (Hround _ _ H1 H2).
Qed.

(** The round trip of [10^9] units in the vault of the scenario. *)
Lemma convert_round_trip_witness :
  exists s a,
    convertToShares Scenario.vault1 1360 (10 ^ 9) = Ok s
    /\ convertToAssets Scenario.vault1 1360 s = Ok a
    /\ a <= 10 ^ 9.
Proof.
  refine (proj2 (convert_round_trip Scenario.vault1 1360 (10 ^ 9) _ _ _)
                2000001141 _ _).
  - unfold wf, is_uint256, MAX_UINT256. simpl. lia.
  - simpl. lia.
  - lia.
  - reflexivity.
  - unfold MAX_UINT256. simpl. lia.
Defined.

(** C6, as the claim states it, fails: one second after the accrual of
    the first deposit the pool has grown by three units, and one share
    is still worth one unit. *)
Lemma share_price_not_strictly_increasing :
  0 < ANNUAL_YIELD_BPS
  /\ 0 < totalSupply Scenario.vault1
  /\ 0 < _totalAssets Scenario.vault1
  /\ lastYieldUpdate Scenario.vault1 = 1000
  /\ totalAssets Scenario.vault1 1000 = Ok 2000000000
  /\ totalAssets Scenario.vault1 1001 = Ok 2000000003
  /\ exists a0 a1,
       convertToAssets Scenario.vault1 1000 1 = Ok a0
       /\ convertToAssets Scenario.vault1 1001 1 = Ok a1
       /\ ~ a0 < a1.
Proof.
  repeat split; try reflexivity.
  exists 1, 1. repeat split; try reflexivity. lia.
Qed.

(** C6, amended. Between two instants after an accrual the asset value
    of one share, [convertToAssets(1)], does not decrease; both values
    are returned whenever the accrual up to the later instant fits a
    [uint256]. *)
Theorem share_price_monotone (v : State) (t1 t2 : Z) :
  wf v -> lastYieldUpdate v <= t1 -> t1 <= t2 ->
  _totalAssets v * ANNUAL_YIELD_BPS * (t2 - lastYieldUpdate v) <= MAX_UINT256 ->
  exists a1 a2,
    convertToAssets v t1 1 = Ok a1
    /\ convertToAssets v t2 1 = Ok a2
    /\ a1 <= a2.
Proof.
  intros Hwf H1 H2 Hno. pose proof Hwf as (Hs & HT & Hl).
  assert (Hr2 := totalAssets_defined v t2 HT ltac:(lia) Hno).
  destruct (totalAssets_earlier v t1 t2 _ Hwf ltac:(lia) Hr2)
    as (r1 & Hr1 & Hle).
  pose proof (totalAssets_range _ _ _ Hwf Hr1) as [? ?].
  pose proof (totalAssets_range _ _ _ Hwf Hr2) as [? ?].
  destruct (Z.eq_dec (totalSupply v) 0) as [E | Hne].
  - exists 1, 1. unfold convertToAssets. rewrite E. simpl. auto with zarith.
  - eexists _, _.
    split; [apply (convertToAssets_defined v t1 1 r1); auto; lia |].
    split; [apply (convertToAssets_defined v t2 1); eauto; lia |].
    apply Z.div_le_mono; [destruct Hs; lia | lia].
Qed.

(** The vault of the scenario, at its accrual and a year later. *)
Lemma share_price_monotone_witness :
  exists a1 a2,
    convertToAssets Scenario.vault1 1000 1 = Ok a1
    /\ convertToAssets Scenario.vault1 (1000 + 86400 * 365) 1 = Ok a2
    /\ a1 <= a2.
Proof.
  apply (share_price_monotone Scenario.vault1 1000 (1000 + 86400 * 365)).
  - unfold wf, is_uint256, MAX_UINT256. simpl. lia.
  - simpl. lia.
  - lia.
  - apply Z.leb_le. vm_compute. reflexivity.
Defined.
End Pricing.

(** ** The ledger, against any environment *)

(** Unfold the monad of a contract function down to its call tree. *)
Ltac unfold_ops :=
  unfold JubyVault._convertToAssets, JubyVault._redeemFromMorpho,
    JubyVault._depositToMorpho, _transfer, _transferFrom, _approve, when,
    view in *;
  unfold mbind, M_bind, mret, M_ret, gets, require, call, modify, emit,
    fail in *.

(** Walk a successful run down its call tree, one test at a time. *)
Ltac crunch H :=
  repeat (cbn in H;
          match type of H with
          | context [match ?h ?e ?c with (_, _) => _ end] =>
              let r := fresh "r" in
              let env := fresh "env" in
              let Hc := fresh "Hc" in
              destruct (h e c) as [r env] eqn:Hc
          | context [liftR ?x] => destruct x eqn:?
          | context [if ?b then _ else _] => destruct b eqn:?
          end; try discriminate).

(** Walk the calls of a call tree, one node at a time; the goals left are
    the calls themselves. *)
Ltac crunch_calls H :=
  repeat (cbn in H;
          match type of H with
          | False => contradiction
          | _ \/ _ => destruct H as [[<- <-] | [? H]]
          | context [liftR ?x] => destruct x eqn:?
          | context [if ?b then _ else _] => destruct b eqn:?
          end).

Lemma spec_payout_code (now goal p cv : Z) :
  let yield := if cv >? p then cv - p else 0 in
  yield = spec_yield cv p
  /\ (if (now <? goal) && (yield >? 0) then yield / 2 else 0)
     = spec_penalty (now <? goal) (spec_yield cv p)
  /\ (if (now <? goal) && (yield >? 0) then p + (yield - yield / 2) else cv)
     = spec_userReceives (now <? goal) p cv.
Proof.
  cbv zeta. unfold spec_userReceives, spec_penalty, spec_yield.
  rewrite !Z.gtb_ltb.
  destruct (Z.ltb_spec p cv).
  - rewrite Z.max_l by lia.
    destruct (now <? goal), (0 <? cv - p); simpl; auto.
  - rewrite Z.max_r by lia.
    destruct (now <? goal); simpl; auto.
Qed.

Section LedgerRun.
Context {Env : Type} (handle : Env -> ExtCall -> Reply * Env).
Import JubyVault Ledger.

(** A successful [withdraw()]: the calls it made, in order, and what it
    paid. *)
Lemma withdraw_run_Ok this sender now st env ret st' log env' :
  run handle (withdraw this sender now st) env = Ok (ret, st', log, env') ->
  let d := deposit_of st sender in
  let isEarly := now <? goalDate d in
  exists r1 env1 cv r2 env2 received env3 r4,
    exists_ d = true
    /\ handle env (convertToAssets_call st (shares d)) = (r1, env1)
    /\ success r1 = true /\ abi_decode_uint256 (data r1) = Ok cv
    /\ handle env1 (redeem_call st this (shares d)) = (r2, env2)
    /\ success r2 = true /\ abi_decode_uint256 (data r2) = Ok received
    /\ 10 <= cv /\ cv - 10 <= received
    /\ ret = spec_userReceives isEarly (principal d) cv
    /\ ret <= MAX_UINT256
    /\ st' = delete_deposit sender st
    /\ (let pen := spec_penalty isEarly (spec_yield cv (principal d)) in
        if pen >? 0
        then exists r3,
               handle env2 (transfer_call st (jubyTreasury st) pen) = (r3, env3)
               /\ token_call_ok r3 = Ok true
               /\ log = [PenaltyCollected sender pen;
                         Withdrawn sender (principal d)
                                   (spec_yield cv (principal d)) pen ret
                                   isEarly]
        else env3 = env2
             /\ log = [Withdrawn sender (principal d)
                                 (spec_yield cv (principal d)) pen ret
                                 isEarly])
    /\ handle env3 (transfer_call st sender ret) = (r4, env')
    /\ token_call_ok r4 = Ok true.
Proof.
  intros H d isEarly. subst d isEarly.
  unfold withdraw in H. unfold_ops. cbn in H.
  destruct (exists_ (deposit_of st sender)) eqn:Hex; cbn in H; [| discriminate].
  destruct (handle env _) as [r1 env1] eqn:Hc1 in H.
  destruct (success r1) eqn:Hs1; cbn in H; [| discriminate].
  destruct (abi_decode_uint256 (data r1)) as [cv|] eqn:Hd1; cbn in H;
    [| discriminate].
  set (d := deposit_of st sender) in *.
  destruct (spec_payout_code now (goalDate d) (principal d) cv)
    as (Hy & Hp & Hu).
  set (yield := if cv >? principal d then cv - principal d else 0) in *.
  (* the yield *)
  assert (Hyield : (if cv >? principal d
                    then liftR (cv -! principal d)
                    else fun s : State => Done (0, s)) st
                   = Done (E := Event) (yield, st)).
  { subst yield. destruct (Z.gtb_spec cv (principal d)); [| reflexivity].
    rewrite checked_sub_eq by lia. reflexivity. }
  rewrite Hyield in H. cbn in H. clear Hyield.
  (* the penalty and the payout *)
  match type of H with
  | run _ (bindP ?p _) _ = _ => destruct p as [[[pen ur] s0] | e | |] eqn:Hpay
  end; cbn in H; try discriminate.
  2:{ exfalso. clear H.
      destruct ((now <? goalDate d) && (yield >? 0)); [| discriminate].
      destruct (yield -! yield / 2); [| discriminate]. cbn in Hpay.
      destruct (principal d +! a); discriminate. }
  2:{ exfalso. clear H.
      destruct ((now <? goalDate d) && (yield >? 0)); [| discriminate].
      destruct (yield -! yield / 2); [| discriminate]. cbn in Hpay.
      destruct (principal d +! a); discriminate. }
  assert (Hpay' : pen = spec_penalty (now <? goalDate d)
                                     (spec_yield cv (principal d))
                  /\ ur = spec_userReceives (now <? goalDate d)
                                            (principal d) cv
                  /\ s0 = st
                  /\ (10 <= cv <= MAX_UINT256 -> ur <= MAX_UINT256)).
  { rewrite <- Hp, <- Hu.
    destruct ((now <? goalDate d) && (yield >? 0)).
    - destruct (yield -! yield / 2) as [rest|] eqn:Hrest; [| discriminate].
      apply checked_sub_Ok in Hrest as [-> _]. cbn in Hpay.
      destruct (principal d +! (yield - yield / 2)) as [x|] eqn:Hx;
        [| discriminate].
      apply checked_add_Ok in Hx as [-> Hx].
      inversion Hpay; subst. auto.
    - inversion Hpay; subst. repeat split; auto. lia. }
  destruct Hpay' as (Hpen & Hur & -> & Hmax). clear Hpay.
  (* the redemption and the slippage check *)
  destruct (handle env1 _) as [r2 env2] eqn:Hc2 in H.
  destruct (success r2) eqn:Hs2; cbn in H; [| discriminate].
  destruct (abi_decode_uint256 (data r2)) as [received|] eqn:Hd2; cbn in H;
    [| discriminate].
  destruct (cv -! 10) as [fl|] eqn:Hfl; cbn in H; [| discriminate].
  apply checked_sub_Ok in Hfl as [-> Hfl].
  destruct (Z.geb_spec received (cv - 10)) as [Hslip|]; cbn in H;
    [| discriminate].
  assert (Hcv : cv <= MAX_UINT256).
  { unfold abi_decode_uint256 in Hd1. destruct (data r1); [discriminate |].
    inversion Hd1. unfold MAX_UINT256.
    pose proof (Z.mod_pos_bound z (2 ^ 256) ltac:(lia)). lia. }
  (* the transfers *)
  destruct (pen >? 0) eqn:Hpos; cbn in H.
  - destruct (handle env2 _) as [r3 env3] eqn:Hc3 in H.
    destruct (token_call_ok r3) as [[|]|] eqn:Hok3; cbn in H;
      try discriminate.
    destruct (handle env3 _) as [r4 env4] eqn:Hc4 in H.
    destruct (token_call_ok r4) as [[|]|] eqn:Hok4; cbn in H;
      try discriminate.
    inversion H; subst ret st' log env4. clear H.
    exists r1, env1, cv, r2, env2, received, env3, r4.
    rewrite <- Hpen, Hpos, <- Hur, <- Hy.
    repeat split; auto; try lia. exists r3. auto.
  - destruct (handle env2 _) as [r4 env4] eqn:Hc4 in H.
    destruct (token_call_ok r4) as [[|]|] eqn:Hok4; cbn in H;
      try discriminate.
    inversion H; subst ret st' log env4. clear H.
    exists r1, env1, cv, r2, env2, received, env2, r4.
    rewrite <- Hpen, Hpos, <- Hur, <- Hy.
    repeat split; auto; try lia.
Qed.

(** [previewWithdrawal] makes one static call and leaves the storage
    as it was. *)
Lemma previewWithdrawal_run_none now user st env :
  exists_ (deposit_of st user) = false ->
  run handle (previewWithdrawal now user st) env = Ok ((0, 0), st, [], env).
Proof.
  intros Hex. unfold previewWithdrawal. unfold_ops. cbn.
  rewrite Hex. reflexivity.
Qed.

Lemma previewWithdrawal_run_active now user st env r1 env1 cv :
  let d := deposit_of st user in
  let isEarly := now <? goalDate d in
  exists_ d = true ->
  handle env (convertToAssets_call st (shares d)) = (r1, env1) ->
  success r1 = true -> abi_decode_uint256 (data r1) = Ok cv ->
  spec_userReceives isEarly (principal d) cv <= MAX_UINT256 ->
  run handle (previewWithdrawal now user st) env
  = Ok ((spec_userReceives isEarly (principal d) cv,
         spec_penalty isEarly (spec_yield cv (principal d))), st, [], env1).
Proof.
  intros d isEarly Hex Hc1 Hs1 Hd1 Hmax. subst isEarly.
  unfold previewWithdrawal. unfold_ops. cbn. fold d. rewrite Hex. cbn.
  unfold convertToAssets_call in Hc1. rewrite Hc1, Hs1. cbn.
  rewrite Hd1. cbn.
  destruct (spec_payout_code now (goalDate d) (principal d) cv)
    as (Hy & Hp & Hu).
  rewrite <- Hu in Hmax. rewrite <- Hp, <- Hu. clear Hy Hp Hu.
  destruct (Z.gtb_spec cv (principal d)) as [Hgt|Hle].
  - rewrite checked_sub_eq by lia. cbn.
    destruct ((now <? goalDate d) && (cv - principal d >? 0)) eqn:Hearly;
      [| reflexivity].
    apply andb_prop in Hearly as [_ Hpos]. apply Z.gtb_lt in Hpos.
    assert (Hhalf : (cv - principal d) / 2 <= cv - principal d).
    { apply Z.div_le_upper_bound; lia. }
    rewrite checked_sub_eq by exact Hhalf. cbn.
    rewrite checked_add_eq by exact Hmax. reflexivity.
  - cbn. rewrite andb_false_r. reflexivity.
Qed.

(** The preview agrees with the withdrawal made in its place: same
    payout, and the penalty of the [Withdrawn] event. *)
Lemma previewWithdrawal_matches this sender now st env ret st' log env' :
  run handle (withdraw this sender now st) env = Ok (ret, st', log, env') ->
  exists env1 pen yield,
    run handle (previewWithdrawal now sender st) env
    = Ok ((ret, pen), st, [], env1)
    /\ env1 = (handle env (convertToAssets_call st
                             (shares (deposit_of st sender)))).2
    /\ In (Withdrawn sender (principal (deposit_of st sender)) yield pen ret
                     (now <? goalDate (deposit_of st sender))) log.
Proof.
  intros H. apply withdraw_run_Ok in H.
  destruct H as (r1 & env1 & cv & r2 & env2 & received & env3 & r4 & Hex
                 & Hc1 & Hs1 & Hd1 & _ & _ & _ & _ & _ & Hret & Hmax & _
                 & Hpen & _).
  exists env1. eexists _, _. split; [| split].
  - rewrite Hret.
    apply (previewWithdrawal_run_active now sender st env r1 env1 cv);
      auto. rewrite <- Hret. exact Hmax.
  - rewrite Hc1. reflexivity.
  - cbv zeta in Hpen.
    destruct (_ >? 0) in Hpen.
    + destruct Hpen as (r3 & _ & _ & ->). right. left. reflexivity.
    + destruct Hpen as (_ & ->). left. reflexivity.
Qed.

(** A successful [deposit]: the checks it passed and the record it
    wrote. *)
Lemma deposit_run_Ok this sender now amount goal st env ret st' log env' :
  run handle (deposit this sender now amount goal st) env
  = Ok (ret, st', log, env') ->
  0 < amount /\ now < goal
  /\ exists_ (deposit_of st sender) = false
  /\ st' = set_deposit sender (mkUserDeposit ret amount goal now true) st
  /\ log = [Deposited sender amount ret goal now].
Proof.
  intros H. unfold deposit in H. unfold_ops. cbn in H.
  destruct (Z.gtb_spec amount 0); cbn in H; [| discriminate].
  destruct (Z.gtb_spec goal now); cbn in H; [| discriminate].
  destruct (exists_ (deposit_of st sender)) eqn:Hex; cbn in H;
    [discriminate |].
  destruct (handle env _) as [r1 env1] eqn:Hc1 in H.
  destruct (token_call_ok r1) as [[|]|]; cbn in H; try discriminate.
  destruct (handle env1 _) as [r2 env2] eqn:Hc2 in H.
  destruct (token_call_ok r2) as [[|]|]; cbn in H; try discriminate.
  destruct (handle env2 _) as [r3 env3] eqn:Hc3 in H.
  destruct (success r3); cbn in H; [| discriminate].
  destruct (abi_decode_uint256 (data r3)) as [sh|]; cbn in H;
    [| discriminate].
  inversion H; subst. repeat split; auto; lia.
Qed.

(** The reads and the admin functions do not touch the records. *)
Lemma getUserInfo_run_Ok now user st env r st' log env' :
  run handle (getUserInfo now user st) env = Ok (r, st', log, env') ->
  st' = st /\ log = [].
Proof.
  intros H. unfold getUserInfo in H. unfold_ops.
  crunch H; inversion H; auto.
Qed.

Lemma previewWithdrawal_run_Ok now user st env r st' log env' :
  run handle (previewWithdrawal now user st) env = Ok (r, st', log, env') ->
  st' = st /\ log = [].
Proof.
  intros H. unfold previewWithdrawal in H. unfold_ops.
  crunch H; inversion H; auto.
Qed.

Lemma updateTreasury_run_Ok sender a st env r st' log env' :
  run handle (updateTreasury sender a st) env = Ok (r, st', log, env') ->
  deposits st' = deposits st.
Proof.
  intros H. unfold updateTreasury in H. unfold_ops. cbn in H.
  destruct (sender =? owner st); cbn in H; [| discriminate].
  destruct (negb (a =? 0)); cbn in H; [| discriminate].
  inversion H. reflexivity.
Qed.

Lemma transferOwnership_run_Ok sender a st env r st' log env' :
  run handle (transferOwnership sender a st) env = Ok (r, st', log, env') ->
  deposits st' = deposits st.
Proof.
  intros H. unfold transferOwnership in H. unfold_ops. cbn in H.
  destruct (sender =? owner st); cbn in H; [| discriminate].
  destruct (negb (a =? 0)); cbn in H; [| discriminate].
  inversion H. reflexivity.
Qed.

(** Sequencing a function with a final [mret]. *)
Lemma run_then_ret {A} (m : Op A) st env (st' : State) log env' :
  run handle ((m;; mret tt) st) env = Ok ((), st', log, env') ->
  exists a, run handle (m st) env = Ok (a, st', log, env').
Proof.
  unfold_ops. generalize (m st). intros p. revert env log.
  induction p as [[a s] | e | ev k IH | s c k IH]; intros env log H;
    cbn in *.
  - inversion H. eauto.
  - discriminate.
  - destruct (run handle (bindP k _) env) as [[[[u s1] l1] e1]|] eqn:Hk;
      cbn in H; [| discriminate].
    inversion H; subst.
    apply IH in Hk as [a Hk]. rewrite Hk. cbn. eauto.
  - destruct (handle env c) as [r env1]. eauto.
Qed.

(** With a record still active, [deposit] reverts at its third check,
    or at one of the two before it, without having made any call. *)
Lemma deposit_active_rejected this sender now amount goal st :
  exists_ (deposit_of st sender) = true ->
  deposit this sender now amount goal st
  = Abort (if amount >? 0
           then if goal >? now then DUPLICATE_ACTIVE_DEPOSIT
                else Require "Goal date must be in future"
           else Require "Cannot deposit 0").
Proof.
  intros Hex. unfold deposit. unfold_ops. cbn.
  destruct (amount >? 0); cbn; [| reflexivity].
  destruct (goal >? now); cbn; [| reflexivity].
  rewrite Hex. reflexivity.
Qed.

Lemma withdraw_inactive_rejected this sender now st :
  exists_ (deposit_of st sender) = false ->
  withdraw this sender now st = Abort NO_ACTIVE_DEPOSIT.
Proof.
  intros Hex. unfold withdraw. unfold_ops. cbn. rewrite Hex. reflexivity.
Qed.

Lemma deposit_of_set_deposit st a b d :
  deposit_of (set_deposit a d st) b
  = if decide (a = b) then d else deposit_of st b.
Proof.
  unfold deposit_of, set_deposit. cbn. rewrite lookup_insert.
  destruct (decide (a = b)); reflexivity.
Qed.

Lemma deposit_of_delete_deposit st a b :
  deposit_of (delete_deposit a st) b
  = if decide (a = b) then no_deposit else deposit_of st b.
Proof.
  unfold deposit_of, delete_deposit. cbn. rewrite lookup_delete.
  destruct (decide (a = b)); reflexivity.
Qed.

Lemma status_unchanged st st' a (P Q : Prop) :
  deposit_of st' a = deposit_of st a ->
  match status st a, status st' a with
  | NoDeposit, Active => P
  | Active, NoDeposit => Q
  | _, _ => deposit_of st' a = deposit_of st a
  end.
Proof.
  intros Heq. unfold status. rewrite Heq.
  destruct (exists_ (deposit_of st a)); reflexivity.
Qed.

(** The only moves of an account's record: opened by its own
    [deposit], closed by its own [withdraw]. *)
Lemma dispatch_transitions this sender now tx st env st' log env' :
  run handle (dispatch this sender now tx st) env = Ok ((), st', log, env') ->
  forall a,
    match status st a, status st' a with
    | NoDeposit, Active =>
        a = sender /\ exists amount goal, tx = TxDeposit amount goal
    | Active, NoDeposit => a = sender /\ tx = TxWithdraw
    | _, _ => deposit_of st' a = deposit_of st a
    end.
Proof.
  intros H a. destruct tx as [amount goal | | user | user | t | o];
    unfold dispatch in H.
  - apply run_then_ret in H as [ret H].
    apply deposit_run_Ok in H as (_ & _ & Hex & -> & _).
    destruct (decide (sender = a)) as [<- | Hne].
    + unfold status. rewrite Hex, deposit_of_set_deposit.
      destruct (decide (sender = sender)); [| contradiction]. cbn. eauto.
    + apply status_unchanged. rewrite deposit_of_set_deposit.
      destruct (decide (sender = a)); [contradiction | reflexivity].
  - apply run_then_ret in H as [ret H].
    apply withdraw_run_Ok in H.
    destruct H as (r1 & env1 & cv & r2 & env2 & received & env3 & r4 & Hex
                   & _ & _ & _ & _ & _ & _ & _ & _ & _ & _ & -> & _).
    destruct (decide (sender = a)) as [<- | Hne].
    + unfold status. rewrite Hex, deposit_of_delete_deposit.
      destruct (decide (sender = sender)); [| contradiction]. cbn. auto.
    + apply status_unchanged. rewrite deposit_of_delete_deposit.
      destruct (decide (sender = a)); [contradiction | reflexivity].
  - apply run_then_ret in H as [ret H].
    apply getUserInfo_run_Ok in H as [-> _].
    apply status_unchanged. reflexivity.
  - apply run_then_ret in H as [ret H].
    apply previewWithdrawal_run_Ok in H as [-> _].
    apply status_unchanged. reflexivity.
  - apply updateTreasury_run_Ok in H.
    apply status_unchanged. unfold deposit_of. rewrite H. reflexivity.
  - apply transferOwnership_run_Ok in H.
    apply status_unchanged. unfold deposit_of. rewrite H. reflexivity.
Qed.

(** A withdrawal of a position worth less than the tolerance reverts:
    at the redemption if the vault refuses it, and otherwise at the
    subtraction [currentValue - 10]. *)
Lemma withdraw_dust_reverts this sender now st env r1 env1 cv r2 env2 :
  let d := deposit_of st sender in
  exists_ d = true ->
  handle env (convertToAssets_call st (shares d)) = (r1, env1) ->
  success r1 = true -> abi_decode_uint256 (data r1) = Ok cv ->
  cv < 10 ->
  handle env1 (redeem_call st this (shares d)) = (r2, env2) ->
  run handle (withdraw this sender now st) env
  = Revert (if success r2
            then match abi_decode_uint256 (data r2) with
                 | Ok _ => Panic 17
                 | Revert e => e
                 end
            else Require "Morpho redeem failed").
Proof.
  intros d Hex Hc1 Hs1 Hd1 Hlt Hc2. pose proof MAX_UINT256_big as Hbig.
  unfold convertToAssets_call in Hc1. unfold redeem_call in Hc2.
  unfold withdraw. unfold_ops. cbn. fold d. rewrite Hex. cbn.
  rewrite Hc1, Hs1. cbn. rewrite Hd1. cbn.
  assert (Hsub : cv -! 10 = Revert (Panic 17)).
  { unfold checked_sub. destruct (Z.leb_spec 10 cv); [lia | reflexivity]. }
  destruct (Z.gtb_spec cv (principal d)) as [Hgt | Hle].
  - rewrite checked_sub_eq by lia. cbn.
    destruct ((now <? goalDate d) && (cv - principal d >? 0)); cbn.
    + assert (Hhalf : (cv - principal d) / 2 <= cv - principal d).
      { apply Z.div_le_upper_bound; lia. }
      assert (H0 : 0 <= (cv - principal d) / 2).
      { apply Z.div_pos; lia. }
      rewrite checked_sub_eq by exact Hhalf. cbn.
      rewrite checked_add_eq by lia. cbn.
      rewrite Hc2. destruct (success r2); cbn; [| reflexivity].
      destruct (abi_decode_uint256 (data r2)); cbn; [| reflexivity].
      rewrite Hsub. reflexivity.
    + rewrite Hc2. destruct (success r2); cbn; [| reflexivity].
      destruct (abi_decode_uint256 (data r2)); cbn; [| reflexivity].
      rewrite Hsub. reflexivity.
  - cbn. rewrite andb_false_r. cbn.
    rewrite Hc2. destruct (success r2); cbn; [| reflexivity].
    destruct (abi_decode_uint256 (data r2)); cbn; [| reflexivity].
    rewrite Hsub. reflexivity.
Qed.
End LedgerRun.

(** ** Ordering of the ledger's effects *)

Section Ordering.
Import JubyVault Ledger.

(** C9. Every call that [withdraw()] makes with [CALL], the redemption
    from the share vault and the transfers of the asset, is made on the
    storage from which the caller's record is already deleted: a callee
    that reads the ledger back finds no active record. The one call
    made before the deletion is the [STATICCALL] that reads
    [convertToAssets], on the untouched storage. The redemption is
    reached by every withdrawal of an active record. *)
Theorem withdraw_deletes_before_calls (this sender : address) (now : Z)
    (st : State) :
  let d := deposit_of st sender in
  (forall st' c,
      Calls (withdraw this sender now st) st' c ->
      (kind c = STATICCALL
       /\ c = convertToAssets_call st (shares d) /\ st' = st)
      \/ (kind c = CALL
          /\ st' = delete_deposit sender st
          /\ status st' sender = NoDeposit
          /\ (c = redeem_call st this (shares d)
              \/ exists to amount, c = transfer_call st to amount)))
  /\ (exists_ d = true ->
      Calls (withdraw this sender now st)
            (delete_deposit sender st) (redeem_call st this (shares d))).
Proof.
  intros d. split.
  - intros st' c H.
    assert (Hdel : status (delete_deposit sender st) sender = NoDeposit).
    { unfold status. rewrite deposit_of_delete_deposit.
      destruct (decide (sender = sender)); [reflexivity | contradiction]. }
    unfold withdraw in H. unfold_ops. fold d in H.
    crunch_calls H;
      try (left; repeat split; reflexivity);
      right; (split; [reflexivity |]); (split; [reflexivity |]);
      (split; [exact Hdel |]);
      first [ left; reflexivity | right; eexists _, _; reflexivity ].
  - intros Hex. unfold withdraw. unfold_ops. fold d. cbn. rewrite Hex. cbn.
    right. exists (mkReply true [0]). cbn. rewrite !Zmod_0_l.
    destruct (0 >? principal d) eqn:Hgt; cbn.
    + apply Z.gtb_lt in Hgt. rewrite checked_sub_eq by lia. cbn.
      destruct ((now <? goalDate d) && (0 - principal d >? 0)); cbn.
      * assert (Hhalf : (0 - principal d) / 2 <= 0 - principal d).
        { apply Z.div_le_upper_bound; lia. }
        assert (H0 : 0 <= (0 - principal d) / 2).
        { apply Z.div_pos; lia. }
        pose proof MAX_UINT256_big.
        rewrite checked_sub_eq by exact Hhalf. cbn.
        rewrite checked_add_eq by lia. cbn. left. split; reflexivity.
      * left. split; reflexivity.
    + rewrite andb_false_r. cbn. left. split; reflexivity.
Qed.

(** Alice's withdrawal in the scenario reaches the redemption with her
    record already deleted. *)
Lemma withdraw_deletes_before_calls_witness :
  Calls (withdraw Scenario.LEDGER Scenario.ALICE 1360 (Scenario.ledger1 2000))
        (delete_deposit Scenario.ALICE (Scenario.ledger1 2000))
        (redeem_call (Scenario.ledger1 2000) Scenario.LEDGER (10 ^ 9))
  /\ status (delete_deposit Scenario.ALICE (Scenario.ledger1 2000))
            Scenario.ALICE = NoDeposit.
Proof.
  split; [| reflexivity].
  apply (proj2 (withdraw_deletes_before_calls Scenario.LEDGER Scenario.ALICE
                  1360 (Scenario.ledger1 2000))).
  reflexivity.
Defined.
End Ordering.

(** ** The asset and the vault's conversions *)

Section Balances.

(** *** The asset *)

Lemma mget_insert {K} `{Countable K} (m : gmap K Z) (k k' : K) (x : Z) :
  mget (<[k := x]> m) k' = if decide (k = k') then x else mget m k'.
Proof.
  unfold mget. rewrite lookup_insert. destruct (decide (k = k')); reflexivity.
Qed.

Lemma move_Ok from to amount b b' :
  Token.move from to amount b = Ok b' ->
  amount <= mget b from
  /\ (forall x, x <> from -> x <> to -> mget b' x = mget b x)
  /\ (from <> to -> mget b' to = mget b to + amount
                    /\ mget b' from = mget b from - amount).
Proof.
  unfold Token.move. intros H.
  destruct (Z.ltb_spec (mget b from) amount) as [|Hle]; [discriminate |].
  peel H. inversion H; subst b'. clear H.
  split; [exact Hle |]. split.
  - intros x Hf Ht. rewrite !mget_insert.
    destruct (decide (to = x)); [congruence |].
    destruct (decide (from = x)); [congruence | reflexivity].
  - intros Hne. rewrite !mget_insert.
    destruct (decide (to = to)); [| contradiction].
    destruct (decide (to = from)); [congruence |].
    destruct (decide (from = to)); [congruence |].
    destruct (decide (from = from)); [| contradiction]. auto.
Qed.

Lemma transfer_Ok sender to amount t t' :
  Token.transfer sender to amount t = Ok t' ->
  (forall x, x <> sender -> x <> to ->
             mget (Token.balanceOf t') x = mget (Token.balanceOf t) x)
  /\ (sender <> to ->
      mget (Token.balanceOf t') to = mget (Token.balanceOf t) to + amount).
Proof.
  unfold Token.transfer. intros H.
  apply bind_Ok in H as (b & Hb & H). inversion H; subst t'. cbn.
  apply move_Ok in Hb as (_ & Hother & Hmove). split; [exact Hother |].
  intros Hne. apply Hmove. exact Hne.
Qed.

(** *** The share vault, called by the ledger *)

Lemma convertToAssets_range v now shares a :
  MockMorphoVault.wf v -> is_uint256 shares ->
  MockMorphoVault.convertToAssets v now shares = Ok a -> is_uint256 a.
Proof.
  intros Hwf [Hs0 HsM] H. pose proof Hwf as ([Hsup _] & _).
  apply convertToAssets_Ok in H as [[-> _] | (total & Ht & -> & Hne & Hno)].
  - split; assumption.
  - pose proof (totalAssets_range _ _ _ Hwf Ht) as [Ht0 _].
    split.
    + apply Z.div_pos; nia.
    + apply Z.div_le_upper_bound; nia.
Qed.

(** After the accrual at [now], the vault prices shares as before it. *)
Lemma convertToAssets_accrued v v' now total shares :
  MockMorphoVault.totalAssets v now = Ok total ->
  MockMorphoVault.totalSupply v' = MockMorphoVault.totalSupply v ->
  MockMorphoVault._totalAssets v' = total ->
  MockMorphoVault.lastYieldUpdate v' = now ->
  MockMorphoVault.convertToAssets v' now shares
  = MockMorphoVault.convertToAssets v now shares.
Proof.
  intros Ht Hs HT Hl. unfold MockMorphoVault.convertToAssets.
  rewrite Hs. destruct (MockMorphoVault.totalSupply v =? 0); [reflexivity |].
  rewrite Ht.
  assert (Ht' : MockMorphoVault.totalAssets v' now = Ok total).
  { unfold MockMorphoVault.totalAssets. rewrite HT, Hl.
    destruct (Z.eqb_spec total 0) as [-> | _]; [reflexivity |].
    rewrite checked_sub_eq, bind_Ok_eq by lia.
    rewrite Z.sub_diag. reflexivity. }
  rewrite Ht'. reflexivity.
Qed.
End Balances.

(** ** Peeling a successful run, one operation at a time *)

Section Peel.
Context {S E Env : Type} (handle : Env -> ExtCall -> Reply * Env).

Lemma run_bindP_Ok {A B} (p : Prog S E A) (f : A -> Prog S E B)
    env b log env' :
  run handle (bindP p f) env = Ok (b, log, env') ->
  exists a log1 env1 log2,
    run handle p env = Ok (a, log1, env1)
    /\ run handle (f a) env1 = Ok (b, log2, env')
    /\ (log = log1 ++ log2)%list.
Proof.
  revert env log.
  induction p as [a | e | ev k IH | s c k IH]; intros env log H; cbn in *.
  - exists a, [], env, log. auto.
  - discriminate.
  - destruct (run handle (bindP k f) env) as [[[b0 l0] e0]|] eqn:Hk;
      cbn in H; [| discriminate].
    inversion H; subst. clear H.
    apply IH in Hk as (a & log1 & env1 & log2 & Hk & Hf & ->).
    exists a, (ev :: log1), env1, log2. rewrite Hk. cbn. auto.
  - destruct (handle env c) as [r env1]. apply IH in H. exact H.
Qed.

Lemma run_bind_Ok {A B} (m : M S E A) (f : A -> M S E B)
    s env b s' log env' :
  run handle ((m ≫= f) s) env = Ok (b, s', log, env') ->
  exists a s1 log1 env1 log2,
    run handle (m s) env = Ok (a, s1, log1, env1)
    /\ run handle (f a s1) env1 = Ok (b, s', log2, env')
    /\ (log = log1 ++ log2)%list.
Proof.
  intros H. unfold mbind, M_bind in H.
  apply run_bindP_Ok in H as ([a s1] & log1 & env1 & log2 & H1 & H2 & ->).
  exists a, s1, log1, env1, log2. auto.
Qed.

Lemma run_require_Ok b msg s env u s' log env' :
  run handle (require (S := S) (E := E) b msg s) env = Ok (u, s', log, env') ->
  b = true /\ s' = s /\ log = [] /\ env' = env.
Proof.
  unfold require. destruct b; cbn; [| discriminate].
  intros H. inversion H. auto.
Qed.

Lemma run_gets_Ok {A} (f : S -> A) s env a s' log env' :
  run handle (gets (S := S) (E := E) f s) env = Ok (a, s', log, env') ->
  a = f s /\ s' = s /\ log = [] /\ env' = env.
Proof. cbn. intros H. inversion H. auto. Qed.

Lemma run_modify_Ok (f : S -> S) s env u s' log env' :
  run handle (modify (S := S) (E := E) f s) env = Ok (u, s', log, env') ->
  s' = f s /\ log = [] /\ env' = env.
Proof. cbn. intros H. inversion H. auto. Qed.

Lemma run_view_Ok {A} (f : S -> Result A) s env a s' log env' :
  run handle (view (S := S) (E := E) f s) env = Ok (a, s', log, env') ->
  f s = Ok a /\ s' = s /\ log = [] /\ env' = env.
Proof.
  unfold view. destruct (f s); cbn; [| discriminate].
  intros H. inversion H. auto.
Qed.

Lemma run_liftR_Ok {A} (r : Result A) s env a s' log env' :
  run handle (liftR (S := S) (E := E) r s) env = Ok (a, s', log, env') ->
  r = Ok a /\ s' = s /\ log = [] /\ env' = env.
Proof.
  destruct r; cbn; [| discriminate]. intros H. inversion H. auto.
Qed.

Lemma run_emit_Ok (ev : E) s env u s' log env' :
  run handle (emit (S := S) ev s) env = Ok (u, s', log, env') ->
  s' = s /\ log = [ev] /\ env' = env.
Proof. cbn. intros H. inversion H. auto. Qed.

Lemma run_mret_Ok {A} (x : A) (s : S) env a s' (log : list E) env' :
  run handle (mret (M := M S E) x s) env = Ok (a, s', log, env') ->
  a = x /\ s' = s /\ log = [] /\ env' = env.
Proof. cbn. intros H. inversion H. auto. Qed.

Lemma run_transfer_Ok token to amount s env u s' (log : list E) env' :
  run handle (_transfer (S := S) (E := E) token to amount s) env = Ok (u, s', log, env') ->
  exists r,
    handle env (mkCall token CALL "transfer(address,uint256)" [to; amount])
    = (r, env')
    /\ token_call_ok r = Ok true /\ s' = s /\ log = [].
Proof.
  unfold _transfer. unfold_ops. cbn.
  destruct (handle env _) as [r env1].
  destruct (token_call_ok r) as [[|]|] eqn:Hok; cbn; try discriminate.
  intros H. inversion H; subst. exists r. auto.
Qed.
End Peel.

(** Peel the first operation of a run; [Hm] is its own run. *)
Ltac peel_run H Hm :=
  let a := fresh "a" in
  let s := fresh "s" in
  let l1 := fresh "l" in
  let e1 := fresh "e" in
  let l2 := fresh "l" in
  apply run_bind_Ok in H as (a & s & l1 & e1 & l2 & Hm & H & ->);
  cbv beta in H;
  try first
    [ apply run_require_Ok in Hm as (Hm & -> & -> & ->)
    | apply run_gets_Ok in Hm as (-> & -> & -> & ->)
    | apply run_modify_Ok in Hm as (-> & -> & ->)
    | apply run_view_Ok in Hm as (Hm & -> & -> & ->)
    | apply run_liftR_Ok in Hm as (Hm & -> & -> & ->)
    | apply run_emit_Ok in Hm as (-> & -> & ->) ].

Section VaultRun.
Context {Env : Type} (handle : Env -> ExtCall -> Reply * Env).
Import MockMorphoVault.

Lemma spend_allowance_run_Ok sender owner shares v env u v' log env' :
  run handle (spend_allowance sender owner shares v) env
  = Ok (u, v', log, env') ->
  same_pool v v' /\ env' = env.
Proof.
  unfold spend_allowance, when. intros H.
  destruct (negb (sender =? owner)).
  - peel_run H Hm. peel_run H Hm0. unfold allowance_sub in H.
    peel_run H Hm1. peel_run H Hm2.
    apply run_modify_Ok in H as (-> & _ & ->).
    split; [repeat split | reflexivity].
  - apply run_mret_Ok in H as (_ & -> & _ & ->).
    split; [repeat split | reflexivity].
Qed.

Lemma accrueYield_run_Ok now v env u v' log env' :
  run handle (_accrueYield now v) env = Ok (u, v', log, env') ->
  exists total,
    totalAssets v now = Ok total
    /\ v' = set_lastYieldUpdate now (set_totalAssets total v)
    /\ env' = env.
Proof.
  unfold _accrueYield. intros H.
  peel_run H Hm. peel_run H Hm'.
  apply run_modify_Ok in H as (-> & _ & ->). eauto.
Qed.

(** A successful [redeem]: the assets are the value of the shares at
    [now], sent to the receiver by one transfer of the asset. *)
Lemma redeem_run_Ok this sender now shares receiver owner v env a v' log
    env' :
  run handle (redeem this sender now shares receiver owner v) env
  = Ok (a, v', log, env') ->
  convertToAssets v now shares = Ok a
  /\ exists r,
       handle env (mkCall (asset v) CALL "transfer(address,uint256)"
                          [receiver; a])
       = (r, env')
       /\ token_call_ok r = Ok true.
Proof.
  unfold redeem. intros H.
  peel_run H Hm. peel_run H Hm1. peel_run H Hsp.
  apply spend_allowance_run_Ok in Hsp as ((Ha & Hs & HT & Hl) & ->).
  peel_run H Hm2. peel_run H Hm3. peel_run H Hacc.
  apply accrueYield_run_Ok in Hacc as (total & Htot & -> & ->).
  peel_run H Hcta. peel_run H Hpos.
  unfold balanceOf_sub, totalSupply_sub, totalAssets_sub in H.
  peel_run H Hb. apply run_bind_Ok in Hb as (? & ? & ? & ? & ? & Hb & Hb' & ->).
  apply run_gets_Ok in Hb as (-> & -> & -> & ->).
  apply run_bind_Ok in Hb' as (? & ? & ? & ? & ? & Hb & Hb' & ->).
  apply run_liftR_Ok in Hb as (_ & -> & -> & ->).
  apply run_modify_Ok in Hb' as (-> & -> & ->).
  peel_run H Hs'. apply run_bind_Ok in Hs' as (? & ? & ? & ? & ? & Hb & Hb' & ->).
  apply run_gets_Ok in Hb as (-> & -> & -> & ->).
  apply run_bind_Ok in Hb' as (? & ? & ? & ? & ? & Hb & Hb' & ->).
  apply run_liftR_Ok in Hb as (_ & -> & -> & ->).
  apply run_modify_Ok in Hb' as (-> & -> & ->).
  peel_run H HT'. apply run_bind_Ok in HT' as (? & ? & ? & ? & ? & Hb & Hb' & ->).
  apply run_gets_Ok in Hb as (-> & -> & -> & ->).
  apply run_bind_Ok in Hb' as (? & ? & ? & ? & ? & Hb & Hb' & ->).
  apply run_liftR_Ok in Hb as (_ & -> & -> & ->).
  apply run_modify_Ok in Hb' as (-> & -> & ->).
  peel_run H Hg. peel_run H Htr.
  apply run_transfer_Ok in Htr as (r & Hc & Hok & -> & ->).
  peel_run H He1. peel_run H He2.
  apply run_mret_Ok in H as (-> & -> & -> & ->).
  cbn in Hc. rewrite Ha in Hc.
  split; [| eauto].
  rewrite <- Hcta. symmetry.
  apply (convertToAssets_accrued _ _ now total).
  - unfold totalAssets in *. rewrite <- HT, <- Hl. exact Htot.
  - cbn. exact Hs.
  - reflexivity.
  - reflexivity.
Qed.
End VaultRun.

(** ** The deployed system *)

Section Deployed.
Import World.

(** *** What the ledger's calls do in the deployed system *)

Lemma handle_ledger_static tok vault_a ledger_a now env c :
  kind c = STATICCALL ->
  (handle_ledger tok vault_a ledger_a now env c).2 = env.
Proof.
  intros Hk. unfold handle_ledger, vault_dispatch, token_dispatch.
  rewrite Hk. repeat case_match; simplify_eq; try reflexivity.
  all: try match goal with
    | H : _ ≫= _ = Ok _ |- _ =>
        apply bind_Ok in H as (? & ? & H); inversion H; reflexivity
    end.
  destruct env; reflexivity.
Qed.

Lemma handle_ledger_convertToAssets tok vault_a ledger_a now env st shares :
  JubyVault.morphoVault st = vault_a ->
  handle_ledger tok vault_a ledger_a now env
                (Ledger.convertToAssets_call st shares)
  = match MockMorphoVault.convertToAssets env.1 now shares with
    | Ok a => (mkReply true [a], env)
    | Revert _ => (mkReply false [], env)
    end.
Proof.
  intros Hv. subst vault_a. unfold handle_ledger, vault_dispatch. cbn.
  rewrite Z.eqb_refl.
  destruct (MockMorphoVault.convertToAssets env.1 now shares); reflexivity.
Qed.

Lemma handle_ledger_redeem tok vault_a ledger_a now env st this shares r
    env' :
  JubyVault.morphoVault st = vault_a ->
  handle_ledger tok vault_a ledger_a now env
                (Ledger.redeem_call st this shares) = (r, env') ->
  success r = true ->
  exists a,
    run_vault tok vault_a
      (MockMorphoVault.redeem vault_a ledger_a now shares this this) env
    = Ok (a, env')
    /\ data r = [a].
Proof.
  intros Hv H Hs. subst vault_a.
  unfold handle_ledger, vault_dispatch in H. cbn in H.
  rewrite Z.eqb_refl in H.
  destruct (run_vault _ _ _ _) as [[a env1]|] eqn:Hrun; cbn in H;
    inversion H; subst; [eauto | discriminate].
Qed.

Lemma handle_ledger_transfer tok vault_a ledger_a now env st to amount r
    env' :
  JubyVault.asset st = tok -> tok <> vault_a ->
  handle_ledger tok vault_a ledger_a now env
                (Ledger.transfer_call st to amount) = (r, env') ->
  token_call_ok r = Ok true ->
  exists t', Token.transfer ledger_a to amount env.2 = Ok t'
             /\ env' = (env.1, t').
Proof.
  intros Ht Hne H Hok. subst tok.
  unfold handle_ledger, token_dispatch in H. cbn in H.
  destruct (Z.eqb_spec (JubyVault.asset st) vault_a); [contradiction |].
  rewrite Z.eqb_refl in H.
  destruct (Token.transfer ledger_a to amount env.2) as [t'|]; cbn in H;
    inversion H; subst; [eauto | discriminate].
Qed.

Lemma handle_vault_transfer tok vault_a t to amount r t' :
  handle_vault tok vault_a t
    (mkCall tok CALL "transfer(address,uint256)" [to; amount]) = (r, t') ->
  token_call_ok r = Ok true ->
  Token.transfer vault_a to amount t = Ok t'.
Proof.
  intros H Hok. unfold handle_vault, token_dispatch in H. cbn in H.
  rewrite Z.eqb_refl in H.
  destruct (Token.transfer vault_a to amount t) as [t1|]; cbn in H;
    inversion H; subst; [reflexivity | discriminate].
Qed.

(** The vault's redemption for the ledger, in the deployed system. *)
Lemma redeem_for_ledger tok vault_a ledger_a now shares env a env' :
  MockMorphoVault.asset env.1 = tok ->
  run_vault tok vault_a
    (MockMorphoVault.redeem vault_a ledger_a now shares ledger_a ledger_a)
    env
  = Ok (a, env') ->
  MockMorphoVault.convertToAssets env.1 now shares = Ok a
  /\ Token.transfer vault_a ledger_a a env.2 = Ok env'.2.
Proof.
  intros Hasset H. unfold run_vault in H.
  apply bind_Ok in H as ([[[a0 v'] log] t'] & H & Hr).
  inversion Hr; subst a0 env'. clear Hr. cbn [fst snd].
  apply redeem_run_Ok in H as (Hcta & r & Hc & Hok).
  split; [exact Hcta |].
  rewrite Hasset in Hc. apply (handle_vault_transfer _ _ _ _ _ _ _ Hc Hok).
Qed.
End Deployed.

(** ** The withdrawal, end to end *)

Section Withdrawal.
Import World.

Lemma mod_uint256 a : is_uint256 a -> a mod 2 ^ 256 = a.
Proof. unfold is_uint256, MAX_UINT256. intros H. apply Z.mod_small. lia. Qed.

Lemma spec_penalty_nonneg isEarly y : 0 <= spec_penalty isEarly y.
Proof.
  unfold spec_penalty. destruct (isEarly && (0 <? y)) eqn:H; [| lia].
  apply andb_prop in H as [_ H]. apply Z.ltb_lt in H. apply Z.div_pos; lia.
Qed.

(** C1. A successful [withdraw()] of an active deposit reads
    [currentValue = convertToAssets(shares)] from the share vault, takes
    [yield = max(currentValue - principal, 0)] and
    [isEarly = (now < goalDate)]; early and with a yield, the penalty is
    [floor(yield / 2)], the caller receives
    [principal + (yield - penalty)] and the treasury the penalty;
    otherwise the penalty is [0] and the caller receives
    [currentValue]. With a principal of [1_000_000_000] and a yield of
    [570] this is [1_000_000_285] and [285] early, [1_000_000_570] and
    [0] on time. *)
Theorem withdraw_payout (w : World) (sender : address) (now : Z)
    (ret : Z) (log : list JubyVault.Event) (w' : World) :
  let d := JubyVault.deposit_of (ledger w) sender in
  let treasury := JubyVault.jubyTreasury (ledger w) in
  let isEarly := now <? JubyVault.goalDate d in
  wired w ->
  MockMorphoVault.wf (vault w) -> is_uint256 (JubyVault.shares d) ->
  sender <> ledger_addr w -> sender <> vault_addr w ->
  treasury <> ledger_addr w -> treasury <> vault_addr w ->
  sender <> treasury ->
  withdraw w sender now = Ok (ret, log, w') ->
  JubyVault.exists_ d = true
  /\ exists currentValue,
       MockMorphoVault.convertToAssets (vault w) now (JubyVault.shares d)
       = Ok currentValue
       /\ let yield := spec_yield currentValue (JubyVault.principal d) in
          let penalty := spec_penalty isEarly yield in
          ret = spec_userReceives isEarly (JubyVault.principal d) currentValue
          /\ balance w' sender = balance w sender + ret
          /\ balance w' treasury = balance w treasury + penalty
          /\ (JubyVault.principal d = 1000000000 ->
              currentValue = 1000000570 ->
              if isEarly
              then ret = 1000000285 /\ penalty = 285
              else ret = 1000000570 /\ penalty = 0).
Proof.
  intros d treasury isEarly (Hasset & Hvault & Hvasset & Hne) Hwf Hsh
         Hs1 Hs2 Ht1 Ht2 Hst Hok.
  unfold withdraw, exec in Hok.
  apply bind_Ok in Hok as ([[[ret0 st'] log0] env'] & Hrun & Hret).
  inversion Hret; subst ret0 log0 w'. clear Hret.
  apply withdraw_run_Ok in Hrun.
  destruct Hrun as (r1 & env1 & cv & r2 & env2 & received & env3 & r4 & Hex
                    & Hc1 & Hsu1 & Hd1 & Hc2 & Hsu2 & Hd2 & _ & _ & Hret
                    & _ & _ & Hpen & Hc4 & Hok4).
  fold d in Hex, Hc1, Hc2, Hret, Hpen. fold isEarly in Hret, Hpen.
  fold treasury in Hpen.
  split; [exact Hex |].
  (* the value read from the vault *)
  rewrite (handle_ledger_convertToAssets _ _ _ _ _ _ _ Hvault) in Hc1.
  cbn [fst] in Hc1.
  destruct (MockMorphoVault.convertToAssets (vault w) now (JubyVault.shares d))
    as [a|] eqn:Ha; inversion Hc1; subst r1 env1; clear Hc1;
    [| discriminate].
  cbn in Hd1. rewrite mod_uint256 in Hd1
    by (eapply convertToAssets_range; eauto).
  inversion Hd1; subst a. clear Hd1.
  exists cv. split; [reflexivity |]. cbv zeta.
  (* the redemption moves assets from the vault to the ledger *)
  apply (handle_ledger_redeem _ _ _ _ _ _ _ _ _ _ Hvault) in Hc2
    as (a2 & Hrun & _); [| exact Hsu2].
  apply redeem_for_ledger in Hrun as (_ & Htr2); [| exact Hvasset].
  cbn [fst snd] in Htr2.
  apply transfer_Ok in Htr2 as (Hother2 & _).
  (* the penalty *)
  set (pen := spec_penalty isEarly (spec_yield cv (JubyVault.principal d)))
    in *.
  assert (Hpen0 : 0 <= pen) by apply spec_penalty_nonneg.
  assert (Hmid : mget (Token.balanceOf env3.2) sender
                 = mget (Token.balanceOf (token w)) sender
                 /\ mget (Token.balanceOf env3.2) treasury
                    = mget (Token.balanceOf (token w)) treasury + pen).
  { cbv zeta in Hpen. destruct (Z.gtb_spec pen 0) as [Hpos | Hnpos].
    - destruct Hpen as (r3 & Hc3 & Hok3 & _).
      apply (handle_ledger_transfer _ _ _ _ _ _ _ _ _ _ Hasset Hne) in Hc3
        as (t3 & Htr3 & ->); [| exact Hok3].
      apply transfer_Ok in Htr3 as (Hother3 & Hto3). cbn [snd].
      rewrite Hother3, Hto3 by congruence.
      rewrite !Hother2 by congruence. auto.
    - destruct Hpen as (-> & _).
      rewrite !Hother2 by congruence. split; [reflexivity | lia]. }
  destruct Hmid as (Hmid_s & Hmid_t).
  (* the payout *)
  apply (handle_ledger_transfer _ _ _ _ _ _ _ _ _ _ Hasset Hne) in Hc4
    as (t4 & Htr4 & ->); [| exact Hok4].
  apply transfer_Ok in Htr4 as (Hother4 & Hto4).
  unfold balance. cbn [token snd].
  split; [exact Hret |]. split; [| split].
  - rewrite Hto4 by congruence. rewrite Hmid_s. reflexivity.
  - rewrite Hother4 by congruence. exact Hmid_t.
  - intros Hp Hcv. subst pen. rewrite Hret, Hp, Hcv.
    destruct isEarly; split; reflexivity.
Qed.
End Withdrawal.

Section WithdrawalRuns.
Import World Scenario.

(** The scenario starts from the constructors and is reached by the
    ledger's own [deposit]. *)
Lemma scenario_deployed :
  MockMorphoVault.constructor USDC 1000 = Ok vault0
  /\ JubyVault.constructor ADMIN USDC VAULT TREASURY = Ok ledger0.
Proof. split; reflexivity. Qed.

Lemma genesis_deposit :
  deposit genesis ALICE 1000 (10 ^ 9) 2000
  = Ok (10 ^ 9, [JubyVault.Deposited ALICE (10 ^ 9) (10 ^ 9) 2000 1000],
        funded 2000).
Proof. vm_compute. reflexivity. Qed.

Lemma funded_deposit :
  deposit (funded 2000) BOB 1000 5 2000
  = Ok (5, [JubyVault.Deposited BOB 5 5 2000 1000], dust).
Proof. vm_compute. reflexivity. Qed.

Lemma funded_wired goal : wired (funded goal).
Proof. repeat split. apply Z.eqb_neq. reflexivity. Qed.

Lemma vault1_wf : MockMorphoVault.wf vault1.
Proof.
  unfold MockMorphoVault.wf, is_uint256, MAX_UINT256. cbn. lia.
Qed.

(** In the scenario Alice's position is worth [1_000_000_570] at time
    1360; she withdraws early when her goal is 2000 and on time when it
    is 1100. *)
Lemma withdraw_payout_witness :
  (exists ret log w',
      withdraw (funded 2000) ALICE 1360 = Ok (ret, log, w')
      /\ ret = 1000000285
      /\ balance w' ALICE = 1000000285
      /\ balance w' TREASURY = 285)
  /\ (exists ret log w',
         withdraw (funded 1100) ALICE 1360 = Ok (ret, log, w')
         /\ ret = 1000000570
         /\ balance w' ALICE = 1000000570
         /\ balance w' TREASURY = 0).
Proof.
  assert (Hsh : is_uint256 (10 ^ 9)).
  { unfold is_uint256, MAX_UINT256. lia. }
  assert (Hne : forall a b : Z, (a =? b) = false -> a <> b).
  { intros a b H. apply Z.eqb_neq. exact H. }
  split.
  - destruct (withdraw (funded 2000) ALICE 1360)
      as [[[ret log] w'] | e] eqn:H; [| vm_compute in H; discriminate].
    exists ret, log, w'. split; [reflexivity |].
    destruct (withdraw_payout (funded 2000) ALICE 1360 ret log w'
                (funded_wired 2000) vault1_wf Hsh
                (Hne ALICE LEDGER eq_refl) (Hne ALICE VAULT eq_refl)
                (Hne TREASURY LEDGER eq_refl) (Hne TREASURY VAULT eq_refl)
                (Hne ALICE TREASURY eq_refl) H)
      as (_ & cv & Hcv & Hret & Hsender & Htreasury & Hnum).
    vm_compute in Hcv. inversion Hcv; subst cv.
    destruct (Hnum eq_refl eq_refl) as [Hr Hp].
    change (JubyVault.jubyTreasury (ledger (funded _))) with TREASURY
      in Htreasury.
    rewrite Hsender, Htreasury, Hp, Hr. repeat split; reflexivity.
  - destruct (withdraw (funded 1100) ALICE 1360)
      as [[[ret log] w'] | e] eqn:H; [| vm_compute in H; discriminate].
    exists ret, log, w'. split; [reflexivity |].
    destruct (withdraw_payout (funded 1100) ALICE 1360 ret log w'
                (funded_wired 1100) vault1_wf Hsh
                (Hne ALICE LEDGER eq_refl) (Hne ALICE VAULT eq_refl)
                (Hne TREASURY LEDGER eq_refl) (Hne TREASURY VAULT eq_refl)
                (Hne ALICE TREASURY eq_refl) H)
      as (_ & cv & Hcv & Hret & Hsender & Htreasury & Hnum).
    vm_compute in Hcv. inversion Hcv; subst cv.
    destruct (Hnum eq_refl eq_refl) as [Hr Hp].
    change (JubyVault.jubyTreasury (ledger (funded _))) with TREASURY
      in Htreasury.
    rewrite Hsender, Htreasury, Hp, Hr. repeat split; reflexivity.
Defined.
End WithdrawalRuns.

(** ** The preview *)

Section Preview.
Import World.

Lemma rebuild_world (w : World) :
  mkWorld (token_addr w) (vault_addr w) (ledger_addr w) (token w) (vault w)
          (ledger w) = w.
Proof. destruct w. reflexivity. Qed.

(** C2. [previewWithdrawal(account)] is a read: it leaves every
    contract as it was and emits nothing. Whenever a [withdraw()] by
    the account at the same instant succeeds, the preview returns the
    amount that withdrawal pays out together with the penalty it
    charges, the one of its [Withdrawn] event; and it returns [(0, 0)]
    for an account with no active deposit. *)
Theorem previewWithdrawal_agrees (w : World) (account : address) (now : Z) :
  let d := JubyVault.deposit_of (ledger w) account in
  (JubyVault.exists_ d = false ->
   previewWithdrawal w now account = Ok ((0, 0), [], w))
  /\ (forall ret log w',
         withdraw w account now = Ok (ret, log, w') ->
         exists penalty yield,
           previewWithdrawal w now account = Ok ((ret, penalty), [], w)
           /\ In (JubyVault.Withdrawn account (JubyVault.principal d) yield
                                      penalty ret
                                      (now <? JubyVault.goalDate d)) log)
  /\ (forall r log w',
         previewWithdrawal w now account = Ok (r, log, w') ->
         w' = w /\ log = []).
Proof.
  intros d. split; [| split].
  - intros Hex. unfold previewWithdrawal, exec.
    apply bind_Ok. eexists. split.
    + apply previewWithdrawal_run_none. exact Hex.
    + cbn. rewrite rebuild_world. reflexivity.
  - intros ret log w' H. unfold withdraw, exec in H.
    apply bind_Ok in H as ([[[ret0 st'] log0] env'] & Hrun & Hret).
    inversion Hret; subst ret0 log0 w'. clear Hret.
    apply previewWithdrawal_matches in Hrun
      as (env1 & pen & yield & Hprev & Henv & Hin).
    rewrite handle_ledger_static in Henv by reflexivity. subst env1.
    exists pen, yield. split; [| exact Hin].
    unfold previewWithdrawal, exec.
    apply bind_Ok. eexists. split; [exact Hprev |].
    cbn. rewrite rebuild_world. reflexivity.
  - intros r log w' H. unfold previewWithdrawal, exec in H.
    apply bind_Ok in H as ([[[r0 st'] log0] env'] & Hrun & Hret).
    inversion Hret; subst r0 log0 w'. clear Hret.
    pose proof Hrun as Hst.
    apply previewWithdrawal_run_Ok in Hst as [-> ->].
    split; [| reflexivity].
    assert (Henv : env' = (vault w, token w));
      [| rewrite Henv; apply rebuild_world].
    unfold JubyVault.previewWithdrawal in Hrun. unfold_ops.
    cbn in Hrun.
    destruct (JubyVault.exists_ _) in Hrun; cbn in Hrun.
    + match type of Hrun with
      | context [handle_ledger ?a ?b ?c ?n ?e ?call] =>
          pose proof (handle_ledger_static a b c n e call eq_refl) as Hs;
          destruct (handle_ledger a b c n e call) as [r1 env1] eqn:Hc1
      end.
      cbn in Hs. subst env1.
      crunch Hrun; inversion Hrun; reflexivity.
    + inversion Hrun. reflexivity.
Qed.

(** Alice's preview in the scenario, at the time of her early
    withdrawal. *)
Lemma previewWithdrawal_agrees_witness :
  previewWithdrawal (Scenario.funded 2000) 1360 Scenario.ALICE
  = Ok ((1000000285, 285), [], Scenario.funded 2000).
Proof.
  destruct (withdraw (Scenario.funded 2000) Scenario.ALICE 1360)
    as [[[ret log] w'] | e] eqn:H; [| vm_compute in H; discriminate].
  destruct (proj1 (proj2 (previewWithdrawal_agrees (Scenario.funded 2000)
                            Scenario.ALICE 1360)) ret log w' H)
    as (pen & yield & Hprev & Hin).
  vm_compute in H. inversion H; subst ret log. clear H.
  vm_compute in Hin.
  destruct Hin as [Hin | [Hin | []]]; [discriminate Hin |].
  inversion Hin; subst pen. exact Hprev.
Defined.
End Preview.

(** ** Positions below the slippage tolerance *)

Section Dust.
Import World.

Lemma handle_ledger_redeem_eq tok vault_a ledger_a now env st this shares :
  JubyVault.morphoVault st = vault_a ->
  handle_ledger tok vault_a ledger_a now env
                (Ledger.redeem_call st this shares)
  = match run_vault tok vault_a
            (MockMorphoVault.redeem vault_a ledger_a now shares this this)
            env with
    | Ok (a, env') => (mkReply true [a], env')
    | Revert _ => (mkReply false [], env)
    end.
Proof.
  intros Hv. subst vault_a. unfold handle_ledger, vault_dispatch. cbn.
  rewrite Z.eqb_refl.
  destruct (run_vault _ _ _ _) as [[a env1]|]; reflexivity.
Qed.

Lemma exec_Revert {A} w now (op : JubyVault.Op A) e :
  run (handle_ledger (token_addr w) (vault_addr w) (ledger_addr w) now)
      (op (ledger w)) (vault w, token w) = Revert e ->
  exec w now op = Revert e.
Proof. intros H. unfold exec. rewrite H. reflexivity. Qed.

(** C10. An active deposit whose shares are worth less than 10 units
    cannot be withdrawn: [withdraw()] reverts, at the redemption when
    the vault refuses it and otherwise, the vault having paid out the
    full current value, at the checked subtraction [currentValue - 10]
    of the slippage check, which underflows. *)
Theorem withdraw_below_tolerance_reverts (w : World) (sender : address)
    (now currentValue : Z) :
  let d := JubyVault.deposit_of (ledger w) sender in
  JubyVault.exists_ d = true ->
  wired w -> MockMorphoVault.wf (vault w) ->
  is_uint256 (JubyVault.shares d) ->
  MockMorphoVault.convertToAssets (vault w) now (JubyVault.shares d)
  = Ok currentValue ->
  currentValue < 10 ->
  (withdraw w sender now = Revert (Panic 17)
   \/ withdraw w sender now = Revert (Require "Morpho redeem failed"))
  /\ (forall redeemed env',
         run_vault (token_addr w) (vault_addr w)
           (MockMorphoVault.redeem (vault_addr w) (ledger_addr w) now
              (JubyVault.shares d) (ledger_addr w) (ledger_addr w))
           (vault w, token w)
         = Ok (redeemed, env') ->
         redeemed = currentValue
         /\ withdraw w sender now = Revert (Panic 17)).
Proof.
  intros d Hex (Hasset & Hvault & Hvasset & Hne) Hwf Hsh Hcv Hlt.
  pose proof (convertToAssets_range _ _ _ _ Hwf Hsh Hcv) as Hrange.
  set (h := handle_ledger (token_addr w) (vault_addr w) (ledger_addr w) now).
  destruct (h (vault w, token w)
              (Ledger.redeem_call (ledger w) (ledger_addr w)
                                  (JubyVault.shares d)))
    as [r2 env2] eqn:Hc2.
  assert (Hrun : run h (JubyVault.withdraw (ledger_addr w) sender now
                                             (ledger w))
                     (vault w, token w)
                 = Revert (if success r2
                           then match abi_decode_uint256 (data r2) with
                                | Ok _ => Panic 17
                                | Revert e => e
                                end
                           else Require "Morpho redeem failed")).
  { apply (withdraw_dust_reverts h (ledger_addr w) sender now (ledger w)
             (vault w, token w)
             (mkReply true [currentValue]) (vault w, token w) currentValue
             r2 env2); auto.
    - subst h. rewrite (handle_ledger_convertToAssets _ _ _ _ _ _ _ Hvault).
      cbn [fst]. fold d. rewrite Hcv. reflexivity.
    - cbn. rewrite mod_uint256 by exact Hrange. reflexivity. }
  subst h. rewrite (handle_ledger_redeem_eq _ _ _ _ _ _ _ _ Hvault) in Hc2.
  split.
  - destruct (run_vault _ _ _ _) as [[a env1]|] in Hc2;
      inversion Hc2; subst r2 env2; cbn in Hrun.
    + left. apply exec_Revert. exact Hrun.
    + right. apply exec_Revert. exact Hrun.
  - intros redeemed env' Hred. rewrite Hred in Hc2.
    inversion Hc2; subst r2 env2. cbn in Hrun.
    split; [| apply exec_Revert; exact Hrun].
    apply redeem_for_ledger in Hred as (Hcta & _); [| exact Hvasset].
    cbn [fst] in Hcta. fold d in Hcv. rewrite Hcv in Hcta.
    inversion Hcta. reflexivity.
Qed.

(** In the scenario Bob's five units are still worth five units at
    time 1360, the vault redeems them in full, and his withdrawal
    reverts on the underflow. *)
Lemma withdraw_below_tolerance_witness :
  MockMorphoVault.convertToAssets Scenario.vault2 1360 5 = Ok 5
  /\ withdraw Scenario.dust Scenario.BOB 1360 = Revert (Panic 17).
Proof.
  split; [reflexivity |].
  assert (Hw : wired Scenario.dust).
  { repeat split. apply Z.eqb_neq. reflexivity. }
  assert (Hwf : MockMorphoVault.wf Scenario.vault2).
  { unfold MockMorphoVault.wf, is_uint256, MAX_UINT256. cbn. lia. }
  assert (Hsh : is_uint256 5).
  { unfold is_uint256, MAX_UINT256. lia. }
  destruct (withdraw_below_tolerance_reverts Scenario.dust Scenario.BOB
              1360 5 eq_refl Hw Hwf Hsh eq_refl ltac:(lia)) as [_ H].
  destruct (run_vault (token_addr Scenario.dust) (vault_addr Scenario.dust)
              (MockMorphoVault.redeem (vault_addr Scenario.dust)
                 (ledger_addr Scenario.dust) 1360 5
                 (ledger_addr Scenario.dust) (ledger_addr Scenario.dust))
              (vault Scenario.dust, token Scenario.dust))
    as [[a env']|] eqn:Hred; [| vm_compute in Hred; discriminate].
  exact (proj2 (H a env' Hred)).
Defined.
End Dust.

(** ** The life of a deposit record *)

Section Records.
Import JubyVault Ledger.

(** C8, as the claim states it, fails: with a record active, a
    [deposit] of amount [0] is rejected for its amount, not as a
    duplicate. *)
Lemma deposit_active_zero_amount :
  exists_ (deposit_of (World.ledger (Scenario.funded 2000)) Scenario.ALICE)
  = true
  /\ World.deposit (Scenario.funded 2000) Scenario.ALICE 1500 0 3000
     = Revert (Require "Cannot deposit 0")
  /\ Require "Cannot deposit 0" <> DUPLICATE_ACTIVE_DEPOSIT.
Proof. split; [reflexivity |]. split; [reflexivity | discriminate]. Qed.

(** C8, amended. An account's record moves [NoDeposit -> Active] by the
    account's own [deposit] and [Active -> NoDeposit] by its own
    [withdraw], and no function of the ledger moves it otherwise or
    changes it while it is active. With a record active, every
    [deposit] of the account reverts before any call or write, and with
    the duplicate-active-deposit error whenever the amount is positive
    and the goal date in the future (the checks on the amount and on
    the goal date come first). With no record active, [withdraw]
    reverts with the no-active-deposit error. *)
Theorem deposit_record_state_machine {Env : Type}
    (handle : Env -> ExtCall -> Reply * Env)
    (this sender : address) (now : Z) (st : State) :
  (status st sender = Active ->
   forall amount goal,
     (exists e, deposit this sender now amount goal st = Abort e)
     /\ (0 < amount -> now < goal ->
         deposit this sender now amount goal st
         = Abort DUPLICATE_ACTIVE_DEPOSIT))
  /\ (status st sender = NoDeposit ->
      withdraw this sender now st = Abort NO_ACTIVE_DEPOSIT)
  /\ (forall tx env st' log env',
         run handle (dispatch this sender now tx st) env
         = Ok ((), st', log, env') ->
         (forall a,
             match status st a, status st' a with
             | NoDeposit, Active =>
                 a = sender /\ exists amount goal, tx = TxDeposit amount goal
             | Active, NoDeposit => a = sender /\ tx = TxWithdraw
             | _, _ => deposit_of st' a = deposit_of st a
             end)
         /\ (forall amount goal,
                tx = TxDeposit amount goal ->
                status st sender = NoDeposit /\ status st' sender = Active)
         /\ (tx = TxWithdraw ->
             status st sender = Active /\ status st' sender = NoDeposit)).
Proof.
  split; [| split].
  - intros Hact amount goal.
    assert (Hex : exists_ (deposit_of st sender) = true).
    { unfold status in Hact. destruct (exists_ _); [reflexivity | discriminate]. }
    rewrite (deposit_active_rejected this sender now amount goal st Hex).
    split; [eauto |]. intros Ha Hg.
    destruct (Z.gtb_spec amount 0); [| lia].
    destruct (Z.gtb_spec goal now); [| lia]. reflexivity.
  - intros Hno. apply withdraw_inactive_rejected.
    unfold status in Hno. destruct (exists_ _); [discriminate | reflexivity].
  - intros tx env st' log env' H. split; [| split].
    + apply (dispatch_transitions handle this sender now tx st env st' log
               env' H).
    + intros amount goal ->. unfold dispatch in H.
      apply run_then_ret in H as [ret H].
      apply deposit_run_Ok in H as (_ & _ & Hex & -> & _).
      unfold status. rewrite Hex, deposit_of_set_deposit.
      destruct (decide (sender = sender)); [| contradiction]. auto.
    + intros ->. unfold dispatch in H.
      apply run_then_ret in H as [ret H].
      apply withdraw_run_Ok in H.
      destruct H as (r1 & env1 & cv & r2 & env2 & received & env3 & r4 & Hex
                     & _ & _ & _ & _ & _ & _ & _ & _ & _ & _ & -> & _).
      unfold status. rewrite Hex, deposit_of_delete_deposit.
      destruct (decide (sender = sender)); [| contradiction]. auto.
Qed.

(** In the scenario Alice's second deposit is refused as a duplicate,
    and the world stays as it was: the transaction reverts. *)
Lemma deposit_record_state_machine_witness :
  World.deposit (Scenario.funded 2000) Scenario.ALICE 1500 (10 ^ 9) 3000
  = Revert DUPLICATE_ACTIVE_DEPOSIT.
Proof.
  unfold World.deposit, World.exec.
  rewrite (proj2 (proj1 (deposit_record_state_machine
                           (World.handle_ledger Scenario.USDC Scenario.VAULT
                                                Scenario.LEDGER 1500)
                           (World.ledger_addr (Scenario.funded 2000))
                           Scenario.ALICE 1500
                           (World.ledger (Scenario.funded 2000)))
                        eq_refl (10 ^ 9) 3000)
                 ltac:(lia) ltac:(lia)).
  reflexivity.
Defined.
End Records.

(** ** The first deposit and the rounding of the share vault *)

Section VaultPaths.
Context {Env : Type} (handle : Env -> ExtCall -> Reply * Env).
Import MockMorphoVault.

Lemma run_transferFrom_Ok {S E} (h : Env -> ExtCall -> Reply * Env)
    token from to amount (s : S) env u s' (log : list E) env' :
  run h (_transferFrom (S := S) (E := E) token from to amount s) env
  = Ok (u, s', log, env') ->
  exists r,
    h env (mkCall token CALL "transferFrom(address,address,uint256)"
                  [from; to; amount])
    = (r, env')
    /\ token_call_ok r = Ok true /\ s' = s /\ log = [].
Proof.
  unfold _transferFrom. unfold_ops. cbn.
  destruct (h env _) as [r env1].
  destruct (token_call_ok r) as [[|]|] eqn:Hok; cbn; try discriminate.
  intros H. inversion H; subst. exists r. auto.
Qed.

(** Right after an accrual the pool is worth what is cached. *)
Lemma totalAssets_at_update v now :
  lastYieldUpdate v = now -> totalAssets v now = Ok (_totalAssets v).
Proof.
  intros Hl. unfold totalAssets. rewrite Hl.
  destruct (Z.eqb_spec (_totalAssets v) 0) as [-> | _]; [reflexivity |].
  rewrite checked_sub_eq, bind_Ok_eq by lia.
  rewrite Z.sub_diag. reflexivity.
Qed.

(** The first deposit into a vault that was never initialized: the
    dead shares are minted, and the pool records the dead shares'
    worth on top of the assets pulled from the caller. *)
Lemma first_deposit_run_Ok this sender now assets receiver v env shares v'
    log env' :
  initialized v = false -> _totalAssets v = 0 ->
  run handle (deposit this sender now assets receiver v) env
  = Ok (shares, v', log, env') ->
  DEAD_SHARES <= assets
  /\ shares = assets
  /\ totalSupply v' = DEAD_SHARES + assets
  /\ _totalAssets v' = DEAD_SHARES + assets
  /\ (receiver <> DEAD_ADDRESS ->
      mget (balanceOf v') DEAD_ADDRESS = DEAD_SHARES)
  /\ exists r,
       handle env (mkCall (asset v) CALL
                          "transferFrom(address,address,uint256)"
                          [sender; this; assets])
       = (r, env')
       /\ token_call_ok r = Ok true.
Proof.
  intros Hinit HT H. unfold deposit in H.
  peel_run H Hpos. peel_run H Hrecv. peel_run H Hacc.
  apply accrueYield_run_Ok in Hacc as (total & Htot & -> & ->).
  assert (total = 0) as ->.
  { unfold totalAssets in Htot. rewrite HT in Htot. cbn in Htot.
    inversion Htot. reflexivity. }
  peel_run H Hg. cbn in H. rewrite Hinit in H. cbn [negb when] in H.
  peel_run H Hi.
  apply run_bind_Ok in Hi as (? & ? & ? & ? & ? & Hi & Hset & ->).
  apply run_modify_Ok in Hset as (-> & -> & ->).
  unfold _initializeVault in Hi.
  peel_run Hi Hmin. peel_run Hi H1. peel_run Hi H2. peel_run Hi H3.
  apply run_emit_Ok in Hi as (-> & -> & ->).
  apply Z.geb_le in Hmin.
  peel_run H Hcts.
  match type of Hcts with
  | _ = Ok ?sh =>
      assert (Hsh : sh = assets /\ assets * DEAD_SHARES <= MAX_UINT256)
  end.
  { unfold convertToShares in Hcts.
    rewrite totalAssets_at_update in Hcts by reflexivity.
    cbn in Hcts.
    peel Hcts. apply checked_div_Ok in Hcts as [-> _].
    split; [| exact Hx]. apply Z.div_mul. discriminate. }
  destruct Hsh as [-> Hno].
  peel_run H Hz. peel_run H Hg2. peel_run H Htr.
  apply run_transferFrom_Ok in Htr as (r & Hc & Hok & -> & ->).
  unfold totalSupply_add, balanceOf_add, totalAssets_add in H.
  peel_run H Hts.
  peel_run Hts Hts1. peel_run Hts Hts2.
  apply run_modify_Ok in Hts as (-> & -> & ->).
  apply checked_add_Ok in Hts2 as [-> _].
  peel_run H Hb.
  peel_run Hb Hb1. peel_run Hb Hb2.
  apply run_modify_Ok in Hb as (-> & -> & ->).
  peel_run H Hta.
  peel_run Hta Hta1. peel_run Hta Hta2.
  apply run_modify_Ok in Hta as (-> & -> & ->).
  apply checked_add_Ok in Hta2 as [-> _].
  peel_run H He1. peel_run H He2.
  apply run_mret_Ok in H as (-> & -> & -> & ->).
  cbn. repeat split; try assumption; try reflexivity.
  - intros Hne. rewrite mget_insert.
    destruct (decide (receiver = DEAD_ADDRESS)); [contradiction |].
    rewrite mget_insert.
    destruct (decide (DEAD_ADDRESS = DEAD_ADDRESS)); [reflexivity |].
    contradiction.
  - exists r. cbn in Hc. auto.
Qed.

(** The asset-denominated [withdraw] burns [convertToShares(assets)],
    the floor conversion. *)
Lemma vault_withdraw_run_Ok this sender now assets receiver owner v env
    shares v' log env' :
  run handle (withdraw this sender now assets receiver owner v) env
  = Ok (shares, v', log, env') ->
  convertToShares v now assets = Ok shares.
Proof.
  unfold withdraw. intros H.
  peel_run H Hpos. peel_run H Hrecv. peel_run H Hacc.
  apply accrueYield_run_Ok in Hacc as (total & Htot & -> & ->).
  peel_run H Hcts. peel_run H Hz. peel_run H Hsp.
  apply spend_allowance_run_Ok in Hsp as (_ & ->).
  peel_run H Hg. peel_run H Hbal.
  unfold balanceOf_sub, totalSupply_sub, totalAssets_sub in H.
  peel_run H Hb. peel_run Hb Hb1. peel_run Hb Hb2.
  apply run_modify_Ok in Hb as (-> & -> & ->).
  peel_run H Hs. peel_run Hs Hs1. peel_run Hs Hs2.
  apply run_modify_Ok in Hs as (-> & -> & ->).
  peel_run H Ht. peel_run Ht Ht1. peel_run Ht Ht2.
  apply run_modify_Ok in Ht as (-> & -> & ->).
  peel_run H Hg2. peel_run H Htr.
  apply run_transfer_Ok in Htr as (r & Hc & Hok & -> & ->).
  peel_run H He1. peel_run H He2.
  apply run_mret_Ok in H as (-> & -> & -> & ->).
  rewrite <- Hcts. unfold convertToShares. cbn.
  rewrite (totalAssets_at_update
             (set_lastYieldUpdate now (set_totalAssets total v)) now)
    by reflexivity.
  cbn. rewrite Htot. reflexivity.
Qed.
End VaultPaths.

Section Rounding.
Import MockMorphoVault.

Lemma ceiling_div n t :
  0 < t -> let r := (n + t - 1) / t in n <= r * t /\ (r - 1) * t < n.
Proof.
  intros Ht r. subst r.
  pose proof (Z.div_mod (n + t - 1) t ltac:(lia)) as Hdm.
  pose proof (Z.mod_pos_bound (n + t - 1) t Ht) as Hm.
  nia.
Qed.

(** The two previews that compute a required input round up. *)
Lemma previewWithdraw_ceiling v now assets total r :
  wf v -> totalSupply v <> 0 -> total <> 0 ->
  totalAssets v now = Ok total ->
  previewWithdraw v now assets = Ok r ->
  assets * totalSupply v <= r * total
  /\ (r - 1) * total < assets * totalSupply v.
Proof.
  intros Hwf Hs Hne Ht H. unfold previewWithdraw in H.
  rewrite Ht, bind_Ok_eq in H.
  destruct (Z.eqb_spec (totalSupply v) 0); [contradiction |].
  destruct (Z.eqb_spec total 0); [contradiction |]. cbn in H.
  peel H. peel H. peel H. apply checked_div_Ok in H as [-> _].
  pose proof (totalAssets_range _ _ _ Hwf Ht) as [Ht0 _].
  apply ceiling_div. lia.
Qed.

Lemma previewMint_ceiling v now shares total r :
  wf v -> totalSupply v <> 0 ->
  totalAssets v now = Ok total ->
  previewMint v now shares = Ok r ->
  shares * total <= r * totalSupply v
  /\ (r - 1) * totalSupply v < shares * total.
Proof.
  intros Hwf Hs Ht H. unfold previewMint in H.
  destruct (Z.eqb_spec (totalSupply v) 0); [contradiction |].
  rewrite Ht, bind_Ok_eq in H.
  peel H. peel H. peel H. apply checked_div_Ok in H as [-> _].
  destruct Hwf as ([Hs0 _] & _).
  apply ceiling_div. lia.
Qed.
End Rounding.

Section VaultRuns.
Import World Scenario.

(** C3, on the code. A first deposit below the minimum is refused. The
    first deposit of [10^9] units pulls [10^9] units from the caller,
    mints [10^9] dead shares and [10^9] shares to the caller, and
    leaves [cachedTotalAssets] at [2 * 10^9]: the dead shares are
    recorded as assets on top of the deposit, not carved out of it. *)
Lemma first_deposit_records_twice :
  exec_vault fresh
    (MockMorphoVault.deposit VAULT ALICE 1000 (10 ^ 9 - 1) ALICE)
  = Revert (Require "First deposit too small")
  /\ exec_vault fresh
       (MockMorphoVault.deposit VAULT ALICE 1000 (10 ^ 9) ALICE)
     = Ok (10 ^ 9, seeded)
  /\ balance fresh ALICE - balance seeded ALICE = 10 ^ 9
  /\ balance seeded VAULT = 10 ^ 9
  /\ mget (MockMorphoVault.balanceOf (vault seeded))
          MockMorphoVault.DEAD_ADDRESS = MockMorphoVault.DEAD_SHARES
  /\ MockMorphoVault.totalSupply (vault seeded) = 2 * 10 ^ 9
  /\ MockMorphoVault._totalAssets (vault seeded) = 2 * 10 ^ 9.
Proof. repeat split; vm_compute; reflexivity. Qed.

(** C5, on the code. At time 1360 the vault previews [499_999_715]
    shares for a withdrawal of [500_000_000] units, the ceiling, and the
    withdrawal itself burns [499_999_714], the floor. *)
Lemma vault_withdraw_charges_floor :
  MockMorphoVault.previewWithdraw (vault seeded) 1360 (5 * 10 ^ 8)
  = Ok 499999715
  /\ MockMorphoVault.convertToShares (vault seeded) 1360 (5 * 10 ^ 8)
     = Ok 499999714
  /\ exists w',
       exec_vault seeded
         (MockMorphoVault.withdraw VAULT ALICE 1360 (5 * 10 ^ 8) ALICE ALICE)
       = Ok (499999714, w')
       /\ balance w' ALICE = 5 * 10 ^ 8
       /\ mget (MockMorphoVault.balanceOf (vault w')) ALICE
          = 10 ^ 9 - 499999714.
Proof.
  split; [reflexivity |]. split; [reflexivity |].
  eexists. split; [vm_compute; reflexivity |].
  split; vm_compute; reflexivity.
Qed.
End VaultRuns.

(** * Further properties *)

(** ** The share vault, function by function *)

Lemma run_seq_ret {S E A Env} (handle : Env -> ExtCall -> Reply * Env)
    (m : M S E A) s env s' log env' :
  run handle ((m;; mret tt) s) env = Ok ((), s', log, env') ->
  exists a, run handle (m s) env = Ok (a, s', log, env').
Proof.
  intros H.
  apply run_bind_Ok in H as (a & s1 & l1 & e1 & l2 & Hm & H & ->).
  apply run_mret_Ok in H as (_ & -> & -> & ->).
  exists a. rewrite app_nil_r. exact Hm.
Qed.

Section VaultSteps.
Context {Env : Type} (handle : Env -> ExtCall -> Reply * Env).
Import MockMorphoVault Vault.

Lemma totalSupply_add_run_Ok x v env u v' log env' :
  run handle (totalSupply_add x v) env = Ok (u, v', log, env') ->
  totalSupply v + x <= MAX_UINT256
  /\ v' = set_totalSupply (totalSupply v + x) v /\ log = [] /\ env' = env.
Proof.
  unfold totalSupply_add. intros H. peel_run H H1. peel_run H H2.
  apply checked_add_Ok in H2 as [-> H2].
  apply run_modify_Ok in H as (-> & -> & ->). auto.
Qed.

Lemma totalSupply_sub_run_Ok x v env u v' log env' :
  run handle (totalSupply_sub x v) env = Ok (u, v', log, env') ->
  x <= totalSupply v
  /\ v' = set_totalSupply (totalSupply v - x) v /\ log = [] /\ env' = env.
Proof.
  unfold totalSupply_sub. intros H. peel_run H H1. peel_run H H2.
  apply checked_sub_Ok in H2 as [-> H2].
  apply run_modify_Ok in H as (-> & -> & ->). auto.
Qed.

Lemma totalAssets_add_run_Ok x v env u v' log env' :
  run handle (totalAssets_add x v) env = Ok (u, v', log, env') ->
  _totalAssets v + x <= MAX_UINT256
  /\ v' = set_totalAssets (_totalAssets v + x) v /\ log = [] /\ env' = env.
Proof.
  unfold totalAssets_add. intros H. peel_run H H1. peel_run H H2.
  apply checked_add_Ok in H2 as [-> H2].
  apply run_modify_Ok in H as (-> & -> & ->). auto.
Qed.

Lemma totalAssets_sub_run_Ok x v env u v' log env' :
  run handle (totalAssets_sub x v) env = Ok (u, v', log, env') ->
  x <= _totalAssets v
  /\ v' = set_totalAssets (_totalAssets v - x) v /\ log = [] /\ env' = env.
Proof.
  unfold totalAssets_sub. intros H. peel_run H H1. peel_run H H2.
  apply checked_sub_Ok in H2 as [-> H2].
  apply run_modify_Ok in H as (-> & -> & ->). auto.
Qed.

Lemma balanceOf_add_run_Ok a x v env u v' log env' :
  run handle (balanceOf_add a x v) env = Ok (u, v', log, env') ->
  mget (balanceOf v) a + x <= MAX_UINT256
  /\ v' = set_balanceOf a (mget (balanceOf v) a + x) v
  /\ log = [] /\ env' = env.
Proof.
  unfold balanceOf_add. intros H. peel_run H H1. peel_run H H2.
  apply checked_add_Ok in H2 as [-> H2].
  apply run_modify_Ok in H as (-> & -> & ->). auto.
Qed.

Lemma balanceOf_sub_run_Ok a x v env u v' log env' :
  run handle (balanceOf_sub a x v) env = Ok (u, v', log, env') ->
  x <= mget (balanceOf v) a
  /\ v' = set_balanceOf a (mget (balanceOf v) a - x) v
  /\ log = [] /\ env' = env.
Proof.
  unfold balanceOf_sub. intros H. peel_run H H1. peel_run H H2.
  apply checked_sub_Ok in H2 as [-> H2].
  apply run_modify_Ok in H as (-> & -> & ->). auto.
Qed.

Lemma allowance_sub_run_Ok o s x v env u v' log env' :
  run handle (allowance_sub o s x v) env = Ok (u, v', log, env') ->
  x <= mget (allowance v) (o, s)
  /\ v' = set_allowance o s (mget (allowance v) (o, s) - x) v
  /\ log = [] /\ env' = env.
Proof.
  unfold allowance_sub. intros H. peel_run H H1. peel_run H H2.
  apply checked_sub_Ok in H2 as [-> H2].
  apply run_modify_Ok in H as (-> & -> & ->). auto.
Qed.

Lemma spend_allowance_run_state sender owner shares v env u v' log env' :
  run handle (spend_allowance sender owner shares v) env
  = Ok (u, v', log, env') ->
  v' = spent sender owner shares v /\ log = [] /\ env' = env
  /\ (sender <> owner -> shares <= mget (allowance v) (owner, sender)).
Proof.
  unfold spend_allowance, when, spent. intros H.
  destruct (Z.eqb_spec sender owner) as [-> | Hne]; cbn [negb] in H.
  - apply run_mret_Ok in H as (_ & -> & -> & ->).
    repeat split; auto. intros Hc. contradiction.
  - peel_run H H1. peel_run H H2.
    apply allowance_sub_run_Ok in H as (Hle & -> & -> & ->). auto.
Qed.

Lemma initializeVault_run_Ok firstDeposit v env u v' log env' :
  run handle (_initializeVault firstDeposit v) env = Ok (u, v', log, env') ->
  DEAD_SHARES <= firstDeposit
  /\ v' = set_totalAssets DEAD_SHARES
            (set_balanceOf DEAD_ADDRESS DEAD_SHARES
               (set_totalSupply DEAD_SHARES v))
  /\ env' = env.
Proof.
  unfold _initializeVault. intros H.
  peel_run H Hmin. peel_run H H1. peel_run H H2. peel_run H H3.
  apply run_emit_Ok in H as (-> & -> & ->).
  apply Z.geb_le in Hmin. auto.
Qed.

Lemma prepare_run_Ok first v env u v' log env' :
  run handle
    (when (negb (initialized v))
       (_initializeVault first;; modify (set_initialized true)) v) env
  = Ok (u, v', log, env') ->
  v' = (if initialized v then v else with_dead_shares v)
  /\ env' = env
  /\ (initialized v = false -> DEAD_SHARES <= first).
Proof.
  intros H. destruct (initialized v); cbn [negb when] in H.
  - apply run_mret_Ok in H as (_ & -> & _ & ->).
    repeat split; auto. discriminate.
  - peel_run H Hi.
    apply initializeVault_run_Ok in Hi as (Hmin & -> & ->).
    apply run_modify_Ok in H as (-> & _ & ->). auto.
Qed.

(** A successful [deposit]. *)
Lemma vault_deposit_run_Ok this sender now assets receiver v env shares v'
    log env' :
  run handle (deposit this sender now assets receiver v) env
  = Ok (shares, v', log, env') ->
  exists total,
    0 < assets /\ receiver <> 0
    /\ totalAssets v now = Ok total
    /\ (initialized v = false -> DEAD_SHARES <= assets)
    /\ convertToShares (prepared now total v) now assets = Ok shares
    /\ 0 < shares
    /\ v' = minted receiver shares assets (prepared now total v)
    /\ totalSupply (prepared now total v) + shares <= MAX_UINT256
    /\ _totalAssets (prepared now total v) + assets <= MAX_UINT256
    /\ exists r,
         handle env (mkCall (asset v) CALL
                            "transferFrom(address,address,uint256)"
                            [sender; this; assets])
         = (r, env')
         /\ token_call_ok r = Ok true.
Proof.
  intros H. unfold deposit in H.
  peel_run H Hpos. peel_run H Hrecv. peel_run H Hacc.
  apply accrueYield_run_Ok in Hacc as (total & Htot & -> & ->).
  exists total. fold (accrued now total v) in H.
  peel_run H Hg.
  peel_run H Hinit.
  apply prepare_run_Ok in Hinit as (-> & -> & Hmin).
  change (if initialized (accrued now total v)
          then accrued now total v
          else with_dead_shares (accrued now total v))
    with (prepared now total v) in *.
  peel_run H Hcts. peel_run H Hz. peel_run H Hg2. peel_run H Htr.
  apply run_transferFrom_Ok in Htr as (r & Hc & Hok & -> & ->).
  peel_run H Hts. apply totalSupply_add_run_Ok in Hts as (Hts & -> & -> & ->).
  peel_run H Hb. apply balanceOf_add_run_Ok in Hb as (Hb & -> & -> & ->).
  peel_run H Hta. apply totalAssets_add_run_Ok in Hta as (Hta & -> & -> & ->).
  peel_run H He1. peel_run H He2.
  apply run_mret_Ok in H as (-> & -> & -> & ->).
  apply Z.gtb_lt in Hpos. apply Z.gtb_lt in Hz.
  apply negb_true_iff, Z.eqb_neq in Hrecv.
  repeat split; auto.
  exists r. split; [| exact Hok].
  rewrite <- Hc. unfold prepared. destruct (initialized v); reflexivity.
Qed.

(** A successful [mint]. *)
Lemma vault_mint_run_Ok this sender now shares receiver v env assets v' log
    env' :
  run handle (mint this sender now shares receiver v) env
  = Ok (assets, v', log, env') ->
  exists total,
    0 < shares /\ receiver <> 0
    /\ totalAssets v now = Ok total
    /\ (if initialized v
        then convertToAssets (accrued now total v) now shares = Ok assets
        else DEAD_SHARES <= shares /\ assets = shares)
    /\ 0 < assets
    /\ v' = minted receiver shares assets (prepared now total v)
    /\ totalSupply (prepared now total v) + shares <= MAX_UINT256
    /\ _totalAssets (prepared now total v) + assets <= MAX_UINT256
    /\ exists r,
         handle env (mkCall (asset v) CALL
                            "transferFrom(address,address,uint256)"
                            [sender; this; assets])
         = (r, env')
         /\ token_call_ok r = Ok true.
Proof.
  intros H. unfold mint in H.
  peel_run H Hpos. peel_run H Hrecv. peel_run H Hacc.
  apply accrueYield_run_Ok in Hacc as (total & Htot & -> & ->).
  exists total. fold (accrued now total v) in H.
  peel_run H Hg. peel_run H Hinit.
  change (initialized (accrued now total v)) with (initialized v) in Hinit.
  match type of Hinit with
  | run _ _ _ = Ok (?x, ?s1, _, ?e1) =>
      assert (Hs : s1 = prepared now total v /\ e1 = env
                   /\ (if initialized v
                       then convertToAssets (accrued now total v) now shares
                            = Ok x
                       else DEAD_SHARES <= shares /\ x = shares))
  end.
  { unfold prepared. destruct (initialized v); cbn [negb] in Hinit.
    - apply run_view_Ok in Hinit as (Hcta & -> & _ & ->). auto.
    - peel_run Hinit Hi.
      apply initializeVault_run_Ok in Hi as (Hmin & -> & ->).
      peel_run Hinit Hm.
      apply run_mret_Ok in Hinit as (-> & -> & _ & ->). auto. }
  destruct Hs as (-> & -> & Hassets). clear Hinit.
  peel_run H Hz. peel_run H Hg2. peel_run H Htr.
  apply run_transferFrom_Ok in Htr as (r & Hc & Hok & -> & ->).
  peel_run H Hts. apply totalSupply_add_run_Ok in Hts as (Hts & -> & -> & ->).
  peel_run H Hb. apply balanceOf_add_run_Ok in Hb as (Hb & -> & -> & ->).
  peel_run H Hta. apply totalAssets_add_run_Ok in Hta as (Hta & -> & -> & ->).
  peel_run H He1. peel_run H He2.
  apply run_mret_Ok in H as (-> & -> & -> & ->).
  apply Z.gtb_lt in Hpos. apply Z.gtb_lt in Hz.
  apply negb_true_iff, Z.eqb_neq in Hrecv.
  repeat split; auto.
  exists r. split; [| exact Hok].
  rewrite <- Hc. unfold prepared. destruct (initialized v); reflexivity.
Qed.

(** A successful asset-denominated [withdraw]. *)
Lemma vault_withdraw_run_state this sender now assets receiver owner v env
    shares v' log env' :
  run handle (withdraw this sender now assets receiver owner v) env
  = Ok (shares, v', log, env') ->
  exists total,
    0 < assets /\ receiver <> 0
    /\ totalAssets v now = Ok total
    /\ convertToShares (accrued now total v) now assets = Ok shares
    /\ 0 < shares
    /\ (sender <> owner -> shares <= mget (allowance v) (owner, sender))
    /\ shares <= mget (balanceOf v) owner
    /\ shares <= totalSupply v
    /\ assets <= total
    /\ v' = burned owner shares assets
              (spent sender owner shares (accrued now total v))
    /\ exists r,
         handle env (mkCall (asset v) CALL "transfer(address,uint256)"
                            [receiver; assets])
         = (r, env')
         /\ token_call_ok r = Ok true.
Proof.
  intros H. unfold withdraw in H.
  peel_run H Hpos. peel_run H Hrecv. peel_run H Hacc.
  apply accrueYield_run_Ok in Hacc as (total & Htot & -> & ->).
  exists total. fold (accrued now total v) in H.
  peel_run H Hcts. peel_run H Hz. peel_run H Hsp.
  apply spend_allowance_run_state in Hsp as (-> & -> & -> & Hal).
  peel_run H Hg. peel_run H Hbal.
  peel_run H Hb. apply balanceOf_sub_run_Ok in Hb as (Hb & -> & -> & ->).
  peel_run H Hs. apply totalSupply_sub_run_Ok in Hs as (Hs & -> & -> & ->).
  peel_run H Ht. apply totalAssets_sub_run_Ok in Ht as (Ht & -> & -> & ->).
  peel_run H Hg2. peel_run H Htr.
  apply run_transfer_Ok in Htr as (r & Hc & Hok & -> & ->).
  peel_run H He1. peel_run H He2.
  apply run_mret_Ok in H as (<- & -> & -> & ->).
  apply Z.gtb_lt in Hpos. apply Z.gtb_lt in Hz.
  apply negb_true_iff, Z.eqb_neq in Hrecv.
  assert (Hsame : forall x, asset (spent sender owner x (accrued now total v))
                            = asset v
                    /\ balanceOf (spent sender owner x (accrued now total v))
                       = balanceOf v
                    /\ totalSupply (spent sender owner x (accrued now total v))
                       = totalSupply v
                    /\ _totalAssets (spent sender owner x (accrued now total v))
                       = total).
  { intros x. unfold spent. destruct (sender =? owner); auto. }
  destruct (Hsame shares) as (Ha & Hbo & Hso & Hto).
  cbn in Hb, Hs, Ht, Hc, Hal.
  rewrite Hbo in Hb. rewrite Hso in Hs. rewrite Hto in Ht. rewrite Ha in Hc.
  repeat split; auto; try lia.
  all: try (exists r; auto).
  all: try reflexivity.
Qed.

(** A successful [redeem]. *)
Lemma vault_redeem_run_state this sender now shares receiver owner v env
    assets v' log env' :
  run handle (redeem this sender now shares receiver owner v) env
  = Ok (assets, v', log, env') ->
  exists total,
    0 < shares /\ receiver <> 0
    /\ totalAssets v now = Ok total
    /\ convertToAssets v now shares = Ok assets
    /\ 0 < assets
    /\ (sender <> owner -> shares <= mget (allowance v) (owner, sender))
    /\ shares <= mget (balanceOf v) owner
    /\ shares <= totalSupply v
    /\ assets <= total
    /\ v' = burned owner shares assets
              (accrued now total (spent sender owner shares v))
    /\ exists r,
         handle env (mkCall (asset v) CALL "transfer(address,uint256)"
                            [receiver; assets])
         = (r, env')
         /\ token_call_ok r = Ok true.
Proof.
  intros H. pose proof H as Hcta. apply redeem_run_Ok in Hcta as (Hcta & _).
  unfold redeem in H.
  peel_run H Hpos. peel_run H Hrecv. peel_run H Hsp.
  apply spend_allowance_run_state in Hsp as (-> & -> & -> & Hal).
  peel_run H Hg. peel_run H Hbal. peel_run H Hacc.
  apply accrueYield_run_Ok in Hacc as (total & Htot & -> & ->).
  exists total. fold (accrued now total (spent sender owner shares v)) in H.
  peel_run H Hc'. peel_run H Hz.
  peel_run H Hb. apply balanceOf_sub_run_Ok in Hb as (Hb & -> & -> & ->).
  peel_run H Hs. apply totalSupply_sub_run_Ok in Hs as (Hs & -> & -> & ->).
  peel_run H Ht. apply totalAssets_sub_run_Ok in Ht as (Ht & -> & -> & ->).
  peel_run H Hg2. peel_run H Htr.
  apply run_transfer_Ok in Htr as (r & Hc & Hok & -> & ->).
  peel_run H He1. peel_run H He2.
  apply run_mret_Ok in H as (<- & -> & -> & ->).
  apply Z.gtb_lt in Hpos. apply Z.gtb_lt in Hz.
  apply negb_true_iff, Z.eqb_neq in Hrecv.
  assert (Hsame : asset (spent sender owner shares v) = asset v
                  /\ balanceOf (spent sender owner shares v) = balanceOf v
                  /\ totalSupply (spent sender owner shares v) = totalSupply v
                  /\ _totalAssets (spent sender owner shares v)
                     = _totalAssets v
                  /\ lastYieldUpdate (spent sender owner shares v)
                     = lastYieldUpdate v).
  { unfold spent. destruct (sender =? owner); auto. }
  destruct Hsame as (Ha & Hbo & Hso & Hto & Hlo).
  assert (Htot' : totalAssets v now = Ok total).
  { rewrite <- Htot. unfold totalAssets. rewrite Hto, Hlo. reflexivity. }
  cbn in Hb, Hs, Ht, Hc, Hal.
  rewrite Hbo in Hb. rewrite Hso in Hs. rewrite Ha in Hc.
  repeat split; auto; try lia.
  all: try (exists r; auto).
  all: try reflexivity.
Qed.

(** The share token's own functions. *)
Lemma vault_approve_run_Ok sender spender amount v env u v' log env' :
  run handle (approve sender spender amount v) env = Ok (u, v', log, env') ->
  v' = set_allowance sender spender amount v /\ env' = env.
Proof.
  unfold approve. intros H. peel_run H H1. peel_run H H2.
  apply run_mret_Ok in H as (_ & -> & _ & ->). auto.
Qed.

Lemma vault_transfer_run_Ok sender to amount v env u v' log env' :
  run handle (transfer sender to amount v) env = Ok (u, v', log, env') ->
  amount <= mget (balanceOf v) sender
  /\ v' = moved sender to amount v /\ env' = env.
Proof.
  unfold transfer. intros H. peel_run H H1. peel_run H H2.
  peel_run H Hb. apply balanceOf_sub_run_Ok in Hb as (Hb & -> & -> & ->).
  peel_run H Ha. apply balanceOf_add_run_Ok in Ha as (Ha & -> & -> & ->).
  peel_run H He.
  apply run_mret_Ok in H as (_ & -> & _ & ->). auto.
Qed.

Lemma vault_transferFrom_run_Ok sender from to amount v env u v' log env' :
  run handle (transferFrom sender from to amount v) env
  = Ok (u, v', log, env') ->
  amount <= mget (allowance v) (from, sender)
  /\ amount <= mget (balanceOf v) from
  /\ v' = moved from to amount
            (set_allowance from sender
               (mget (allowance v) (from, sender) - amount) v)
  /\ env' = env.
Proof.
  unfold transferFrom. intros H. peel_run H H1. peel_run H H2.
  peel_run H H3. peel_run H H4.
  peel_run H Hal. apply allowance_sub_run_Ok in Hal as (Hal & -> & -> & ->).
  peel_run H Hb. apply balanceOf_sub_run_Ok in Hb as (Hb & -> & -> & ->).
  peel_run H Ha. apply balanceOf_add_run_Ok in Ha as (Ha & -> & -> & ->).
  peel_run H He.
  apply run_mret_Ok in H as (_ & -> & _ & ->). auto.
Qed.
End VaultSteps.

(** ** The share supply and the dead shares *)

Section Supply.
Import MockMorphoVault Vault.

Lemma sum_balances_insert_fresh (m : gmap address Z) a x :
  m !! a = None -> sum_balances (<[a := x]> m) = x + sum_balances m.
Proof.
  intros Hnone. unfold sum_balances.
  apply (map_fold_insert_L (fun _ x acc => x + acc)); [| exact Hnone].
  intros. lia.
Qed.

Lemma sum_balances_insert (m : gmap address Z) a x :
  sum_balances (<[a := x]> m) = sum_balances m - mget m a + x.
Proof.
  unfold mget. destruct (m !! a) as [y|] eqn:Hy; cbn.
  - rewrite <- (insert_delete_id m a y Hy) at 2.
    rewrite <- (insert_delete_eq m a x).
    rewrite !sum_balances_insert_fresh by apply lookup_delete_eq. lia.
  - rewrite sum_balances_insert_fresh by exact Hy. lia.
Qed.

Lemma sum_balances_bound (m : gmap address Z) :
  (forall a, 0 <= mget m a) -> forall a, mget m a <= sum_balances m.
Proof.
  induction m as [| i x m Hnone IH] using map_ind; intros Hpos a.
  - unfold mget, sum_balances. rewrite lookup_empty, map_fold_empty. cbn. lia.
  - assert (Hm : forall b, 0 <= mget m b).
    { intros b. specialize (Hpos b). rewrite mget_insert in Hpos.
      destruct (decide (i = b)) as [<- |]; [| exact Hpos].
      unfold mget. rewrite Hnone. cbn. lia. }
    assert (Hx : 0 <= x).
    { specialize (Hpos i). rewrite mget_insert in Hpos.
      destruct (decide (i = i)); [exact Hpos | contradiction]. }
    rewrite sum_balances_insert_fresh by exact Hnone.
    rewrite mget_insert. specialize (IH Hm).
    destruct (decide (i = a)) as [<- |].
    + specialize (IH i). specialize (Hm i). lia.
    + specialize (IH a). lia.
Qed.

Lemma accounted_accrued now total v : accounted v -> accounted (accrued now total v).
Proof. intros H. exact H. Qed.

Lemma accounted_spent sender owner x v :
  accounted v -> accounted (spent sender owner x v).
Proof. unfold spent. destruct (sender =? owner); intros H; exact H. Qed.

Lemma accounted_set_allowance o s x v :
  accounted v -> accounted (set_allowance o s x v).
Proof. intros H. exact H. Qed.

Lemma accounted_prepared now total v :
  accounted v ->
  accounted (prepared now total v) /\ initialized (prepared now total v) = true.
Proof.
  intros (Hpos & Hsum & Hinit). unfold prepared.
  destruct (initialized v) eqn:Hi.
  - split; [| exact Hi]. repeat split; auto. cbn. intros Hc. congruence.
  - specialize (Hinit eq_refl).
    assert (Hzero : forall a, mget (balanceOf v) a = 0).
    { intros a. pose proof (sum_balances_bound _ Hpos a). specialize (Hpos a).
      lia. }
    split; [| reflexivity]. repeat split; cbn.
    + intros a. rewrite mget_insert. destruct (decide (DEAD_ADDRESS = a)).
      * unfold DEAD_SHARES. lia.
      * apply Hpos.
    + rewrite sum_balances_insert, Hzero. lia.
    + discriminate.
Qed.

Lemma accounted_minted receiver shares assets v :
  0 <= shares -> initialized v = true -> accounted v ->
  accounted (minted receiver shares assets v).
Proof.
  intros Hs Hi (Hpos & Hsum & _). repeat split; cbn.
  - intros a. rewrite mget_insert. destruct (decide (receiver = a)) as [<- |].
    + specialize (Hpos receiver). lia.
    + apply Hpos.
  - rewrite sum_balances_insert. lia.
  - intros Hc. congruence.
Qed.

Lemma accounted_burned owner shares assets v :
  0 < shares -> shares <= mget (balanceOf v) owner -> accounted v ->
  accounted (burned owner shares assets v).
Proof.
  intros Hs Hle (Hpos & Hsum & Hinit). repeat split; cbn.
  - intros a. rewrite mget_insert. destruct (decide (owner = a)) as [<- |].
    + lia.
    + apply Hpos.
  - rewrite sum_balances_insert. lia.
  - intros Hc. specialize (Hinit Hc).
    pose proof (sum_balances_bound _ Hpos owner). lia.
Qed.

Lemma accounted_moved from to amount v :
  0 <= amount -> amount <= mget (balanceOf v) from -> accounted v ->
  accounted (moved from to amount v).
Proof.
  intros H0 Hle (Hpos & Hsum & Hinit). unfold moved. repeat split; cbn.
  - intros a. rewrite !mget_insert.
    destruct (decide (to = a)) as [<- |].
    + destruct (decide (from = to)); [lia |]. specialize (Hpos to). lia.
    + destruct (decide (from = a)); [lia | apply Hpos].
  - rewrite !sum_balances_insert, mget_insert.
    destruct (decide (from = to)); lia.
  - exact Hinit.
Qed.

Lemma vault_dispatch_accounted {Env : Type}
    (handle : Env -> ExtCall -> Reply * Env)
    (this sender : address) (now : Z) (tx : Tx) (v : State) (env : Env)
    (v' : State) (log : list Event) (env' : Env) :
  tx_wf tx -> accounted v ->
  run handle (dispatch this sender now tx v) env = Ok ((), v', log, env') ->
  accounted v'.
Proof.
  intros Hwf Hacc H.
  destruct tx as [assets receiver | shares receiver | assets receiver owner
                  | shares receiver owner | spender amount | to amount
                  | from to amount]; unfold dispatch in H;
    apply run_seq_ret in H as [ret H]; cbn in Hwf.
  - apply vault_deposit_run_Ok in H
      as (total & _ & _ & _ & _ & _ & Hs & -> & _).
    destruct (accounted_prepared now total v Hacc) as [Hp Hi].
    apply accounted_minted; auto. lia.
  - apply vault_mint_run_Ok in H as (total & Hs & _ & _ & _ & _ & -> & _).
    destruct (accounted_prepared now total v Hacc) as [Hp Hi].
    apply accounted_minted; auto. lia.
  - apply vault_withdraw_run_state in H
      as (total & _ & _ & _ & _ & Hs & _ & Hle & _ & _ & -> & _).
    apply accounted_burned; auto.
    + unfold spent. destruct (sender =? owner); exact Hle.
    + apply accounted_spent, accounted_accrued, Hacc.
  - apply vault_redeem_run_state in H
      as (total & Hs & _ & _ & _ & _ & _ & Hle & _ & _ & -> & _).
    apply accounted_burned; auto.
    + unfold spent. destruct (sender =? owner); exact Hle.
    + apply accounted_accrued, accounted_spent, Hacc.
  - apply vault_approve_run_Ok in H as (-> & _).
    apply accounted_set_allowance, Hacc.
  - apply vault_transfer_run_Ok in H as (Hle & -> & _).
    apply accounted_moved; auto. apply Hwf.
  - apply vault_transferFrom_run_Ok in H as (_ & Hle & -> & _).
    apply accounted_moved; auto. apply Hwf.
Qed.


(** X1. Every state-changing function of the share vault keeps the
    shares accounted for: after a successful call no balance is
    negative and the balances add up to [totalSupply]. *)
Theorem vault_keeps_shares_accounted {Env : Type}
    (handle : Env -> ExtCall -> Reply * Env)
    (this sender : address) (now : Z) (tx : Tx) (v : State) (env : Env)
    (v' : State) (log : list Event) (env' : Env) :
  tx_wf tx -> accounted v ->
  run handle (dispatch this sender now tx v) env = Ok ((), v', log, env') ->
  accounted v'.
Proof. apply vault_dispatch_accounted. Qed.

(** The fresh vault of the scenario has its shares accounted for, and so
    has the vault after Alice's first deposit. *)
Lemma vault_keeps_shares_accounted_witness :
  accounted (World.vault Scenario.seeded).
Proof.
  assert (H0 : accounted Scenario.vault0).
  { repeat split.
    - intros a. unfold mget. cbn. rewrite lookup_empty. cbn. lia. }
  assert (Hwf : tx_wf (TxDeposit (10 ^ 9) Scenario.ALICE)).
  { unfold tx_wf, is_uint256, MAX_UINT256. lia. }
  destruct (run (World.handle_vault Scenario.USDC Scenario.VAULT)
              (dispatch Scenario.VAULT Scenario.ALICE 1000
                        (TxDeposit (10 ^ 9) Scenario.ALICE) Scenario.vault0)
              Scenario.token_direct)
    as [[[[[] v'] log] env'] | e] eqn:H; [| vm_compute in H; discriminate H].
  pose proof (vault_keeps_shares_accounted _ _ _ _ _ _ _ _ _ _ Hwf H0 H)
    as Hacc.
  vm_compute in H. inversion H; subst v'. exact Hacc.
Defined.

(** The dead address never authorizes anything, so nobody else can take
    its shares. *)
Lemma dead_owner_excluded sender owner shares v :
  sender <> DEAD_ADDRESS -> dead_locked v -> 0 < shares ->
  (sender <> owner -> shares <= mget (allowance v) (owner, sender)) ->
  owner <> DEAD_ADDRESS.
Proof.
  intros Hs (_ & Hal) Hpos Hspend ->.
  specialize (Hspend Hs). rewrite Hal in Hspend. lia.
Qed.

Lemma dead_locked_prepared now total v :
  dead_locked v ->
  dead_locked (prepared now total v)
  /\ initialized (prepared now total v) = true
  /\ (initialized v = true ->
      mget (balanceOf (prepared now total v)) DEAD_ADDRESS
      = mget (balanceOf v) DEAD_ADDRESS).
Proof.
  intros (Hb & Hal). unfold prepared. destruct (initialized v) eqn:Hi.
  - repeat split; auto.
  - repeat split; cbn; auto.
    + intros _. rewrite mget_insert.
      destruct (decide (DEAD_ADDRESS = DEAD_ADDRESS)); [lia | contradiction].
    + discriminate.
Qed.

Lemma dead_locked_minted receiver shares assets v :
  0 <= shares -> dead_locked v ->
  dead_locked (minted receiver shares assets v)
  /\ mget (balanceOf v) DEAD_ADDRESS
     <= mget (balanceOf (minted receiver shares assets v)) DEAD_ADDRESS.
Proof.
  intros Hs (Hb & Hal).
  assert (Hle : mget (balanceOf v) DEAD_ADDRESS
                <= mget (balanceOf (minted receiver shares assets v))
                        DEAD_ADDRESS).
  { cbn. rewrite mget_insert. destruct (decide (receiver = DEAD_ADDRESS)) as [-> |]; lia. }
  split; [| exact Hle]. split; [| exact Hal].
  intros Hi. specialize (Hb Hi). lia.
Qed.

Lemma dead_locked_burned sender owner shares assets v :
  owner <> DEAD_ADDRESS -> dead_locked v ->
  dead_locked (burned owner shares assets (spent sender owner shares v))
  /\ mget (balanceOf (burned owner shares assets
                              (spent sender owner shares v))) DEAD_ADDRESS
     = mget (balanceOf v) DEAD_ADDRESS.
Proof.
  intros Ho (Hb & Hal).
  assert (Hbal : mget (balanceOf (burned owner shares assets
                                         (spent sender owner shares v)))
                      DEAD_ADDRESS
                 = mget (balanceOf v) DEAD_ADDRESS).
  { cbn. rewrite mget_insert.
    destruct (decide (owner = DEAD_ADDRESS)); [contradiction |].
    unfold spent. destruct (sender =? owner); reflexivity. }
  split; [| exact Hbal]. split.
  - intros Hi. rewrite Hbal. apply Hb.
    cbn in Hi. unfold spent in Hi. destruct (sender =? owner); exact Hi.
  - intros spender. cbn. unfold spent. destruct (sender =? owner); [apply Hal |].
    cbn. rewrite mget_insert.
    destruct (decide ((owner, sender) = (DEAD_ADDRESS, spender)));
      [congruence | apply Hal].
Qed.

Lemma dead_locked_moved from to amount v :
  0 <= amount -> from <> DEAD_ADDRESS \/ amount = 0 -> dead_locked v ->
  dead_locked (moved from to amount v)
  /\ mget (balanceOf v) DEAD_ADDRESS
     <= mget (balanceOf (moved from to amount v)) DEAD_ADDRESS.
Proof.
  intros H0 Hfrom (Hb & Hal).
  assert (Hle : mget (balanceOf v) DEAD_ADDRESS
                <= mget (balanceOf (moved from to amount v)) DEAD_ADDRESS).
  { unfold moved. cbn. rewrite !mget_insert.
    destruct (decide (to = DEAD_ADDRESS)) as [-> |];
      destruct (decide (from = DEAD_ADDRESS)) as [-> |]; lia. }
  split; [| exact Hle]. split; [| exact Hal].
  intros Hi. specialize (Hb Hi). lia.
Qed.

Lemma vault_dispatch_dead_locked {Env : Type}
    (handle : Env -> ExtCall -> Reply * Env)
    (this sender : address) (now : Z) (tx : Tx) (v : State) (env : Env)
    (v' : State) (log : list Event) (env' : Env) :
  sender <> DEAD_ADDRESS -> tx_wf tx -> dead_locked v ->
  run handle (dispatch this sender now tx v) env = Ok ((), v', log, env') ->
  dead_locked v'
  /\ (initialized v = true ->
      initialized v' = true
      /\ mget (balanceOf v) DEAD_ADDRESS <= mget (balanceOf v') DEAD_ADDRESS).
Proof.
  intros Hsender Hwf Hdead H.
  destruct tx as [assets receiver | shares receiver | assets receiver owner
                  | shares receiver owner | spender amount | to amount
                  | from to amount]; unfold dispatch in H;
    apply run_seq_ret in H as [ret H]; cbn in Hwf.
  - apply vault_deposit_run_Ok in H
      as (total & _ & _ & _ & _ & _ & Hs & -> & _).
    destruct (dead_locked_prepared now total v Hdead) as (Hp & Hi & Hsame).
    destruct (dead_locked_minted receiver ret assets _ ltac:(lia) Hp)
      as (Hm & Hle).
    split; [exact Hm |]. intros Hinit. split; [exact Hi |].
    rewrite <- (Hsame Hinit). exact Hle.
  - apply vault_mint_run_Ok in H as (total & Hs & _ & _ & _ & _ & -> & _).
    destruct (dead_locked_prepared now total v Hdead) as (Hp & Hi & Hsame).
    destruct (dead_locked_minted receiver shares ret _ ltac:(lia) Hp)
      as (Hm & Hle).
    split; [exact Hm |]. intros Hinit. split; [exact Hi |].
    rewrite <- (Hsame Hinit). exact Hle.
  - apply vault_withdraw_run_state in H
      as (total & _ & _ & _ & _ & Hs & Hal & _ & _ & _ & -> & _).
    pose proof (dead_owner_excluded _ _ _ _ Hsender Hdead Hs Hal) as Ho.
    destruct (dead_locked_burned sender owner ret assets (accrued now total v)
                Ho Hdead) as (Hb & Heq).
    split; [exact Hb |]. intros Hinit. split.
    + cbn. unfold spent. destruct (sender =? owner); exact Hinit.
    + rewrite Heq. cbn. lia.
  - apply vault_redeem_run_state in H
      as (total & Hs & _ & _ & _ & _ & Hal & _ & _ & _ & -> & _).
    pose proof (dead_owner_excluded _ _ _ _ Hsender Hdead Hs Hal) as Ho.
    destruct (dead_locked_burned sender owner shares ret v Ho Hdead)
      as (Hb & Heq).
    split.
    + destruct Hb as (Hb1 & Hb2). split.
      * intros Hi. apply Hb1. cbn in *. unfold spent in *.
        destruct (sender =? owner); exact Hi.
      * intros spender. specialize (Hb2 spender). cbn in *.
        unfold spent in *. destruct (sender =? owner); exact Hb2.
    + intros Hinit. split.
      * cbn. unfold spent. destruct (sender =? owner); exact Hinit.
      * cbn in *. unfold spent in *.
        destruct (sender =? owner); cbn in *; rewrite Heq; lia.
  - apply vault_approve_run_Ok in H as (-> & _).
    destruct Hdead as (Hb & Hal). split; [split |].
    + exact Hb.
    + intros s. cbn. rewrite mget_insert.
      destruct (decide ((sender, spender) = (DEAD_ADDRESS, s)));
        [congruence | apply Hal].
    + intros Hi. split; [exact Hi | cbn; lia].
  - apply vault_transfer_run_Ok in H as (Hle & -> & _).
    destruct (dead_locked_moved sender to amount v (proj1 Hwf)
                (or_introl Hsender) Hdead) as (Hm & Hle').
    split; [exact Hm |]. intros Hi. split; [exact Hi | exact Hle'].
  - apply vault_transferFrom_run_Ok in H as (Hal & Hle & -> & _).
    assert (Hfrom : from <> DEAD_ADDRESS \/ amount = 0).
    { destruct (decide (from = DEAD_ADDRESS)) as [-> |]; [| auto].
      right. destruct Hdead as (_ & Hd). rewrite Hd in Hal.
      destruct Hwf. lia. }
    assert (Hdead1 : dead_locked
                       (set_allowance from sender
                          (mget (allowance v) (from, sender) - amount) v)).
    { destruct Hdead as (Hb & Hd). split; [exact Hb |].
      intros s. cbn. rewrite mget_insert.
      destruct (decide ((from, sender) = (DEAD_ADDRESS, s))) as [Heq |];
        [| apply Hd].
      inversion Heq; subst. rewrite Hd.
      destruct Hfrom as [Hc | ->]; [contradiction | lia]. }
    destruct (dead_locked_moved from to amount _ (proj1 Hwf) Hfrom Hdead1)
      as (Hm & Hle').
    split; [exact Hm |]. intros Hi. split; [exact Hi | exact Hle'].
Qed.

(** X2. The dead shares are locked for good: whatever anyone but the
    dead address calls, the dead address keeps approving nobody, and
    once the vault is initialized its balance never decreases from the
    [10^9] dead shares, so that [totalSupply] stays at or above them. *)
Theorem vault_dead_shares_locked {Env : Type}
    (handle : Env -> ExtCall -> Reply * Env)
    (this sender : address) (now : Z) (tx : Tx) (v : State) (env : Env)
    (v' : State) (log : list Event) (env' : Env) :
  sender <> DEAD_ADDRESS -> tx_wf tx -> accounted v -> dead_locked v ->
  run handle (dispatch this sender now tx v) env = Ok ((), v', log, env') ->
  dead_locked v'
  /\ (initialized v = true ->
      initialized v' = true
      /\ mget (balanceOf v) DEAD_ADDRESS <= mget (balanceOf v') DEAD_ADDRESS)
  /\ (initialized v' = true ->
      DEAD_SHARES <= mget (balanceOf v') DEAD_ADDRESS
      /\ DEAD_SHARES <= totalSupply v').
Proof.
  intros Hsender Hwf Hacc Hdead H.
  destruct (vault_dispatch_dead_locked handle this sender now tx v env v' log
              env' Hsender Hwf Hdead H) as (Hd' & Hmono).
  pose proof (vault_dispatch_accounted handle this sender now tx v env v' log
                env' Hwf Hacc H) as (Hpos & Hsum & _).
  split; [exact Hd' |]. split; [exact Hmono |].
  intros Hi. destruct Hd' as (Hb & _). specialize (Hb Hi).
  split; [exact Hb |].
  pose proof (sum_balances_bound _ Hpos DEAD_ADDRESS). lia.
Qed.

(** After Alice's first deposit in the scenario the dead shares are in
    place. *)
Lemma vault_dead_shares_locked_witness :
  dead_locked (World.vault Scenario.seeded)
  /\ DEAD_SHARES <= totalSupply (World.vault Scenario.seeded).
Proof.
  assert (H0 : accounted Scenario.vault0).
  { repeat split.
    - intros a. unfold mget. cbn. rewrite lookup_empty. cbn. lia. }
  assert (Hd : dead_locked Scenario.vault0).
  { split; [discriminate |].
    intros s. unfold mget. cbn. rewrite lookup_empty. reflexivity. }
  assert (Hwf : tx_wf (TxDeposit (10 ^ 9) Scenario.ALICE)).
  { unfold tx_wf, is_uint256, MAX_UINT256. lia. }
  assert (Hne : Scenario.ALICE <> DEAD_ADDRESS).
  { apply Z.eqb_neq. reflexivity. }
  destruct (run (World.handle_vault Scenario.USDC Scenario.VAULT)
              (dispatch Scenario.VAULT Scenario.ALICE 1000
                        (TxDeposit (10 ^ 9) Scenario.ALICE) Scenario.vault0)
              Scenario.token_direct)
    as [[[[[] v'] log] env'] | e] eqn:H; [| vm_compute in H; discriminate H].
  pose proof (vault_dead_shares_locked _ _ _ _ _ _ _ _ _ _ Hne Hwf H0 Hd H)
    as (Hl & _ & Hs).
  vm_compute in H. inversion H; subst v'.
  split; [exact Hl |]. exact (proj2 (Hs eq_refl)).
Defined.
End Supply.

(** ** Accrual and the share price *)

Section Price.
Import MockMorphoVault Vault.

Lemma totalAssets_accrued v now total :
  totalAssets (accrued now total v) now = Ok total.
Proof. apply (totalAssets_at_update (accrued now total v) now). reflexivity. Qed.

Lemma convertToShares_accrued v now total assets :
  totalAssets v now = Ok total ->
  convertToShares (accrued now total v) now assets
  = convertToShares v now assets.
Proof.
  intros Ht. unfold convertToShares.
  rewrite totalAssets_accrued, Ht. reflexivity.
Qed.

Lemma convertToAssets_at_accrued v now total shares :
  totalAssets v now = Ok total ->
  convertToAssets (accrued now total v) now shares
  = convertToAssets v now shares.
Proof.
  intros Ht. unfold convertToAssets.
  rewrite totalAssets_accrued, Ht. reflexivity.
Qed.

(** X3. The accrual does not move the price at its own instant: after
    [_accrueYield] at [now] the pool's value and both conversions at
    [now] are what they were before it, and a second accrual at the same
    instant changes nothing. *)
Theorem accrual_keeps_price {Env : Type}
    (handle : Env -> ExtCall -> Reply * Env)
    (now : Z) (v : State) (env : Env) (v' : State) (log : list Event)
    (env' : Env) :
  run handle (_accrueYield now v) env = Ok ((), v', log, env') ->
  totalAssets v' now = totalAssets v now
  /\ (forall x, convertToShares v' now x = convertToShares v now x)
  /\ (forall x, convertToAssets v' now x = convertToAssets v now x)
  /\ lastYieldUpdate v' = now
  /\ env' = env
  /\ run handle (_accrueYield now v') env = Ok ((), v', [], env).
Proof.
  intros H. apply accrueYield_run_Ok in H as (total & Ht & -> & ->).
  fold (accrued now total v).
  repeat split.
  - rewrite totalAssets_accrued, Ht. reflexivity.
  - intros x. apply convertToShares_accrued, Ht.
  - intros x. apply convertToAssets_at_accrued, Ht.
  - unfold _accrueYield. unfold_ops. cbn.
    fold (accrued now total v). rewrite totalAssets_accrued. reflexivity.
Qed.

Lemma accrual_keeps_price_witness :
  convertToAssets (Vault.accrued 1360 2000001141 Scenario.vault1) 1360 (10 ^ 9)
  = convertToAssets Scenario.vault1 1360 (10 ^ 9).
Proof.
  refine (proj1 (proj2 (proj2 (accrual_keeps_price
            (World.handle_vault Scenario.USDC Scenario.VAULT)
            1360 Scenario.vault1 Scenario.token1
            (Vault.accrued 1360 2000001141 Scenario.vault1) []
            Scenario.token1 _))) (10 ^ 9)).
  reflexivity.
Defined.

Lemma floor_add_bound a b d :
  0 < d -> 0 <= a -> 0 <= b -> (a + b) / d - 1 <= a / d + b / d.
Proof.
  intros Hd Ha Hb.
  pose proof (Z.div_mod a d ltac:(lia)).
  pose proof (Z.div_mod b d ltac:(lia)).
  pose proof (Z.div_mod (a + b) d ltac:(lia)).
  pose proof (Z.mod_pos_bound a d Hd).
  pose proof (Z.mod_pos_bound b d Hd).
  pose proof (Z.mod_pos_bound (a + b) d Hd).
  nia.
Qed.

(** X4. An accrual in between costs the pool at most one unit: the
    pool's value at a later instant, read after an accrual at an
    earlier one, is at least its value read without that accrual,
    less one. *)
Theorem accrual_in_between {Env : Type}
    (handle : Env -> ExtCall -> Reply * Env)
    (t1 t2 : Z) (v : State) (env : Env) (v' : State) (log : list Event)
    (env' : Env) (direct stepped : Z) :
  wf v -> lastYieldUpdate v <= t1 -> t1 <= t2 ->
  run handle (_accrueYield t1 v) env = Ok ((), v', log, env') ->
  totalAssets v t2 = Ok direct ->
  totalAssets v' t2 = Ok stepped ->
  direct - 1 <= stepped.
Proof.
  intros Hwf Hl H12 H Hd Hs.
  apply accrueYield_run_Ok in H as (total & Ht & -> & ->).
  destruct Hwf as (_ & [HT0 _] & _).
  apply totalAssets_Ok in Ht as [-> _].
  apply totalAssets_Ok in Hd as [-> _].
  apply totalAssets_Ok in Hs as [-> _]. cbn.
  set (T := _totalAssets v) in *.
  set (e1 := t1 - lastYieldUpdate v).
  set (e2 := t2 - t1).
  replace (t2 - lastYieldUpdate v) with (e1 + e2) by (subst e1 e2; lia).
  assert (He1 : 0 <= e1) by (subst e1; lia).
  assert (He2 : 0 <= e2) by (subst e2; lia).
  pose proof (spec_accrued_nonneg T e1 HT0 He1) as Hy1.
  unfold spec_accrued in *.
  set (D := SECONDS_365_DAYS * 10000) in *.
  assert (HD : 0 < D) by (subst D; unfold SECONDS_365_DAYS; lia).
  set (y1 := T * ANNUAL_YIELD_BPS * e1 / D) in *.
  assert (Hmono : T * ANNUAL_YIELD_BPS * e2 / D
                  <= (T + y1) * ANNUAL_YIELD_BPS * e2 / D).
  { apply Z.div_le_mono; [exact HD |]. unfold ANNUAL_YIELD_BPS. nia. }
  pose proof (floor_add_bound (T * ANNUAL_YIELD_BPS * e1)
                (T * ANNUAL_YIELD_BPS * e2) D HD
                ltac:(unfold ANNUAL_YIELD_BPS; nia)
                ltac:(unfold ANNUAL_YIELD_BPS; nia)) as Hsplit.
  replace (T * ANNUAL_YIELD_BPS * (e1 + e2))
    with (T * ANNUAL_YIELD_BPS * e1 + T * ANNUAL_YIELD_BPS * e2) by ring.
  fold y1 in Hsplit. lia.
Qed.

(** In the scenario an accrual after three seconds costs the unit: six
    seconds of yield are 19 units at once and 18 in two steps. *)
Lemma accrual_in_between_witness :
  totalAssets Scenario.vault1 1006 = Ok 2000000019
  /\ totalAssets (Vault.accrued 1003 2000000009 Scenario.vault1) 1006
     = Ok 2000000018
  /\ 2000000019 - 1 <= 2000000018.
Proof.
  split; [reflexivity |]. split; [reflexivity |].
  assert (Hwf : wf Scenario.vault1).
  { unfold wf, is_uint256, MAX_UINT256. cbn. lia. }
  exact (accrual_in_between
           (World.handle_vault Scenario.USDC Scenario.VAULT)
           1003 1006 Scenario.vault1 Scenario.token1
           (Vault.accrued 1003 2000000009 Scenario.vault1) []
           Scenario.token1 2000000019 2000000018 Hwf
           ltac:(cbn; lia) ltac:(lia) eq_refl eq_refl eq_refl).
Defined.
End Price.

(** ** Deposits and redemptions never dilute *)

Section Dilution.
Context {Env : Type} (handle : Env -> ExtCall -> Reply * Env).
Import MockMorphoVault Vault.

Lemma ratio_floor_le x r s p q :
  0 <= x -> 0 < s -> 0 < q -> r * q <= p * s -> x * r / s <= x * p / q.
Proof.
  intros Hx Hs Hq Hle.
  apply Z.div_le_lower_bound; [exact Hq |].
  pose proof (Z.mul_div_le (x * r) s Hs) as Hk.
  nia.
Qed.

Lemma convertToAssets_updated v now x a :
  lastYieldUpdate v = now -> totalSupply v <> 0 ->
  convertToAssets v now x = Ok a ->
  a = x * _totalAssets v / totalSupply v.
Proof.
  intros Hl Hs H.
  apply convertToAssets_Ok in H as [[_ E] | (total & Ht & -> & _ & _)];
    [contradiction |].
  rewrite totalAssets_at_update in Ht by exact Hl.
  inversion Ht. reflexivity.
Qed.

Lemma prepared_fresh_shares now total v assets shares :
  initialized v = false ->
  convertToShares (prepared now total v) now assets = Ok shares ->
  shares = assets.
Proof.
  intros Hi H. unfold prepared in H. rewrite Hi in H.
  unfold convertToShares in H.
  rewrite totalAssets_at_update in H by reflexivity. cbn in H.
  peel H. apply checked_div_Ok in H as [-> _].
  apply Z.div_mul. discriminate.
Qed.

(** X5. A deposit never lowers the asset value of anyone's shares:
    whatever amount of shares is priced before and right after a
    successful [deposit], the price after is at least the price
    before. *)
Theorem deposit_does_not_dilute
    (this sender : address) (now assets : Z) (receiver : address)
    (v : State) (env : Env) (shares : Z) (v' : State) (log : list Event)
    (env' : Env) (x before after : Z) :
  wf v -> (initialized v = false -> totalSupply v = 0) ->
  run handle (deposit this sender now assets receiver v) env
  = Ok (shares, v', log, env') ->
  0 <= x ->
  convertToAssets v now x = Ok before ->
  convertToAssets v' now x = Ok after ->
  before <= after.
Proof.
  intros Hwf Hfresh H Hx Hb Ha.
  apply vault_deposit_run_Ok in H
    as (total & Hpos & _ & Htot & _ & Hcts & Hsh & -> & _).
  pose proof (totalAssets_range _ _ _ Hwf Htot) as [Ht0 _].
  destruct Hwf as ([Hs0 _] & _ & _).
  destruct (initialized v) eqn:Hi.
  - (* an initialized vault *)
    assert (Hprep : prepared now total v = accrued now total v).
    { unfold prepared. rewrite Hi. reflexivity. }
    rewrite Hprep in *.
    rewrite convertToShares_accrued in Hcts by exact Htot.
    apply convertToAssets_updated in Ha; [| reflexivity | cbn; lia].
    cbn in Ha. subst after.
    apply convertToShares_Ok in Hcts as (total' & Htot' & Hcases).
    rewrite Htot in Htot'. inversion Htot'; subst total'. clear Htot'.
    apply convertToAssets_Ok in Hb
      as [[-> Hz] | (total' & Htot' & -> & Hne & _)].
    + destruct Hcases as [[-> _] | (_ & Hc & _)]; [| contradiction].
      rewrite Hz. replace (0 + assets) with assets by lia.
      apply Z.div_le_lower_bound; [lia | nia].
    + rewrite Htot in Htot'. inversion Htot'; subst total'. clear Htot'.
      apply ratio_floor_le; try lia.
      destruct Hcases as [[-> [Hc | ->]] | (-> & _ & Hne' & _)];
        [contradiction | lia |].
      pose proof (Z.mul_div_le (assets * totalSupply v) total ltac:(lia)).
      nia.
  - (* the first deposit *)
    pose proof (prepared_fresh_shares _ _ _ _ _ Hi Hcts) as ->.
    specialize (Hfresh eq_refl).
    unfold convertToAssets in Hb. rewrite Hfresh in Hb. cbn in Hb.
    inversion Hb; subst before. clear Hb.
    unfold prepared in Ha. rewrite Hi in Ha.
    apply convertToAssets_updated in Ha;
      [| reflexivity | cbn; unfold DEAD_SHARES; lia].
    cbn in Ha. subst after.
    rewrite Z.div_mul by (unfold DEAD_SHARES; lia). lia.
Qed.

(** X6. A redemption never lowers the asset value of the shares that
    remain: while some share is left, whatever amount of shares is
    priced before and right after a successful [redeem], the price
    after is at least the price before. *)
Theorem redeem_does_not_dilute
    (this sender : address) (now shares : Z) (receiver owner : address)
    (v : State) (env : Env) (assets : Z) (v' : State) (log : list Event)
    (env' : Env) (x before after : Z) :
  wf v ->
  run handle (redeem this sender now shares receiver owner v) env
  = Ok (assets, v', log, env') ->
  shares < totalSupply v ->
  0 <= x ->
  convertToAssets v now x = Ok before ->
  convertToAssets v' now x = Ok after ->
  before <= after.
Proof.
  intros Hwf H Hleft Hx Hb Ha.
  apply vault_redeem_run_state in H
    as (total & Hpos & _ & Htot & Hcta & _ & _ & _ & _ & Hat & -> & _).
  pose proof (totalAssets_range _ _ _ Hwf Htot) as [Ht0 _].
  assert (Hsup : totalSupply (spent sender owner shares v) = totalSupply v).
  { unfold spent. destruct (sender =? owner); reflexivity. }
  apply convertToAssets_updated in Ha;
    [| reflexivity | cbn; rewrite Hsup; lia].
  cbn in Ha. rewrite Hsup in Ha. subst after.
  apply convertToAssets_Ok in Hcta
    as [[_ Hz] | (total' & Htot' & -> & Hne & _)]; [lia |].
  rewrite Htot in Htot'. inversion Htot'; subst total'. clear Htot'.
  apply convertToAssets_Ok in Hb
    as [[_ Hz] | (total' & Htot' & -> & _ & _)]; [lia |].
  rewrite Htot in Htot'. inversion Htot'; subst total'. clear Htot'.
  apply ratio_floor_le; try lia.
  pose proof (Z.mul_div_le (shares * total) (totalSupply v) ltac:(lia)).
  nia.
Qed.
End Dilution.

(** Alice's first deposit of 1000 USDC leaves the price of seven shares
    at seven units. *)
Lemma deposit_does_not_dilute_witness : 7 <= 7.
Proof.
  assert (Hwf : MockMorphoVault.wf Scenario.vault0).
  { unfold MockMorphoVault.wf, is_uint256, MAX_UINT256. cbn. lia. }
  destruct (run (World.handle_vault Scenario.USDC Scenario.VAULT)
              (MockMorphoVault.deposit Scenario.VAULT Scenario.ALICE 1000 (10 ^ 9)
                       Scenario.ALICE Scenario.vault0)
              Scenario.token_direct)
    as [[[[shares v'] log] env'] | e] eqn:H; [| vm_compute in H; discriminate H].
  refine (deposit_does_not_dilute _ _ _ _ _ _ _ _ _ _ _ _ 7 7 7 Hwf
            (fun _ => eq_refl) H ltac:(lia) eq_refl _).
  vm_compute in H. inversion H; subst v'. reflexivity.
Defined.

(** Once the dead shares and Alice's hold a pool of 2_000_000_009 units,
    Alice redeems half of her shares for 500_000_002 units; a thousand
    shares were worth [1_000_000_004] and still are. *)
Lemma redeem_does_not_dilute_witness : 1000000004 <= 1000000004.
Proof.
  assert (Hwf : MockMorphoVault.wf Scenario.vault_direct1).
  { unfold MockMorphoVault.wf, is_uint256, MAX_UINT256. cbn. lia. }
  destruct (run (World.handle_vault Scenario.USDC Scenario.VAULT)
              (MockMorphoVault.redeem Scenario.VAULT Scenario.ALICE 1003 (5 * 10 ^ 8)
                      Scenario.ALICE Scenario.ALICE Scenario.vault_direct1)
              Scenario.token_direct1)
    as [[[[assets v'] log] env'] | e] eqn:H; [| vm_compute in H; discriminate H].
  refine (redeem_does_not_dilute _ _ _ _ _ _ _ _ _ _ _ _ _ (10 ^ 9)
            1000000004 1000000004 Hwf H ltac:(cbn; lia) ltac:(lia) eq_refl _).
  vm_compute in H. inversion H; subst v'. reflexivity.
Defined.

(** ** The previews against what the functions do *)

Section Previews.
Context {Env : Type} (handle : Env -> ExtCall -> Reply * Env).
Import MockMorphoVault Vault.

Lemma floor_between a t :
  0 < t -> let q := a / t in q * t <= a /\ a < (q + 1) * t.
Proof.
  intros Ht q. subst q.
  pose proof (Z.div_mod a t ltac:(lia)) as Hdm.
  pose proof (Z.mod_pos_bound a t Ht) as Hm.
  nia.
Qed.

(** X7. A successful [deposit] mints exactly the shares that
    [previewDeposit] announces in the same block. *)
Theorem deposit_mints_preview
    (this sender : address) (now assets : Z) (receiver : address)
    (v : State) (env : Env) (shares : Z) (v' : State) (log : list Event)
    (env' : Env) :
  (initialized v = false -> totalSupply v = 0) ->
  run handle (deposit this sender now assets receiver v) env
  = Ok (shares, v', log, env') ->
  previewDeposit v now assets = Ok shares.
Proof.
  intros Hfresh H.
  apply vault_deposit_run_Ok in H as (total & _ & _ & Htot & _ & Hcts & _).
  unfold previewDeposit.
  destruct (initialized v) eqn:Hi.
  - unfold prepared in Hcts. rewrite Hi in Hcts.
    rewrite convertToShares_accrued in Hcts by exact Htot. exact Hcts.
  - pose proof (prepared_fresh_shares _ _ _ _ _ Hi Hcts) as ->.
    unfold convertToShares. rewrite Htot, bind_Ok_eq.
    rewrite (Hfresh eq_refl). reflexivity.
Qed.

(** X8. A successful [redeem] pays exactly what [previewRedeem]
    announces in the same block, never takes more shares than
    [maxRedeem] allows, and pays [maxWithdraw] when it takes them all. *)
Theorem redeem_pays_preview
    (this sender : address) (now shares : Z) (receiver owner : address)
    (v : State) (env : Env) (assets : Z) (v' : State) (log : list Event)
    (env' : Env) :
  run handle (redeem this sender now shares receiver owner v) env
  = Ok (assets, v', log, env') ->
  previewRedeem v now shares = Ok assets
  /\ shares <= maxRedeem v owner
  /\ (shares = maxRedeem v owner -> maxWithdraw v now owner = Ok assets).
Proof.
  intros H.
  apply vault_redeem_run_state in H
    as (total & _ & _ & _ & Hcta & _ & _ & Hbal & _).
  unfold previewRedeem, maxRedeem, maxWithdraw.
  split; [exact Hcta |]. split; [exact Hbal |].
  intros <-. exact Hcta.
Qed.

(** X9. A successful [mint] pulls the floor of the shares' worth, and
    [previewMint] announces the ceiling: the amount pulled is the
    preview or one unit less. *)
Theorem mint_pulls_floor
    (this sender : address) (now shares : Z) (receiver : address)
    (v : State) (env : Env) (assets : Z) (v' : State) (log : list Event)
    (env' : Env) (preview : Z) :
  wf v -> (initialized v = false -> totalSupply v = 0) ->
  run handle (mint this sender now shares receiver v) env
  = Ok (assets, v', log, env') ->
  previewMint v now shares = Ok preview ->
  assets <= preview <= assets + 1.
Proof.
  intros Hwf Hfresh H Hp.
  apply vault_mint_run_Ok in H as (total & Hpos & _ & Htot & Hcase & _).
  destruct (initialized v) eqn:Hi.
  - rewrite convertToAssets_at_accrued in Hcase by exact Htot.
    apply convertToAssets_Ok in Hcase
      as [[-> Hz] | (total' & Htot' & -> & Hne & _)].
    + unfold previewMint in Hp. rewrite Hz in Hp. cbn in Hp.
      inversion Hp. lia.
    + rewrite Htot in Htot'. inversion Htot'; subst total'. clear Htot'.
      pose proof (previewMint_ceiling _ _ _ _ _ Hwf Hne Htot Hp) as [Hc1 Hc2].
      destruct Hwf as ([Hs0 _] & _).
      pose proof (floor_between (shares * total) (totalSupply v) ltac:(lia))
        as [Hf1 Hf2].
      nia.
  - destruct Hcase as [_ ->].
    unfold previewMint in Hp. rewrite (Hfresh eq_refl) in Hp. cbn in Hp.
    inversion Hp. lia.
Qed.

(** X10. A successful [withdraw] burns the floor of the assets' price
    in shares, and [previewWithdraw] announces the ceiling: the shares
    burned are the preview or one share less, and never more than
    [maxRedeem]. *)
Theorem withdraw_burns_floor
    (this sender : address) (now assets : Z) (receiver owner : address)
    (v : State) (env : Env) (shares : Z) (v' : State) (log : list Event)
    (env' : Env) (preview : Z) :
  wf v ->
  run handle (withdraw this sender now assets receiver owner v) env
  = Ok (shares, v', log, env') ->
  previewWithdraw v now assets = Ok preview ->
  shares <= preview <= shares + 1 /\ shares <= maxRedeem v owner.
Proof.
  intros Hwf H Hp.
  apply vault_withdraw_run_state in H
    as (total & _ & _ & Htot & Hcts & _ & _ & Hbal & _).
  split; [| exact Hbal].
  rewrite convertToShares_accrued in Hcts by exact Htot.
  pose proof (totalAssets_range _ _ _ Hwf Htot) as [Ht0 _].
  apply convertToShares_Ok in Hcts as (total' & Htot' & Hcases).
  rewrite Htot in Htot'. inversion Htot'; subst total'. clear Htot'.
  destruct Hcases as [[-> Hz] | (-> & Hs & Hne & _)].
  - unfold previewWithdraw in Hp. rewrite Htot, bind_Ok_eq in Hp.
    assert (Hb : (totalSupply v =? 0) || (total =? 0) = true).
    { destruct Hz as [-> | ->]; [reflexivity | apply orb_true_r]. }
    rewrite Hb in Hp. inversion Hp. lia.
  - pose proof (previewWithdraw_ceiling _ _ _ _ _ Hwf Hs Hne Htot Hp)
      as [Hc1 Hc2].
    pose proof (floor_between (assets * totalSupply v) total ltac:(lia))
      as [Hf1 Hf2].
    nia.
Qed.

(** What the shares of a deposit are worth right after it. *)
Lemma deposit_value_le now total assets receiver shares back v :
  wf v -> (initialized v = true -> 0 < totalSupply v) ->
  totalAssets v now = Ok total -> 0 < assets -> 0 < shares ->
  convertToShares (prepared now total v) now assets = Ok shares ->
  convertToAssets (minted receiver shares assets (prepared now total v))
                  now shares = Ok back ->
  0 <= back <= assets.
Proof.
  intros Hwf Hlive Htot Hpos Hsh Hcts Hcta.
  pose proof (totalAssets_range _ _ _ Hwf Htot) as [Ht0 _].
  destruct (initialized v) eqn:Hi.
  - specialize (Hlive eq_refl).
    unfold prepared in Hcts, Hcta. rewrite Hi in Hcts, Hcta.
    rewrite convertToShares_accrued in Hcts by exact Htot.
    apply convertToAssets_updated in Hcta; [| reflexivity | cbn; lia].
    cbn in Hcta. subst back.
    apply convertToShares_Ok in Hcts as (total' & Htot' & Hcases).
    rewrite Htot in Htot'. inversion Htot'; subst total'. clear Htot'.
    split; [apply Z.div_pos; nia |].
    apply Z.div_le_upper_bound; [lia |].
    destruct Hcases as [[-> [Hz | ->]] | (-> & _ & Hne & _)];
      [lia | nia |].
    pose proof (floor_between (assets * totalSupply v) total ltac:(lia))
      as [Hf1 _].
    nia.
  - pose proof (prepared_fresh_shares _ _ _ _ _ Hi Hcts) as ->.
    unfold prepared in Hcta. rewrite Hi in Hcta.
    apply convertToAssets_updated in Hcta;
      [| reflexivity | cbn; unfold DEAD_SHARES; lia].
    cbn in Hcta. subst back.
    rewrite Z.div_mul by (unfold DEAD_SHARES; lia). lia.
Qed.

(** X11. Depositing and redeeming the minted shares in the same block
    never returns more than was deposited. *)
Theorem deposit_then_redeem
    (this sender : address) (now assets : Z) (receiver : address)
    (v : State) (env : Env) (shares : Z) (v1 : State) (log1 : list Event)
    (env1 : Env)
    (caller to owner : address) (back : Z) (v2 : State)
    (log2 : list Event) (env2 : Env) :
  wf v -> (initialized v = true -> 0 < totalSupply v) ->
  run handle (deposit this sender now assets receiver v) env
  = Ok (shares, v1, log1, env1) ->
  run handle (redeem this caller now shares to owner v1) env1
  = Ok (back, v2, log2, env2) ->
  back <= assets.
Proof.
  intros Hwf Hlive Hd Hr.
  apply vault_deposit_run_Ok in Hd
    as (total & Hpos & _ & Htot & _ & Hcts & Hsh & -> & _).
  apply vault_redeem_run_state in Hr as (_ & _ & _ & _ & Hcta & _).
  exact (proj2 (deposit_value_le _ _ _ _ _ _ _ Hwf Hlive Htot Hpos Hsh
                  Hcts Hcta)).
Qed.

(** X12. What [maxWithdraw] reports for a holder can be withdrawn with
    the holder's shares: its price in shares, as [withdraw] computes
    it, is at most [maxRedeem]. *)
Theorem max_withdraw_covered (v : State) (now : Z) (owner : address)
    (most price : Z) :
  wf v -> 0 <= mget (balanceOf v) owner ->
  maxWithdraw v now owner = Ok most ->
  convertToShares v now most = Ok price ->
  price <= maxRedeem v owner.
Proof.
  intros Hwf Hb Hm Hc. unfold maxWithdraw in Hm. unfold maxRedeem.
  apply convertToShares_Ok in Hc as (total & Htot & Hcases).
  pose proof (totalAssets_range _ _ _ Hwf Htot) as [Ht0 _].
  destruct Hwf as ([Hs0 _] & _).
  apply convertToAssets_Ok in Hm
    as [[-> Hz] | (total' & Htot' & -> & Hne & _)].
  - destruct Hcases as [[-> _] | (_ & Hs & _)]; [lia | contradiction].
  - rewrite Htot in Htot'. inversion Htot'; subst total'. clear Htot'.
    destruct Hcases as [[-> [Hz | ->]] | (-> & _ & Hne' & _)];
      [contradiction | |].
    + rewrite Z.mul_0_r, Zdiv_0_l. exact Hb.
    + pose proof (floor_round_trip (mget (balanceOf v) owner) total
                    (totalSupply v) Hb ltac:(lia) ltac:(lia)) as Hrt.
      exact Hrt.
Qed.
End Previews.

Section PreviewRuns.
Import World Scenario VaultScenario.

Lemma vault0_wf : MockMorphoVault.wf vault0.
Proof. unfold MockMorphoVault.wf, is_uint256, MAX_UINT256. cbn. lia. Qed.

Lemma vault_direct1_wf : MockMorphoVault.wf vault_direct1.
Proof. unfold MockMorphoVault.wf, is_uint256, MAX_UINT256. cbn. lia. Qed.

(** The first deposit of the scenario. *)
Lemma deposit_mints_preview_witness :
  MockMorphoVault.previewDeposit vault0 1000 (10 ^ 9) = Ok (10 ^ 9).
Proof.
  destruct (run (handle_vault USDC VAULT)
              (MockMorphoVault.deposit VAULT ALICE 1000 (10 ^ 9) ALICE vault0)
              token_direct)
    as [[[[shares v'] log] env'] | e] eqn:H; [| vm_compute in H; discriminate H].
  pose proof (deposit_mints_preview _ _ _ _ _ _ vault0 _ _ _ _ _
                (fun _ => eq_refl) H) as Hp.
  vm_compute in H. inversion H; subst shares. exact Hp.
Defined.

(** Three seconds later Alice redeems half of her shares. *)
Lemma redeem_pays_preview_witness :
  MockMorphoVault.previewRedeem vault_direct1 1003 (5 * 10 ^ 8)
  = Ok 500000002
  /\ 5 * 10 ^ 8 <= MockMorphoVault.maxRedeem vault_direct1 ALICE.
Proof.
  destruct (run (handle_vault USDC VAULT)
              (MockMorphoVault.redeem VAULT ALICE 1003 (5 * 10 ^ 8) ALICE ALICE
                                      vault_direct1)
              token_direct1)
    as [[[[assets v'] log] env'] | e] eqn:H; [| vm_compute in H; discriminate H].
  pose proof (redeem_pays_preview _ _ _ _ _ _ _ _ _ _ _ _ _ H)
    as (Hp & Hm & _).
  vm_compute in H. inversion H; subst assets. split; [exact Hp | exact Hm].
Defined.

(** Three seconds after the first deposit a thousand shares are worth
    1000.000_004_5 units: [mint] pulls 1000 and the preview says 1001. *)
Lemma mint_pulls_floor_witness : 1000 <= 1001 <= 1000 + 1.
Proof.
  destruct (run (handle_vault USDC VAULT)
              (MockMorphoVault.mint VAULT ALICE 1003 1000 ALICE vault_direct1)
              token_again)
    as [[[[assets v'] log] env'] | e] eqn:H; [| vm_compute in H; discriminate H].
  pose proof (mint_pulls_floor _ _ _ _ _ _ _ _ _ _ _ _ 1001 vault_direct1_wf
                ltac:(discriminate) H eq_refl) as Hp.
  vm_compute in H. inversion H; subst assets. exact Hp.
Defined.

(** The withdrawal of 500 USDC at time 1360. *)
Lemma withdraw_burns_floor_witness :
  499999714 <= 499999715 <= 499999714 + 1
  /\ 499999714 <= MockMorphoVault.maxRedeem vault_direct1 ALICE.
Proof.
  destruct (run (handle_vault USDC VAULT)
              (MockMorphoVault.withdraw VAULT ALICE 1360 (5 * 10 ^ 8) ALICE
                                        ALICE vault_direct1)
              token_direct1)
    as [[[[shares v'] log] env'] | e] eqn:H; [| vm_compute in H; discriminate H].
  pose proof (withdraw_burns_floor _ _ _ _ _ _ _ _ _ _ _ _ _ 499999715
                vault_direct1_wf H eq_refl) as Hp.
  vm_compute in H. inversion H; subst shares. exact Hp.
Defined.

(** Alice's first deposit, redeemed at once. *)
Lemma deposit_then_redeem_witness : 10 ^ 9 <= 10 ^ 9.
Proof.
  destruct (run (handle_vault USDC VAULT)
              (MockMorphoVault.deposit VAULT ALICE 1000 (10 ^ 9) ALICE vault0)
              token_direct)
    as [[[[shares v1] log1] env1] | e] eqn:H1;
    [| vm_compute in H1; discriminate H1].
  destruct (run (handle_vault USDC VAULT)
              (MockMorphoVault.redeem VAULT ALICE 1000 shares ALICE ALICE v1)
              env1)
    as [[[[back v2] log2] env2] | e] eqn:H2;
    [| vm_compute in H1; inversion H1; subst; vm_compute in H2;
       discriminate H2].
  pose proof (deposit_then_redeem _ _ _ _ _ _ _ _ _ _ _ _ _ _ _ _ _ _ _
                vault0_wf ltac:(discriminate) H1 H2) as Hp.
  vm_compute in H1. inversion H1; subst shares v1 env1.
  vm_compute in H2. inversion H2; subst back. exact Hp.
Defined.

(** Three seconds after her deposit Alice's [maxWithdraw] is
    [1_000_000_004] units, which cost [999_999_999] of her [10^9]
    shares. *)
Lemma max_withdraw_covered_witness :
  999999999 <= MockMorphoVault.maxRedeem vault_direct1 ALICE.
Proof.
  apply (max_withdraw_covered vault_direct1 1003 ALICE 1000000004 999999999
           vault_direct1_wf).
  - vm_compute. discriminate.
  - reflexivity.
  - reflexivity.
Defined.
End PreviewRuns.

(** ** The share token: transfers and allowances *)

Section Shares.
Context {Env : Type} (handle : Env -> ExtCall -> Reply * Env).
Import MockMorphoVault Vault.

Lemma same_pool_views v v' :
  same_pool v v' ->
  forall t x,
    totalAssets v' t = totalAssets v t
    /\ convertToAssets v' t x = convertToAssets v t x
    /\ convertToShares v' t x = convertToShares v t x.
Proof.
  intros (_ & Hs & Ha & Hl) t x.
  assert (Ht : totalAssets v' t = totalAssets v t).
  { unfold totalAssets. rewrite Ha, Hl. reflexivity. }
  unfold convertToAssets, convertToShares. rewrite Ht, Hs. auto.
Qed.

Lemma vault_share_move_pool this sender now tx v env v' log env' :
  share_move tx = true ->
  run handle (dispatch this sender now tx v) env = Ok ((), v', log, env') ->
  same_pool v v' /\ initialized v' = initialized v /\ env' = env.
Proof.
  intros Hm H.
  destruct tx as [assets receiver | shares receiver | assets receiver owner
                  | shares receiver owner | spender amount | to amount
                  | from to amount]; try discriminate Hm;
    unfold dispatch in H; apply run_seq_ret in H as [ret H].
  - apply vault_approve_run_Ok in H as (-> & ->).
    repeat split; reflexivity.
  - apply vault_transfer_run_Ok in H as (_ & -> & ->).
    repeat split; reflexivity.
  - apply vault_transferFrom_run_Ok in H as (_ & _ & -> & ->).
    repeat split; reflexivity.
Qed.

(** X13. [approve], [transfer] and [transferFrom] of the share token
    leave the pool alone: supply, cached assets and accrual time are
    unchanged, no call is made to the asset, and so the pool's value
    and both conversions read the same at any time. *)
Theorem share_moves_keep_pool
    (this sender : address) (now : Z) (tx : Tx) (v : State) (env : Env)
    (v' : State) (log : list Event) (env' : Env) :
  share_move tx = true ->
  run handle (dispatch this sender now tx v) env = Ok ((), v', log, env') ->
  same_pool v v' /\ env' = env
  /\ forall t x,
       totalAssets v' t = totalAssets v t
       /\ convertToAssets v' t x = convertToAssets v t x
       /\ convertToShares v' t x = convertToShares v t x.
Proof.
  intros Hm H.
  destruct (vault_share_move_pool _ _ _ _ _ _ _ _ _ Hm H) as (Hp & _ & He).
  split; [exact Hp |]. split; [exact He |]. apply same_pool_views, Hp.
Qed.

Lemma prepared_balance now total v a :
  accounted v ->
  mget (balanceOf v) a <= mget (balanceOf (prepared now total v)) a
  /\ allowance (prepared now total v) = allowance v.
Proof.
  intros (Hpos & Hsum & Hfresh). unfold prepared.
  destruct (initialized v) eqn:Hi; cbn; [split; [lia | reflexivity] |].
  split; [| reflexivity].
  rewrite mget_insert. destruct (decide (DEAD_ADDRESS = a)) as [<- |]; [| lia].
  pose proof (sum_balances_bound _ Hpos DEAD_ADDRESS) as Hb.
  rewrite Hsum, (Hfresh eq_refl) in Hb. unfold DEAD_SHARES. lia.
Qed.

Lemma minted_balance receiver shares assets v a :
  0 <= shares ->
  mget (balanceOf v) a <= mget (balanceOf (minted receiver shares assets v)) a
  /\ allowance (minted receiver shares assets v) = allowance v.
Proof.
  intros Hs. cbn. split; [| reflexivity].
  rewrite mget_insert. destruct (decide (receiver = a)) as [<- |]; lia.
Qed.

Lemma burned_spent_balance sender owner0 shares assets v owner :
  0 <= shares -> sender <> owner ->
  let v' := burned owner0 shares assets (spent sender owner0 shares v) in
  mget (balanceOf v) owner - mget (balanceOf v') owner
  <= mget (allowance v) (owner, sender) - mget (allowance v') (owner, sender)
  /\ mget (allowance v') (owner, sender) <= mget (allowance v) (owner, sender).
Proof.
  intros Hs Hne v'. subst v'. cbn. unfold spent.
  rewrite mget_insert.
  destruct (Z.eqb_spec sender owner0) as [<- | Hso]; cbn.
  - destruct (decide (sender = owner)); [contradiction | lia].
  - rewrite mget_insert.
    destruct (decide (owner0 = owner)) as [-> |].
    + destruct (decide ((owner, sender) = (owner, sender)));
        [lia | contradiction].
    + destruct (decide ((owner0, sender) = (owner, sender))) as [Heq |];
        [inversion Heq; contradiction | lia].
Qed.

Lemma moved_balance from to amount v a :
  0 <= amount ->
  (a <> from -> mget (balanceOf v) a <= mget (balanceOf (moved from to amount v)) a)
  /\ mget (balanceOf v) a - amount
     <= mget (balanceOf (moved from to amount v)) a
  /\ allowance (moved from to amount v) = allowance v.
Proof.
  intros Ha. unfold moved. cbn. rewrite !mget_insert.
  repeat split.
  - intros Hne. destruct (decide (to = a)) as [-> |];
      destruct (decide (from = a)) as [-> |]; try contradiction; lia.
  - destruct (decide (to = a)) as [-> |];
      destruct (decide (from = a)) as [-> |]; lia.
Qed.

(** X14. Nobody takes shares beyond an allowance: whatever [sender]
    calls, the balance of any other account decreases by no more than
    the allowance that account gave [sender] is used up, and the
    call never raises that allowance. *)
Theorem shares_taken_within_allowance
    (this sender : address) (now : Z) (tx : Tx) (v : State) (env : Env)
    (v' : State) (log : list Event) (env' : Env) (owner : address) :
  tx_wf tx -> accounted v -> sender <> owner ->
  run handle (dispatch this sender now tx v) env = Ok ((), v', log, env') ->
  mget (balanceOf v) owner - mget (balanceOf v') owner
  <= mget (allowance v) (owner, sender) - mget (allowance v') (owner, sender)
  /\ mget (allowance v') (owner, sender) <= mget (allowance v) (owner, sender).
Proof.
  intros Hwf Hacc Hne H.
  destruct tx as [assets receiver | shares receiver | assets receiver owner0
                  | shares receiver owner0 | spender amount | to amount
                  | from to amount]; unfold dispatch in H;
    apply run_seq_ret in H as [ret H]; cbn in Hwf.
  - apply vault_deposit_run_Ok in H
      as (total & _ & _ & _ & _ & _ & Hs & -> & _).
    destruct (prepared_balance now total v owner Hacc) as [Hb Hal].
    destruct (minted_balance receiver ret assets (prepared now total v) owner
                ltac:(lia)) as [Hb' Hal'].
    rewrite Hal', Hal. lia.
  - apply vault_mint_run_Ok in H as (total & Hs & _ & _ & _ & _ & -> & _).
    destruct (prepared_balance now total v owner Hacc) as [Hb Hal].
    destruct (minted_balance receiver shares ret (prepared now total v) owner
                ltac:(lia)) as [Hb' Hal'].
    rewrite Hal', Hal. lia.
  - apply vault_withdraw_run_state in H
      as (total & _ & _ & _ & _ & Hs & _ & _ & _ & _ & -> & _).
    exact (burned_spent_balance sender owner0 ret assets (accrued now total v)
             owner ltac:(lia) Hne).
  - apply vault_redeem_run_state in H
      as (total & Hs & _ & _ & _ & _ & _ & _ & _ & _ & -> & _).
    pose proof (burned_spent_balance sender owner0 shares ret v owner
                  ltac:(lia) Hne) as Hb.
    cbn in *. unfold spent in *.
    destruct (sender =? owner0); exact Hb.
  - apply vault_approve_run_Ok in H as (-> & _). cbn.
    rewrite mget_insert.
    destruct (decide ((sender, spender) = (owner, sender))) as [Heq |];
      [inversion Heq; contradiction | lia].
  - apply vault_transfer_run_Ok in H as (_ & -> & _).
    destruct (moved_balance sender to amount v owner (proj1 Hwf))
      as (Hb & _ & Hal).
    rewrite Hal. specialize (Hb ltac:(congruence)). lia.
  - apply vault_transferFrom_run_Ok in H as (_ & _ & -> & _).
    destruct Hwf as [Hamt _].
    match goal with
    | |- context [moved from to amount ?w] =>
        destruct (moved_balance from to amount w owner Hamt)
          as (Hb & Hb' & Hal)
    end.
    rewrite Hal. clear Hal Hb. cbn in Hb' |- *.
    rewrite !mget_insert in Hb'. rewrite !mget_insert.
    destruct (decide ((from, sender) = (owner, sender))) as [Heq |].
    + inversion Heq; subst.
      destruct (decide (to = owner)); destruct (decide (owner = to));
        destruct (decide (owner = owner)); subst; try congruence; lia.
    + assert (Hfo : from <> owner) by congruence.
      destruct (decide (to = owner)); destruct (decide (from = to));
        destruct (decide (from = owner)); subst; try congruence; lia.
Qed.

(** X15. [transferFrom] spends the allowance also when the holder
    moves their own shares, unlike [withdraw] and [redeem]: without
    an allowance to oneself it reverts, where [redeem] of the same
    shares by their owner spends none. *)
Theorem transferFrom_needs_own_allowance
    (from to : address) (amount : Z) (v : State) (env : Env) :
  mget (allowance v) (from, from) < amount ->
  run handle (transferFrom from from to amount v) env
  = Revert (Require "Insufficient allowance")
  /\ forall this now receiver assets v' log env',
       run handle (redeem this from now amount receiver from v) env
       = Ok (assets, v', log, env') ->
       allowance v' = allowance v.
Proof.
  intros Hlt. split.
  - unfold transferFrom. unfold_ops. cbn.
    destruct (Z.geb_spec (mget (allowance v) (from, from)) amount) as [Hge |];
      [lia | reflexivity].
  - intros this now receiver assets v' log env' H.
    apply vault_redeem_run_state in H
      as (total & _ & _ & _ & _ & _ & _ & _ & _ & _ & -> & _).
    cbn. unfold spent. rewrite Z.eqb_refl. reflexivity.
Qed.
End Shares.

Section ShareRuns.
Import World Scenario MockMorphoVault Vault.

Lemma vault_direct1_accounted : accounted vault_direct1.
Proof.
  split; [| split; [vm_compute; reflexivity | discriminate]].
  intros a. cbn. rewrite !mget_insert.
  destruct (decide (DEAD_ADDRESS = a)); [unfold DEAD_SHARES; lia |].
  destruct (decide (ALICE = a)); [lia |].
  unfold mget. rewrite lookup_empty. cbn. lia.
Qed.

(** Alice sends five shares to Bob: a thousand shares are priced the
    same before and after. *)
Lemma share_moves_keep_pool_witness :
  convertToAssets (moved ALICE BOB 5 vault_direct1) 1360 (10 ^ 9)
  = convertToAssets vault_direct1 1360 (10 ^ 9).
Proof.
  destruct (run (handle_vault USDC VAULT)
              (dispatch VAULT ALICE 1360 (TxTransfer BOB 5) vault_direct1)
              token_direct1)
    as [[[[[] v'] log] env'] | e] eqn:H; [| vm_compute in H; discriminate H].
  pose proof (share_moves_keep_pool _ _ _ _ (TxTransfer BOB 5) _ _ _ _ _
                eq_refl H)
    as (_ & _ & Hv).
  destruct (Hv 1360 (10 ^ 9)) as (_ & Hc & _).
  vm_compute in H. inversion H; subst v'. exact Hc.
Defined.

(** Bob, approved for seven of Alice's shares, moves five of them to
    himself: Alice loses five shares and two remain approved. *)
Lemma shares_taken_within_allowance_witness :
  10 ^ 9 - (10 ^ 9 - 5) <= 7 - 2 /\ 2 <= 7.
Proof.
  assert (Hacc : accounted (set_allowance ALICE BOB 7 vault_direct1)).
  { apply accounted_set_allowance, vault_direct1_accounted. }
  assert (Hwf : tx_wf (TxTransferFrom ALICE BOB 5)).
  { unfold tx_wf, is_uint256, MAX_UINT256. lia. }
  assert (Hne : BOB <> ALICE) by discriminate.
  destruct (run (handle_vault USDC VAULT)
              (dispatch VAULT BOB 1360 (TxTransferFrom ALICE BOB 5)
                        (set_allowance ALICE BOB 7 vault_direct1))
              token_direct1)
    as [[[[[] v'] log] env'] | e] eqn:H; [| vm_compute in H; discriminate H].
  pose proof (shares_taken_within_allowance _ _ _ _ _ _ _ _ _ _ ALICE
                Hwf Hacc Hne H) as Hp.
  vm_compute in H. inversion H; subst v'. exact Hp.
Defined.

(** Alice cannot [transferFrom] her own shares without approving
    herself. *)
Lemma transferFrom_needs_own_allowance_witness :
  run (handle_vault USDC VAULT) (transferFrom ALICE ALICE BOB 5 vault_direct1)
      token_direct1
  = Revert (Require "Insufficient allowance").
Proof.
  refine (proj1 (transferFrom_needs_own_allowance
                   (handle_vault USDC VAULT) ALICE BOB 5 vault_direct1
                   token_direct1 _)).
  vm_compute. reflexivity.
Defined.
End ShareRuns.

(** ** The stored quantities stay in range *)

Section Range.
Context {Env : Type} (handle : Env -> ExtCall -> Reply * Env).
Import MockMorphoVault Vault.

Lemma wf_prepared now total v :
  is_uint256 now -> wf v -> totalAssets v now = Ok total ->
  wf (prepared now total v).
Proof.
  intros Hnow Hwf Htot.
  pose proof (totalAssets_range _ _ _ Hwf Htot) as Ht.
  destruct Hwf as (Hs & _ & _). pose proof MAX_UINT256_big as Hbig.
  unfold prepared. destruct (initialized v); repeat split; cbn;
    unfold is_uint256, DEAD_SHARES in *; lia.
Qed.

(** X16. Every state-changing function of the share vault keeps
    [totalSupply], the cached assets and the accrual time within
    [uint256]: the checked arithmetic reverts instead. *)
Theorem vault_keeps_wf
    (this sender : address) (now : Z) (tx : Tx) (v : State) (env : Env)
    (v' : State) (log : list Event) (env' : Env) :
  is_uint256 now -> wf v ->
  run handle (dispatch this sender now tx v) env = Ok ((), v', log, env') ->
  wf v'.
Proof.
  intros Hnow Hwf H.
  destruct tx as [assets receiver | shares receiver | assets receiver owner
                  | shares receiver owner | spender amount | to amount
                  | from to amount]; unfold dispatch in H;
    apply run_seq_ret in H as [ret H].
  - apply vault_deposit_run_Ok in H
      as (total & Hpos & _ & Htot & _ & _ & Hs & -> & Hb1 & Hb2 & _).
    destruct (wf_prepared now total v Hnow Hwf Htot) as (Hp1 & Hp2 & Hp3).
    repeat split; cbn; unfold is_uint256 in *; lia.
  - apply vault_mint_run_Ok in H
      as (total & Hpos & _ & Htot & _ & Ha & -> & Hb1 & Hb2 & _).
    destruct (wf_prepared now total v Hnow Hwf Htot) as (Hp1 & Hp2 & Hp3).
    repeat split; cbn; unfold is_uint256 in *; lia.
  - apply vault_withdraw_run_state in H
      as (total & Hpos & _ & Htot & _ & Hs & _ & _ & Hle & Hle' & -> & _).
    pose proof (totalAssets_range _ _ _ Hwf Htot) as Ht.
    destruct Hwf as (Hs0 & _ & _).
    assert (Hsup : totalSupply (spent sender owner ret (accrued now total v))
                   = totalSupply v).
    { unfold spent. destruct (sender =? owner); reflexivity. }
    assert (Hta : _totalAssets (spent sender owner ret (accrued now total v))
                  = total).
    { unfold spent. destruct (sender =? owner); reflexivity. }
    assert (Hlu : lastYieldUpdate
                    (spent sender owner ret (accrued now total v)) = now).
    { unfold spent. destruct (sender =? owner); reflexivity. }
    repeat split; cbn; rewrite ?Hsup, ?Hta, ?Hlu;
      unfold is_uint256 in *; lia.
  - apply vault_redeem_run_state in H
      as (total & Hpos & _ & Htot & _ & Ha & _ & _ & Hle & Hle' & -> & _).
    pose proof (totalAssets_range _ _ _ Hwf Htot) as Ht.
    destruct Hwf as (Hs0 & _ & _).
    assert (Hsup : totalSupply (spent sender owner shares v) = totalSupply v).
    { unfold spent. destruct (sender =? owner); reflexivity. }
    repeat split; cbn; rewrite ?Hsup; unfold is_uint256 in *; lia.
  - apply vault_approve_run_Ok in H as (-> & _). exact Hwf.
  - apply vault_transfer_run_Ok in H as (_ & -> & _). exact Hwf.
  - apply vault_transferFrom_run_Ok in H as (_ & _ & -> & _). exact Hwf.
Qed.
End Range.

(** The vault after Alice's first deposit is in range. *)
Lemma vault_keeps_wf_witness : MockMorphoVault.wf Scenario.vault_direct1.
Proof.
  assert (Hnow : is_uint256 1000).
  { unfold is_uint256, MAX_UINT256. lia. }
  destruct (run (World.handle_vault Scenario.USDC Scenario.VAULT)
              (Vault.dispatch Scenario.VAULT Scenario.ALICE 1000
                 (Vault.TxDeposit (10 ^ 9) Scenario.ALICE) Scenario.vault0)
              Scenario.token_direct)
    as [[[[[] v'] log] env'] | e] eqn:H; [| vm_compute in H; discriminate H].
  pose proof (vault_keeps_wf _ _ _ _ _ _ _ _ _ _ Hnow vault0_wf H) as Hwf.
  vm_compute in H. inversion H; subst v'. exact Hwf.
Defined.

(** ** The ledger's reads and its admin functions *)

Section LedgerReads.
Context {Env : Type} (handle : Env -> ExtCall -> Reply * Env).
Import JubyVault Ledger.

Lemma abi_decode_uint256_range d x :
  abi_decode_uint256 d = Ok x -> is_uint256 x.
Proof.
  unfold abi_decode_uint256. destruct d as [| w ?]; [discriminate |].
  intros H. inversion H. unfold is_uint256, MAX_UINT256.
  pose proof (Z.mod_pos_bound w (2 ^ 256) ltac:(lia)). lia.
Qed.

Lemma spec_userReceives_net isEarly p cv :
  spec_userReceives isEarly p cv
  = cv - spec_penalty isEarly (spec_yield cv p).
Proof.
  unfold spec_userReceives, spec_penalty, spec_yield.
  destruct (isEarly && (0 <? Z.max (cv - p) 0)) eqn:H; [| lia].
  apply andb_prop in H as [_ H]. apply Z.ltb_lt in H. lia.
Qed.

Lemma spec_penalty_half isEarly y :
  0 <= y -> 0 <= 2 * spec_penalty isEarly y <= y.
Proof.
  intros Hy. unfold spec_penalty.
  destruct (isEarly && (0 <? y)); [| lia].
  pose proof (Z.mul_div_le y 2 ltac:(lia)).
  pose proof (Z.div_pos y 2 Hy ltac:(lia)). lia.
Qed.

(** A successful [getUserInfo]: zeros without a record, and otherwise
    one static call to the share vault. *)
Lemma getUserInfo_run_cases now user st env info st' log env' :
  run handle (getUserInfo now user st) env = Ok (info, st', log, env') ->
  let d := deposit_of st user in
  st' = st /\ log = []
  /\ (exists_ d = false /\ info = mkUserInfo 0 0 0 0 false 0 /\ env' = env
      \/ exists_ d = true
         /\ exists r1 cv,
              handle env (convertToAssets_call st (shares d)) = (r1, env')
              /\ success r1 = true
              /\ abi_decode_uint256 (data r1) = Ok cv
              /\ info = mkUserInfo (principal d) cv
                          (spec_yield cv (principal d)) (goalDate d)
                          (now <? goalDate d)
                          (spec_penalty (now <? goalDate d)
                                        (spec_yield cv (principal d)))).
Proof.
  intros H d. subst d. unfold getUserInfo in H. unfold_ops. cbn in H.
  destruct (exists_ (deposit_of st user)) eqn:Hex; cbn in H.
  2:{ inversion H; subst. split; [reflexivity |]. split; [reflexivity |].
      left. auto. }
  set (d := deposit_of st user) in *.
  destruct (handle env _) as [r1 env1] eqn:Hc1 in H.
  destruct (success r1) eqn:Hs1; cbn in H; [| discriminate].
  destruct (abi_decode_uint256 (data r1)) as [cv|] eqn:Hd1; cbn in H;
    [| discriminate].
  destruct (spec_payout_code now (goalDate d) (principal d) cv)
    as (Hy & Hp & _).
  cbv zeta in Hy, Hp.
  assert (Hdone : forall y pen,
             y = (if cv >? principal d then cv - principal d else 0) ->
             pen = (if (now <? goalDate d) && (y >? 0) then y / 2 else 0) ->
             handle env (convertToAssets_call st (shares d)) = (r1, env1) ->
             exists r1 cv0,
                  handle env (convertToAssets_call st (shares d)) = (r1, env1)
                  /\ success r1 = true
                  /\ abi_decode_uint256 (data r1) = Ok cv0
                  /\ mkUserInfo (principal d) cv y (goalDate d)
                                (now <? goalDate d) pen
                     = mkUserInfo (principal d) cv0
                         (spec_yield cv0 (principal d)) (goalDate d)
                         (now <? goalDate d)
                         (spec_penalty (now <? goalDate d)
                                       (spec_yield cv0 (principal d)))).
  { intros y pen -> -> Hc. exists r1, cv.
    rewrite <- Hp, <- Hy. auto. }
  clear Hy Hp.
  destruct (cv >? principal d) eqn:Hgt.
  - destruct (cv -! principal d) as [y|] eqn:Hsub; cbn in H; [| discriminate].
    apply checked_sub_Ok in Hsub as [-> _].
    destruct ((now <? goalDate d) && (cv - principal d >? 0)) eqn:He;
      cbn in H.
    + destruct ((cv - principal d) /! 2) as [h|] eqn:Hh; cbn in H;
        [| discriminate].
      apply checked_div_Ok in Hh as [-> _].
      inversion H; subst. split; [reflexivity |]. split; [reflexivity |].
      right. split; [reflexivity |]. apply Hdone; [reflexivity | | exact Hc1].
      rewrite He. reflexivity.
    + inversion H; subst. split; [reflexivity |]. split; [reflexivity |].
      right. split; [reflexivity |]. apply Hdone; [reflexivity | | exact Hc1].
      rewrite He. reflexivity.
  - cbn in H. rewrite andb_false_r in H. cbn in H.
    inversion H; subst. split; [reflexivity |]. split; [reflexivity |].
    right. split; [reflexivity |]. apply Hdone; [reflexivity | | exact Hc1].
    rewrite andb_false_r. reflexivity.
Qed.

(** X17. Whenever [getUserInfo] returns, [previewWithdrawal] returns
    too, at the same time and for the same account, and they agree:
    the penalty is [potentialPenalty] and the payout is
    [currentValue - potentialPenalty]; the yield is
    [max(currentValue - principal, 0)] and the penalty at most half
    of it. Neither writes storage or emits an event. *)
Theorem getUserInfo_agrees_with_preview
    (now : Z) (user : address) (st : State) (env : Env) (info : UserInfo)
    (st' : State) (log : list Event) (env' : Env) :
  run handle (getUserInfo now user st) env = Ok (info, st', log, env') ->
  run handle (previewWithdrawal now user st) env
  = Ok ((ui_currentValue info - ui_potentialPenalty info,
         ui_potentialPenalty info), st, [], env')
  /\ st' = st /\ log = []
  /\ ui_yield info = Z.max (ui_currentValue info - ui_principal info) 0
  /\ 0 <= 2 * ui_potentialPenalty info <= ui_yield info.
Proof.
  intros H. apply getUserInfo_run_cases in H
    as (-> & -> & [(Hex & -> & ->) | (Hex & r1 & cv & Hc & Hs & Hd & ->)]).
  - split; [| cbn; repeat split; lia].
    apply previewWithdrawal_run_none. exact Hex.
  - cbn [ui_currentValue ui_potentialPenalty ui_yield ui_principal].
    pose proof (abi_decode_uint256_range _ _ Hd) as [Hcv0 HcvM].
    pose proof (spec_penalty_half (now <? goalDate (deposit_of st user))
                  (spec_yield cv (principal (deposit_of st user)))
                  ltac:(unfold spec_yield; lia)) as Hhalf.
    split; [| split; [reflexivity | split; [reflexivity |
                split; [reflexivity | exact Hhalf]]]].
    rewrite <- spec_userReceives_net.
    apply (previewWithdrawal_run_active handle now user st env r1 env' cv);
      auto.
    rewrite spec_userReceives_net. lia.
Qed.

(** The admin functions: who may call them and what they write. *)
Lemma updateTreasury_run_cases sender a st env :
  run handle (updateTreasury sender a st) env
  = if sender =? owner st
    then if a =? 0 then Revert (Require "Invalid treasury")
         else Ok ((), set_jubyTreasury a st,
                  [TreasuryUpdated (jubyTreasury st) a], env)
    else Revert (Require "Only owner").
Proof.
  unfold updateTreasury. unfold_ops. cbn.
  destruct (sender =? owner st); cbn; [| reflexivity].
  destruct (a =? 0); reflexivity.
Qed.

Lemma transferOwnership_run_cases sender a st env :
  run handle (transferOwnership sender a st) env
  = if sender =? owner st
    then if a =? 0 then Revert (Require "Invalid owner")
         else Ok ((), set_owner a st, [], env)
    else Revert (Require "Only owner").
Proof.
  unfold transferOwnership. unfold_ops. cbn.
  destruct (sender =? owner st); cbn; [| reflexivity].
  destruct (a =? 0); reflexivity.
Qed.

(** X18. Ownership changes hands in one step: once
    [transferOwnership] has succeeded, the previous owner is refused by
    both admin functions with [Only owner], whatever the argument, and
    the new owner can move the treasury at once; the transfer itself
    makes no call, emits nothing and leaves the treasury and every
    deposit record alone. *)
Theorem ownership_handover
    (sender newOwner : address) (st : State) (env : Env) (u : unit)
    (st' : State) (log : list Event) (env' : Env) :
  run handle (transferOwnership sender newOwner st) env
  = Ok (u, st', log, env') ->
  sender <> newOwner ->
  (forall a e2,
      run handle (updateTreasury sender a st') e2
      = Revert (Require "Only owner")
      /\ run handle (transferOwnership sender a st') e2
         = Revert (Require "Only owner"))
  /\ (forall a e2,
        a <> 0 ->
        run handle (updateTreasury newOwner a st') e2
        = Ok ((), set_jubyTreasury a st',
              [TreasuryUpdated (jubyTreasury st) a], e2))
  /\ owner st = sender /\ owner st' = newOwner
  /\ jubyTreasury st' = jubyTreasury st /\ deposits st' = deposits st
  /\ env' = env /\ log = [].
Proof.
  intros H Hne. rewrite transferOwnership_run_cases in H.
  destruct (Z.eqb_spec sender (owner st)) as [Ho |]; [| discriminate].
  destruct (Z.eqb_spec newOwner 0); [discriminate |].
  inversion H; subst st' log env'. clear H.
  split; [| split].
  - intros a e2.
    rewrite updateTreasury_run_cases, transferOwnership_run_cases. cbn.
    destruct (Z.eqb_spec sender newOwner); [contradiction | auto].
  - intros a e2 Ha. rewrite updateTreasury_run_cases. cbn.
    rewrite Z.eqb_refl.
    destruct (Z.eqb_spec a 0); [contradiction | reflexivity].
  - cbn. repeat split; auto.
Qed.
End LedgerReads.

Section LedgerReadRuns.
Import World Scenario JubyVault.

(** Alice's position at time 1360, with her goal at 2000: worth
    [1_000_000_570], with a penalty of [285] and a payout of
    [1_000_000_285]. *)
Lemma getUserInfo_agrees_with_preview_witness :
  run (handle_ledger USDC VAULT LEDGER 1360)
      (previewWithdrawal 1360 ALICE (ledger1 2000)) (vault1, token1)
  = Ok ((1000000570 - 285, 285), ledger1 2000, [], (vault1, token1)).
Proof.
  destruct (run (handle_ledger USDC VAULT LEDGER 1360)
              (getUserInfo 1360 ALICE (ledger1 2000)) (vault1, token1))
    as [[[[info st'] log] env'] | e] eqn:H; [| vm_compute in H; discriminate H].
  pose proof (getUserInfo_agrees_with_preview _ _ _ _ _ _ _ _ _ H)
    as (Hp & _).
  vm_compute in H. inversion H; subst info env'. exact Hp.
Defined.

(** The admin hands the ledger over to Alice. *)
Lemma ownership_handover_witness :
  run (handle_ledger USDC VAULT LEDGER 1360)
      (updateTreasury ADMIN BOB (set_owner ALICE ledger0)) (vault0, token0)
  = Revert (Require "Only owner")
  /\ run (handle_ledger USDC VAULT LEDGER 1360)
         (updateTreasury ALICE BOB (set_owner ALICE ledger0)) (vault0, token0)
     = Ok ((), set_jubyTreasury BOB (set_owner ALICE ledger0),
           [TreasuryUpdated TREASURY BOB], (vault0, token0)).
Proof.
  destruct (ownership_handover (handle_ledger USDC VAULT LEDGER 1360)
              ADMIN ALICE ledger0 (vault0, token0) tt
              (set_owner ALICE ledger0) [] (vault0, token0)
              eq_refl ltac:(discriminate)) as (Hold & Hnew & _).
  split.
  - exact (proj1 (Hold BOB (vault0, token0))).
  - exact (Hnew BOB (vault0, token0) ltac:(discriminate)).
Defined.
End LedgerReadRuns.

(** ** Deposits and withdrawals in the deployed system *)

Section LedgerCalls.
Context {Env : Type} (handle : Env -> ExtCall -> Reply * Env).
Import JubyVault Ledger LedgerCalls.

(** A successful [deposit]: its three calls, in order. *)
Lemma deposit_run_calls this sender now amount goal st env ret st' log env' :
  run handle (deposit this sender now amount goal st) env
  = Ok (ret, st', log, env') ->
  exists r1 env1 r2 env2 r3,
    handle env (transferFrom_call st sender this amount) = (r1, env1)
    /\ token_call_ok r1 = Ok true
    /\ handle env1 (approve_call st amount) = (r2, env2)
    /\ token_call_ok r2 = Ok true
    /\ handle env2 (deposit_call st this amount) = (r3, env')
    /\ success r3 = true
    /\ abi_decode_uint256 (data r3) = Ok ret.
Proof.
  intros H. unfold deposit in H. unfold_ops. cbn in H.
  destruct (Z.gtb_spec amount 0); cbn in H; [| discriminate].
  destruct (Z.gtb_spec goal now); cbn in H; [| discriminate].
  destruct (exists_ (deposit_of st sender)) eqn:Hex; cbn in H;
    [discriminate |].
  destruct (handle env _) as [r1 env1] eqn:Hc1 in H.
  destruct (token_call_ok r1) as [[|]|] eqn:Hok1; cbn in H; try discriminate.
  destruct (handle env1 _) as [r2 env2] eqn:Hc2 in H.
  destruct (token_call_ok r2) as [[|]|] eqn:Hok2; cbn in H; try discriminate.
  destruct (handle env2 _) as [r3 env3] eqn:Hc3 in H.
  destruct (success r3) eqn:Hs3; cbn in H; [| discriminate].
  destruct (abi_decode_uint256 (data r3)) as [sh|] eqn:Hd3; cbn in H;
    [| discriminate].
  inversion H; subst. exists r1, env1, r2, env2, r3. auto 10.
Qed.
End LedgerCalls.

Section Settlement.
Import World.

Lemma transferFrom_Ok sender from to amount t t' :
  Token.transferFrom sender from to amount t = Ok t' ->
  (forall x, x <> from -> x <> to ->
             mget (Token.balanceOf t') x = mget (Token.balanceOf t) x)
  /\ (from <> to ->
      mget (Token.balanceOf t') to = mget (Token.balanceOf t) to + amount
      /\ mget (Token.balanceOf t') from
         = mget (Token.balanceOf t) from - amount)
  /\ mget (Token.allowance t') (from, sender)
     = mget (Token.allowance t) (from, sender) - amount.
Proof.
  unfold Token.transferFrom. intros H.
  destruct (_ <? amount); [discriminate |].
  apply bind_Ok in H as (b & Hb & H). inversion H; subst t'. cbn.
  apply move_Ok in Hb as (_ & Hother & Hmove).
  split; [exact Hother |]. split; [exact Hmove |].
  rewrite mget_insert.
  destruct (decide ((from, sender) = (from, sender)));
    [reflexivity | contradiction].
Qed.

Lemma transfer_Ok_from sender to amount t t' :
  Token.transfer sender to amount t = Ok t' ->
  sender <> to ->
  mget (Token.balanceOf t') sender = mget (Token.balanceOf t) sender - amount.
Proof.
  unfold Token.transfer. intros H Hne.
  apply bind_Ok in H as (b & Hb & H). inversion H; subst t'. cbn.
  apply move_Ok in Hb as (_ & _ & Hmove). apply Hmove. exact Hne.
Qed.

Lemma handle_ledger_transferFrom tok vault_a ledger_a now env st from to
    amount r env' :
  JubyVault.asset st = tok -> tok <> vault_a ->
  handle_ledger tok vault_a ledger_a now env
                (LedgerCalls.transferFrom_call st from to amount) = (r, env') ->
  token_call_ok r = Ok true ->
  exists t', Token.transferFrom ledger_a from to amount env.2 = Ok t'
             /\ env' = (env.1, t').
Proof.
  intros Ht Hne H Hok. subst tok.
  unfold handle_ledger, token_dispatch in H. cbn in H.
  destruct (Z.eqb_spec (JubyVault.asset st) vault_a); [contradiction |].
  rewrite Z.eqb_refl in H.
  destruct (Token.transferFrom ledger_a from to amount env.2) as [t'|];
    cbn in H; inversion H; subst; [eauto | discriminate].
Qed.

Lemma handle_ledger_approve tok vault_a ledger_a now env st amount r env' :
  JubyVault.asset st = tok -> tok <> vault_a ->
  handle_ledger tok vault_a ledger_a now env
                (LedgerCalls.approve_call st amount) = (r, env') ->
  env' = (env.1, Token.mkState (Token.balanceOf env.2)
                   (<[(ledger_a, JubyVault.morphoVault st) := amount]>
                      (Token.allowance env.2))).
Proof.
  intros Ht Hne H. subst tok.
  unfold handle_ledger, token_dispatch in H. cbn in H.
  destruct (Z.eqb_spec (JubyVault.asset st) vault_a); [contradiction |].
  rewrite Z.eqb_refl in H. cbn in H. inversion H. reflexivity.
Qed.

Lemma handle_ledger_deposit tok vault_a ledger_a now env st this amount r
    env' :
  JubyVault.morphoVault st = vault_a ->
  handle_ledger tok vault_a ledger_a now env
                (LedgerCalls.deposit_call st this amount) = (r, env') ->
  success r = true ->
  exists s,
    run_vault tok vault_a
      (MockMorphoVault.deposit vault_a ledger_a now amount this) env
    = Ok (s, env')
    /\ data r = [s].
Proof.
  intros Hv H Hs. subst vault_a.
  unfold handle_ledger, vault_dispatch in H. cbn in H.
  rewrite Z.eqb_refl in H.
  destruct (run_vault _ _ _ _) as [[a env1]|] eqn:Hrun; cbn in H;
    inversion H; subst; [eauto | discriminate].
Qed.

Lemma handle_vault_transferFrom tok vault_a t from to amount r t' :
  handle_vault tok vault_a t
    (mkCall tok CALL "transferFrom(address,address,uint256)"
            [from; to; amount]) = (r, t') ->
  token_call_ok r = Ok true ->
  Token.transferFrom vault_a from to amount t = Ok t'.
Proof.
  intros H Hok. unfold handle_vault, token_dispatch in H. cbn in H.
  rewrite Z.eqb_refl in H.
  destruct (Token.transferFrom vault_a from to amount t) as [t1|]; cbn in H;
    inversion H; subst; [reflexivity | discriminate].
Qed.

(** The ledger's deposit in the deployed system, call by call. *)
Lemma deposit_world w sender now amount goal shares log w' :
  wired w -> MockMorphoVault.wf (vault w) ->
  deposit w sender now amount goal = Ok (shares, log, w') ->
  let v := vault w in
  let L := ledger_addr w in
  exists total t1 t3,
    0 < amount /\ now < goal
    /\ JubyVault.exists_ (JubyVault.deposit_of (ledger w) sender) = false
    /\ MockMorphoVault.totalAssets v now = Ok total
    /\ MockMorphoVault.convertToShares (Vault.prepared now total v) now amount
       = Ok shares
    /\ 0 < shares <= MAX_UINT256
    /\ vault w' = Vault.minted L shares amount (Vault.prepared now total v)
    /\ (is_uint256 now -> MockMorphoVault.wf (vault w'))
    /\ ledger w'
       = JubyVault.set_deposit sender
           (JubyVault.mkUserDeposit shares amount goal now true) (ledger w)
    /\ log = [JubyVault.Deposited sender amount shares goal now]
    /\ Token.transferFrom L sender L amount (token w) = Ok t1
    /\ Token.transferFrom (vault_addr w) L (vault_addr w) amount
         (Token.mkState (Token.balanceOf t1)
            (<[(L, vault_addr w) := amount]> (Token.allowance t1)))
       = Ok t3
    /\ token w' = t3
    /\ token_addr w' = token_addr w /\ vault_addr w' = vault_addr w
    /\ ledger_addr w' = ledger_addr w
    /\ (MockMorphoVault.initialized v = false ->
        MockMorphoVault.DEAD_SHARES <= amount).
Proof.
  intros (Hasset & Hvault & Hvasset & Hne) Hwf Hok v L.
  unfold deposit, exec in Hok.
  apply bind_Ok in Hok as ([[[ret0 st'] log0] env'] & Hrun & Hret).
  inversion Hret; subst ret0 log0 w'. clear Hret. cbn [vault ledger token
    token_addr vault_addr ledger_addr].
  pose proof (deposit_run_Ok _ _ _ _ _ _ _ _ _ _ _ _ Hrun)
    as (Hpos & Hgoal & Hex & -> & ->).
  apply deposit_run_calls in Hrun
    as (r1 & env1 & r2 & env2 & r3 & Hc1 & Hok1 & Hc2 & Hok2 & Hc3 & Hs3
        & Hd3).
  apply (handle_ledger_transferFrom _ _ _ _ _ _ _ _ _ _ _ Hasset Hne) in Hc1
    as (t1 & Htr1 & ->); [| exact Hok1].
  apply (handle_ledger_approve _ _ _ _ _ _ _ _ _ Hasset Hne) in Hc2.
  subst env2. cbn [fst snd] in Hc3.
  apply (handle_ledger_deposit _ _ _ _ _ _ _ _ _ _ Hvault) in Hc3
    as (s & Hrunv & Hdata); [| exact Hs3].
  unfold run_vault in Hrunv.
  apply bind_Ok in Hrunv as ([[[s0 v'] logv] t'] & Hrunv & Hr).
  inversion Hr; subst s0 env'. clear Hr. cbn [fst snd] in *.
  apply vault_deposit_run_Ok in Hrunv
    as (total & _ & _ & Htot & Hmin & Hcts & Hs & -> & Hb1 & Hb2 & r & Hc
        & Hokv).
  rewrite Hvasset in Hc.
  fold v in Htot, Hcts, Hb1, Hb2, Hmin |- *.
  apply (handle_vault_transferFrom _ _ _ _ _ _ _ _ Hc) in Hokv.
  rewrite Hvault in Hokv.
  assert (Hrange : 0 < s <= MAX_UINT256).
  { split; [exact Hs |].
    assert (0 <= MockMorphoVault.totalSupply (Vault.prepared now total v)).
    { unfold Vault.prepared. destruct Hwf as ([H0 _] & _). fold v in H0.
      destruct (MockMorphoVault.initialized v); cbn;
        [exact H0 | unfold MockMorphoVault.DEAD_SHARES; lia]. }
    lia. }
  assert (shares = s) as ->.
  { rewrite Hdata in Hd3. cbn in Hd3. rewrite mod_uint256 in Hd3
      by (unfold is_uint256; lia).
    inversion Hd3. reflexivity. }
  assert (Hwf' : is_uint256 now ->
                 MockMorphoVault.wf
                   (Vault.minted L s amount (Vault.prepared now total v))).
  { intros Hnow.
    destruct (wf_prepared now total v Hnow Hwf Htot) as (Hp1 & Hp2 & Hp3).
    repeat split; cbn; unfold is_uint256 in *; lia. }
  exists total, t1, t'. repeat split; auto; try lia; apply Hwf'; assumption.
Qed.

(** The ledger's withdrawal in the deployed system, call by call. *)
Lemma withdraw_world w sender now ret log w' :
  let d := JubyVault.deposit_of (ledger w) sender in
  let isEarly := now <? JubyVault.goalDate d in
  let L := ledger_addr w in
  wired w -> MockMorphoVault.wf (vault w) -> is_uint256 (JubyVault.shares d) ->
  withdraw w sender now = Ok (ret, log, w') ->
  exists cv total t2 t3,
    JubyVault.exists_ d = true
    /\ MockMorphoVault.convertToAssets (vault w) now (JubyVault.shares d)
       = Ok cv
    /\ 10 <= cv
    /\ MockMorphoVault.totalAssets (vault w) now = Ok total
    /\ JubyVault.shares d <= mget (MockMorphoVault.balanceOf (vault w)) L
    /\ ret = spec_userReceives isEarly (JubyVault.principal d) cv
    /\ vault w' = Vault.burned L (JubyVault.shares d) cv
                    (Vault.accrued now total (vault w))
    /\ ledger w' = JubyVault.delete_deposit sender (ledger w)
    /\ Token.transfer (vault_addr w) L cv (token w) = Ok t2
    /\ (let pen := spec_penalty isEarly
                     (spec_yield cv (JubyVault.principal d)) in
        if pen >? 0
        then Token.transfer L (JubyVault.jubyTreasury (ledger w)) pen t2
             = Ok t3
             /\ log = [JubyVault.PenaltyCollected sender pen;
                       JubyVault.Withdrawn sender (JubyVault.principal d)
                         (spec_yield cv (JubyVault.principal d)) pen ret
                         isEarly]
        else t3 = t2
             /\ log = [JubyVault.Withdrawn sender (JubyVault.principal d)
                         (spec_yield cv (JubyVault.principal d)) pen ret
                         isEarly])
    /\ Token.transfer L sender ret t3 = Ok (token w').
Proof.
  intros d isEarly L (Hasset & Hvault & Hvasset & Hne) Hwf Hsh Hok.
  unfold withdraw, exec in Hok.
  apply bind_Ok in Hok as ([[[ret0 st'] log0] env'] & Hrun & Hret).
  inversion Hret; subst ret0 log0 w'. clear Hret.
  cbn [vault ledger token].
  apply withdraw_run_Ok in Hrun.
  destruct Hrun as (r1 & env1 & cv & r2 & env2 & received & env3 & r4 & Hex
                    & Hc1 & Hsu1 & Hd1 & Hc2 & Hsu2 & Hd2 & Hten & _ & Hret
                    & _ & -> & Hpen & Hc4 & Hok4).
  fold d in Hex, Hc1, Hc2, Hret, Hpen. fold isEarly in Hret, Hpen.
  rewrite (handle_ledger_convertToAssets _ _ _ _ _ _ _ Hvault) in Hc1.
  cbn [fst] in Hc1.
  destruct (MockMorphoVault.convertToAssets (vault w) now (JubyVault.shares d))
    as [a|] eqn:Ha; inversion Hc1; subst r1 env1; clear Hc1;
    [| discriminate].
  cbn in Hd1. rewrite mod_uint256 in Hd1
    by (eapply convertToAssets_range; eauto).
  inversion Hd1; subst a. clear Hd1.
  apply (handle_ledger_redeem _ _ _ _ _ _ _ _ _ _ Hvault) in Hc2
    as (a2 & Hrunv & _); [| exact Hsu2].
  unfold run_vault in Hrunv.
  apply bind_Ok in Hrunv as ([[[a0 v'] logv] t2] & Hrunv & Hr).
  inversion Hr; subst a0 env2. clear Hr. cbn [fst snd] in *.
  apply vault_redeem_run_state in Hrunv
    as (total & _ & _ & Htot & Hcta & _ & _ & Hbal & _ & _ & -> & r & Hc
        & Hokv).
  rewrite Ha in Hcta. inversion Hcta; subst a2. clear Hcta.
  rewrite Hvasset in Hc.
  apply (handle_vault_transfer _ _ _ _ _ _ _ Hc) in Hokv.
  assert (Hspent : Vault.spent (ledger_addr w) (ledger_addr w)
                     (JubyVault.shares d) (vault w) = vault w).
  { unfold Vault.spent. rewrite Z.eqb_refl. reflexivity. }
  exists cv, total, t2.
  cbv zeta in Hpen.
  destruct (spec_penalty isEarly (spec_yield cv (JubyVault.principal d)) >? 0)
    eqn:Hpos.
  - destruct Hpen as (r3 & Hc3 & Hok3 & ->).
    apply (handle_ledger_transfer _ _ _ _ _ _ _ _ _ _ Hasset Hne) in Hc3
      as (t3 & Htr3 & ->); [| exact Hok3].
    apply (handle_ledger_transfer _ _ _ _ _ _ _ _ _ _ Hasset Hne) in Hc4
      as (t4 & Htr4 & ->); [| exact Hok4].
    exists t3. cbv zeta. cbn [fst snd] in *. rewrite Hspent.
    repeat split; auto.
  - destruct Hpen as (-> & ->).
    apply (handle_ledger_transfer _ _ _ _ _ _ _ _ _ _ Hasset Hne) in Hc4
      as (t4 & Htr4 & ->); [| exact Hok4].
    exists t2. cbv zeta. cbn [fst snd] in *. rewrite Hspent.
    repeat split; auto.
Qed.
Lemma deposit_of_other st a b d :
  a <> b ->
  JubyVault.deposit_of (JubyVault.set_deposit a d st) b
  = JubyVault.deposit_of st b
  /\ JubyVault.deposit_of (JubyVault.delete_deposit a st) b
     = JubyVault.deposit_of st b.
Proof.
  intros Hne. rewrite deposit_of_set_deposit, deposit_of_delete_deposit.
  destruct (decide (a = b)); [contradiction | auto].
Qed.

(** X19. A successful [deposit] through the ledger moves exactly
    [amount] of the asset from the caller to the share vault: the
    caller's balance drops by [amount], the vault's rises by it, the
    ledger's own balance is unchanged and the allowance it gave the
    vault is used up. The record written holds the shares the vault
    minted to the ledger, with [amount] as principal, and no other
    account's record changes. *)
Theorem deposit_settles (w : World) (sender : address)
    (now amount goal shares : Z) (log : list JubyVault.Event) (w' : World) :
  let L := ledger_addr w in
  let V := vault_addr w in
  wired w -> MockMorphoVault.wf (vault w) ->
  sender <> L -> sender <> V -> L <> V ->
  L <> MockMorphoVault.DEAD_ADDRESS ->
  deposit w sender now amount goal = Ok (shares, log, w') ->
  balance w' sender = balance w sender - amount
  /\ balance w' V = balance w V + amount
  /\ balance w' L = balance w L
  /\ mget (Token.allowance (token w')) (L, V) = 0
  /\ mget (MockMorphoVault.balanceOf (vault w')) L
     = mget (MockMorphoVault.balanceOf (vault w)) L + shares
  /\ JubyVault.deposit_of (ledger w') sender
     = JubyVault.mkUserDeposit shares amount goal now true
  /\ forall other, other <> sender ->
       JubyVault.deposit_of (ledger w') other
       = JubyVault.deposit_of (ledger w) other.
Proof.
  intros L V Hwired Hwf HsL HsV HLV Hdead Hok.
  apply deposit_world in Hok; [| exact Hwired | exact Hwf].
  destruct Hok as (total & t1 & t3 & _ & _ & _ & _ & _ & _ & Hv & _ & Hl & _
                   & Htr1 & Htr3 & Ht & _).
  fold L V in Hv, Htr1, Htr3.
  apply transferFrom_Ok in Htr1 as (Ho1 & Hm1 & _).
  apply transferFrom_Ok in Htr3 as (Ho3 & Hm3 & Ha3).
  destruct (Hm1 HsL) as [Hto1 Hfrom1]. destruct (Hm3 HLV) as [Hto3 Hfrom3].
  cbn [Token.balanceOf Token.allowance] in *.
  unfold balance. rewrite Ht, Hv, Hl. repeat split.
  - rewrite Ho3 by congruence. exact Hfrom1.
  - rewrite Hto3. rewrite Ho1 by congruence. reflexivity.
  - rewrite Hfrom3, Hto1. lia.
  - rewrite Ha3, mget_insert.
    destruct (decide ((L, V) = (L, V))); [lia | contradiction].
  - cbn. rewrite mget_insert.
    destruct (decide (L = L)); [| contradiction].
    unfold Vault.prepared.
    destruct (MockMorphoVault.initialized (vault w)); cbn; [reflexivity |].
    rewrite mget_insert.
    destruct (decide (MockMorphoVault.DEAD_ADDRESS = L));
      [congruence | reflexivity].
  - rewrite deposit_of_set_deposit.
    destruct (decide (sender = sender)); [reflexivity | contradiction].
  - intros other Hne.
    apply (proj1 (deposit_of_other _ _ _ _ (not_eq_sym Hne))).
Qed.

(** X20. A successful [withdraw()] passes on all that the ledger
    receives: the share vault pays out exactly [currentValue], the
    ledger's own balance of the asset is the same before and after,
    and the ledger's shares and the share supply drop by the shares
    of the record, which is deleted while every other record stays. *)
Theorem withdraw_settles (w : World) (sender : address) (now ret : Z)
    (log : list JubyVault.Event) (w' : World) :
  let d := JubyVault.deposit_of (ledger w) sender in
  let treasury := JubyVault.jubyTreasury (ledger w) in
  let L := ledger_addr w in
  let V := vault_addr w in
  wired w -> MockMorphoVault.wf (vault w) -> is_uint256 (JubyVault.shares d) ->
  sender <> L -> sender <> V -> treasury <> L -> treasury <> V -> L <> V ->
  withdraw w sender now = Ok (ret, log, w') ->
  exists currentValue,
    MockMorphoVault.convertToAssets (vault w) now (JubyVault.shares d)
    = Ok currentValue
    /\ balance w' V = balance w V - currentValue
    /\ balance w' L = balance w L
    /\ mget (MockMorphoVault.balanceOf (vault w')) L
       = mget (MockMorphoVault.balanceOf (vault w)) L - JubyVault.shares d
    /\ MockMorphoVault.totalSupply (vault w')
       = MockMorphoVault.totalSupply (vault w) - JubyVault.shares d
    /\ JubyVault.deposit_of (ledger w') sender = JubyVault.no_deposit
    /\ forall other, other <> sender ->
         JubyVault.deposit_of (ledger w') other
         = JubyVault.deposit_of (ledger w) other.
Proof.
  intros d treasury L V Hwired Hwf Hsh HsL HsV HtL HtV HLV Hok.
  apply withdraw_world in Hok; [| exact Hwired | exact Hwf | exact Hsh].
  destruct Hok as (cv & total & t2 & t3 & _ & Hcv & _ & _ & _ & Hret & Hv
                   & Hl & Htr2 & Hpen & Htr4).
  fold d L V treasury in Hcv, Hret, Hv, Htr2, Hpen, Htr4.
  exists cv. split; [exact Hcv |].
  set (isEarly := now <? JubyVault.goalDate d) in *.
  set (pen := spec_penalty isEarly (spec_yield cv (JubyVault.principal d)))
    in *.
  assert (Hnet : ret = cv - pen).
  { rewrite Hret. apply spec_userReceives_net. }
  assert (Hpen0 : 0 <= pen) by apply spec_penalty_nonneg.
  pose proof (transfer_Ok _ _ _ _ _ Htr2) as (Ho2 & Hto2).
  pose proof (transfer_Ok_from _ _ _ _ _ Htr2 ltac:(congruence)) as Hfrom2.
  specialize (Hto2 ltac:(congruence)).
  assert (Hmid : mget (Token.balanceOf t3) V = mget (Token.balanceOf t2) V
                 /\ mget (Token.balanceOf t3) L
                    = mget (Token.balanceOf t2) L - pen).
  { cbv zeta in Hpen. destruct (Z.gtb_spec pen 0) as [Hpos | Hnpos].
    - destruct Hpen as (Htr3 & _).
      pose proof (transfer_Ok _ _ _ _ _ Htr3) as (Ho3 & _).
      pose proof (transfer_Ok_from _ _ _ _ _ Htr3 ltac:(congruence))
        as Hfrom3.
      split; [apply Ho3; congruence | exact Hfrom3].
    - destruct Hpen as (-> & _). split; [reflexivity | lia]. }
  destruct Hmid as (HmidV & HmidL).
  pose proof (transfer_Ok _ _ _ _ _ Htr4) as (Ho4 & _).
  pose proof (transfer_Ok_from _ _ _ _ _ Htr4 ltac:(congruence)) as Hfrom4.
  unfold balance. rewrite Hv, Hl. repeat split.
  - rewrite Ho4 by congruence. rewrite HmidV. exact Hfrom2.
  - rewrite Hfrom4, HmidL, Hto2. lia.
  - cbn. rewrite mget_insert.
    destruct (decide (L = L)); [reflexivity | contradiction].
  - rewrite deposit_of_delete_deposit.
    destruct (decide (sender = sender)); [reflexivity | contradiction].
  - intros other Hne.
    apply (proj2 (deposit_of_other (ledger w) sender other
                    JubyVault.no_deposit (not_eq_sym Hne))).
Qed.

(** X21. A deposit withdrawn in the same block returns at most what
    was deposited and pays no penalty: the shares just minted are
    worth no more than [amount], so the yield is zero although the
    withdrawal is early. *)
Theorem deposit_then_withdraw (w : World) (sender : address)
    (now amount goal shares : Z) (log1 : list JubyVault.Event) (w1 : World)
    (ret : Z) (log2 : list JubyVault.Event) (w2 : World) :
  wired w -> MockMorphoVault.wf (vault w) -> is_uint256 now ->
  (MockMorphoVault.initialized (vault w) = true ->
   0 < MockMorphoVault.totalSupply (vault w)) ->
  deposit w sender now amount goal = Ok (shares, log1, w1) ->
  withdraw w1 sender now = Ok (ret, log2, w2) ->
  10 <= ret <= amount
  /\ log2 = [JubyVault.Withdrawn sender amount 0 0 ret true]
  /\ JubyVault.deposit_of (ledger w2) sender = JubyVault.no_deposit.
Proof.
  intros Hwired Hwf Hnow Hlive Hd Hw.
  pose proof Hwired as (Hasset & Hvault & Hvasset & Hne).
  apply deposit_world in Hd; [| exact Hwired | exact Hwf].
  destruct Hd as (total & t1 & t3 & Hpos & Hgoal & _ & Htot & Hcts & Hsh
                  & Hv & Hwf1 & Hl & _ & _ & _ & _ & Hta & Hva & Hla & _).
  specialize (Hwf1 Hnow).
  assert (Hd1 : JubyVault.deposit_of (ledger w1) sender
                = JubyVault.mkUserDeposit shares amount goal now true).
  { rewrite Hl, deposit_of_set_deposit.
    destruct (decide (sender = sender)); [reflexivity | contradiction]. }
  assert (Hwired1 : wired w1).
  { unfold wired. rewrite Hta, Hva, Hl, Hv. cbn.
    unfold Vault.prepared.
    destruct (MockMorphoVault.initialized (vault w)); cbn; auto. }
  apply withdraw_world in Hw;
    [| exact Hwired1 | exact Hwf1
     | rewrite Hd1; cbn; unfold is_uint256; lia].
  destruct Hw as (cv & total1 & t2' & t3' & _ & Hcv & Hten & _ & _ & Hret
                  & _ & Hl2 & _ & Hpen & _).
  rewrite Hd1 in Hcv, Hret, Hpen. cbn in Hcv, Hret, Hpen. rewrite Hv in Hcv.
  pose proof (deposit_value_le _ _ _ _ _ _ _ Hwf Hlive Htot Hpos
                (proj1 Hsh) Hcts Hcv) as [Hcv0 Hcvle].
  assert (Hy : spec_yield cv amount = 0).
  { unfold spec_yield. lia. }
  assert (Hearly : (now <? goal) = true) by (apply Z.ltb_lt; exact Hgoal).
  rewrite Hy, Hearly in Hpen. cbn in Hpen. destruct Hpen as (_ & ->).
  assert (ret = cv) as ->.
  { rewrite Hret. unfold spec_userReceives. rewrite Hy, Hearly. reflexivity. }
  split; [lia |]. split; [reflexivity |].
  rewrite Hl2, deposit_of_delete_deposit.
  destruct (decide (sender = sender)); [reflexivity | contradiction].
Qed.
(** X25. The first deposit through the ledger must be of at least
    [10^9] units and is priced one share per unit; it leaves the share
    vault with [10^9] more cached assets than it has received: the
    dead shares are recorded as assets that nobody paid in. *)
Theorem first_deposit_unbacked (w : World) (sender : address)
    (now amount goal shares : Z) (log : list JubyVault.Event) (w' : World) :
  let V := vault_addr w in
  wired w -> MockMorphoVault.wf (vault w) ->
  sender <> ledger_addr w -> sender <> V -> ledger_addr w <> V ->
  MockMorphoVault.initialized (vault w) = false ->
  deposit w sender now amount goal = Ok (shares, log, w') ->
  MockMorphoVault.DEAD_SHARES <= amount
  /\ shares = amount
  /\ MockMorphoVault.totalSupply (vault w')
     = MockMorphoVault.DEAD_SHARES + amount
  /\ MockMorphoVault._totalAssets (vault w')
     = MockMorphoVault.DEAD_SHARES + amount
  /\ balance w' V = balance w V + amount.
Proof.
  intros V Hwired Hwf HsL HsV HLV Hi Hok.
  apply deposit_world in Hok; [| exact Hwired | exact Hwf].
  destruct Hok as (total & t1 & t3 & _ & _ & _ & _ & Hcts & Hsh & Hv & _ & _
                   & _ & Htr1 & Htr3 & Ht & _ & _ & _ & Hmin).
  fold V in Htr1, Htr3. specialize (Hmin Hi).
  pose proof (prepared_fresh_shares _ _ _ _ _ Hi Hcts) as ->.
  apply transferFrom_Ok in Htr1 as (Ho1 & _ & _).
  apply transferFrom_Ok in Htr3 as (_ & Hm3 & _).
  destruct (Hm3 HLV) as [Hto3 _]. cbn [Token.balanceOf] in *.
  assert (Hprep : Vault.prepared now total (vault w)
                  = Vault.with_dead_shares (Vault.accrued now total (vault w))).
  { unfold Vault.prepared. rewrite Hi. reflexivity. }
  unfold balance. rewrite Ht, Hv, Hprep.
  split; [exact Hmin |]. split; [reflexivity |].
  split; [reflexivity |]. split; [reflexivity |].
  rewrite Hto3. rewrite Ho1 by congruence. reflexivity.
Qed.
End Settlement.

Section SettlementRuns.
Import World Scenario.

Lemma genesis_wired : wired genesis.
Proof. repeat split. apply Z.eqb_neq. reflexivity. Qed.

(** Alice's deposit of 1000 USDC through the ledger. *)
Lemma deposit_settles_witness :
  balance (funded 2000) ALICE = balance genesis ALICE - 10 ^ 9
  /\ balance (funded 2000) VAULT = balance genesis VAULT + 10 ^ 9
  /\ balance (funded 2000) LEDGER = balance genesis LEDGER.
Proof.
  pose proof (deposit_settles genesis ALICE 1000 (10 ^ 9) 2000 (10 ^ 9) _
                (funded 2000) genesis_wired vault0_wf
                ltac:(discriminate) ltac:(discriminate) ltac:(discriminate)
                ltac:(discriminate) genesis_deposit)
    as (Hs & Hv & Hl & _).
  auto.
Defined.

(** Alice's early withdrawal at time 1360: the vault pays
    [1_000_000_570], of which the ledger keeps nothing. *)
Lemma withdraw_settles_witness :
  exists w',
    balance w' VAULT = balance (funded 2000) VAULT - 1000000570
    /\ balance w' LEDGER = balance (funded 2000) LEDGER.
Proof.
  destruct (withdraw (funded 2000) ALICE 1360) as [[[ret log] w'] | e] eqn:H;
    [| vm_compute in H; discriminate H].
  destruct (withdraw_settles (funded 2000) ALICE 1360 ret log w'
              (funded_wired 2000) vault1_wf
              ltac:(vm_compute; split; discriminate)
              ltac:(discriminate) ltac:(discriminate) ltac:(discriminate)
              ltac:(discriminate) ltac:(discriminate) H)
    as (cv & Hcv & Hv & Hl & _).
  vm_compute in Hcv. inversion Hcv; subst cv.
  exists w'. auto.
Defined.

(** Alice deposits 1000 USDC and withdraws them at once. *)
Lemma deposit_then_withdraw_witness :
  exists ret w2,
    withdraw (funded 2000) ALICE 1000
    = Ok (ret, [JubyVault.Withdrawn ALICE (10 ^ 9) 0 0 ret true], w2)
    /\ 10 <= ret <= 10 ^ 9.
Proof.
  destruct (withdraw (funded 2000) ALICE 1000) as [[[ret log] w2] | e] eqn:H;
    [| vm_compute in H; discriminate H].
  destruct (deposit_then_withdraw genesis ALICE 1000 (10 ^ 9) 2000 (10 ^ 9) _
              (funded 2000) ret log w2 genesis_wired vault0_wf
              ltac:(unfold is_uint256, MAX_UINT256; lia)
              ltac:(discriminate) genesis_deposit H)
    as (Hret & -> & _).
  exists ret, w2. auto.
Defined.
(** Alice's deposit of 1000 USDC is the first: the vault then caches
    2000 USDC of assets and holds 1000 USDC more than before. *)
Lemma first_deposit_unbacked_witness :
  MockMorphoVault._totalAssets (vault (funded 2000))
  = MockMorphoVault.DEAD_SHARES + 10 ^ 9
  /\ balance (funded 2000) VAULT = balance genesis VAULT + 10 ^ 9.
Proof.
  pose proof (first_deposit_unbacked genesis ALICE 1000 (10 ^ 9) 2000
                (10 ^ 9) _ (funded 2000) genesis_wired vault0_wf
                ltac:(discriminate) ltac:(discriminate) ltac:(discriminate)
                eq_refl genesis_deposit)
    as (_ & _ & _ & Ha & Hb).
  auto.
Defined.
End SettlementRuns.

(** ** The calls each function makes, and when *)

Section LedgerOrdering.
Import JubyVault Ledger LedgerCalls.

(** X22. [deposit] writes the record after its calls: each of its
    three calls, the pull of the asset, the approval and the deposit
    into the share vault, in this order the only ones, is made on the
    untouched storage, where the caller still has no record; they are
    made only once the three checks have passed, and the deposit into
    the share vault is then reached. *)
Theorem deposit_writes_after_calls (this sender : address)
    (now amount goal : Z) (st : State) :
  (forall st' c,
      Calls (deposit this sender now amount goal st) st' c ->
      st' = st /\ status st' sender = NoDeposit
      /\ 0 < amount /\ now < goal /\ kind c = CALL
      /\ (c = transferFrom_call st sender this amount
          \/ c = approve_call st amount
          \/ c = deposit_call st this amount))
  /\ (0 < amount -> now < goal -> status st sender = NoDeposit ->
      Calls (deposit this sender now amount goal st) st
            (deposit_call st this amount)).
Proof.
  split.
  - intros st' c H. unfold deposit in H. unfold_ops. cbn in H.
    destruct (Z.gtb_spec amount 0) as [Hpos |]; cbn in H; [| contradiction].
    destruct (Z.gtb_spec goal now) as [Hgoal |]; cbn in H; [| contradiction].
    destruct (exists_ (deposit_of st sender)) eqn:Hex; cbn in H;
      [contradiction |].
    assert (Hst : status st sender = NoDeposit).
    { unfold status. rewrite Hex. reflexivity. }
    crunch_calls H; repeat split; auto; try lia.
  - intros Hpos Hgoal Hst. unfold status in Hst.
    destruct (exists_ (deposit_of st sender)) eqn:Hex; [discriminate |].
    unfold deposit. unfold_ops. cbn.
    destruct (Z.gtb_spec amount 0); [| lia]. cbn.
    destruct (Z.gtb_spec goal now); [| lia]. cbn.
    rewrite Hex. cbn.
    right. exists (mkReply true []). cbn.
    right. exists (mkReply true []). cbn.
    left. split; reflexivity.
Qed.

(** X23. The ledger calls nothing but the share vault and the asset.
    The reads make one call at most, the [STATICCALL] that asks the
    share vault for [convertToAssets] of the recorded shares, on the
    untouched storage and only for an account with a record; the admin
    functions make no call at all. *)
Theorem ledger_calls_only_vault_and_asset (this sender : address) (now : Z)
    (tx : Tx) (st st' : State) (c : ExtCall) :
  Calls (dispatch this sender now tx st) st' c ->
  match tx with
  | TxGetUserInfo user | TxPreviewWithdrawal user =>
      st' = st /\ status st user = Active
      /\ c = convertToAssets_call st (shares (deposit_of st user))
  | TxUpdateTreasury _ | TxTransferOwnership _ => False
  | TxDeposit _ _ | TxWithdraw => target c = morphoVault st
                                  \/ target c = asset st
  end.
Proof.
  intros H.
  destruct tx as [amount goal | | user | user | a | a]; unfold dispatch in H.
  - unfold deposit in H. unfold_ops.
    crunch_calls H; cbn; auto.
  - unfold withdraw in H. unfold_ops.
    crunch_calls H; cbn; auto.
  - unfold getUserInfo in H. unfold_ops. cbn in H. unfold status.
    destruct (exists_ (deposit_of st user)) eqn:Hex; cbn in H;
      [| contradiction].
    crunch_calls H; auto.
  - unfold previewWithdrawal in H. unfold_ops. cbn in H. unfold status.
    destruct (exists_ (deposit_of st user)) eqn:Hex; cbn in H;
      [| contradiction].
    crunch_calls H; auto.
  - unfold updateTreasury in H. unfold_ops. crunch_calls H.
  - unfold transferOwnership in H. unfold_ops. crunch_calls H.
Qed.
End LedgerOrdering.

Section LedgerOrderingRuns.
Import Scenario JubyVault Ledger LedgerCalls.

(** Alice's first deposit reaches the share vault with her record
    still unwritten. *)
Lemma deposit_writes_after_calls_witness :
  Calls (deposit LEDGER ALICE 1000 (10 ^ 9) 2000 ledger0) ledger0
        (deposit_call ledger0 LEDGER (10 ^ 9))
  /\ status ledger0 ALICE = NoDeposit.
Proof.
  split; [| reflexivity].
  apply (proj2 (deposit_writes_after_calls LEDGER ALICE 1000 (10 ^ 9) 2000
                  ledger0)); [lia | lia | reflexivity].
Defined.

(** Reading Alice's position asks the share vault for the value of her
    [10^9] shares. *)
Lemma ledger_calls_only_vault_and_asset_witness :
  status (ledger1 2000) ALICE = Active
  /\ convertToAssets_call (ledger1 2000) (10 ^ 9)
     = convertToAssets_call (ledger1 2000)
         (shares (deposit_of (ledger1 2000) ALICE)).
Proof.
  assert (H : Calls (dispatch LEDGER BOB 1360 (TxGetUserInfo ALICE)
                              (ledger1 2000))
                    (ledger1 2000)
                    (convertToAssets_call (ledger1 2000) (10 ^ 9))).
  { left. split; reflexivity. }
  apply ledger_calls_only_vault_and_asset in H as (_ & Hs & Hc).
  split; [exact Hs | exact Hc].
Defined.
End LedgerOrderingRuns.

Section VaultOrdering.
Import MockMorphoVault Vault.

Ltac unfold_vault H :=
  unfold deposit, mint, withdraw, redeem, approve, transfer, transferFrom,
    spend_allowance, _accrueYield, _initializeVault, totalSupply_add,
    totalSupply_sub, totalAssets_add, totalAssets_sub, balanceOf_add,
    balanceOf_sub, allowance_sub in H;
  unfold_ops.

Ltac close_call :=
  repeat match goal with
    | H : negb _ = true |- _ => apply negb_true_iff in H
    | H : negb _ = false |- _ => apply negb_false_iff in H
    | H : _ -! _ = Ok _ |- _ => apply checked_sub_Ok in H as [-> _]
    | H : _ +! _ = Ok _ |- _ => apply checked_add_Ok in H as [-> _]
    end;
  unfold prepared, spent, accrued, with_dead_shares, burned, minted;
  repeat match goal with
    | H : initialized _ = _ |- _ => rewrite H
    | H : (_ =? _) = _ |- _ => rewrite H
    end;
  repeat eexists;
  try match goal with
    | H : totalAssets _ _ = Ok ?a |- totalAssets _ _ = Ok ?a => exact H
    end.

(** X24. The share vault calls the asset once per deposit, mint,
    withdrawal or redemption, and nothing else: [deposit] and [mint]
    pull the assets before any share is minted, on the storage as
    accrual and initialization left it, while [withdraw] and [redeem]
    pay out after the shares are burned and the allowance is spent.
    The share token's own functions make no call. *)
Theorem vault_calls_ordering (this sender : address) (now : Z) (tx : Tx)
    (v v1 : State) (c : ExtCall) :
  Calls (dispatch this sender now tx v) v1 c ->
  match tx with
  | TxDeposit assets receiver =>
      exists total,
        totalAssets v now = Ok total
        /\ v1 = prepared now total v
        /\ c = mkCall (asset v) CALL "transferFrom(address,address,uint256)"
                      [sender; this; assets]
  | TxMint shares receiver =>
      exists total assets,
        totalAssets v now = Ok total
        /\ v1 = prepared now total v
        /\ c = mkCall (asset v) CALL "transferFrom(address,address,uint256)"
                      [sender; this; assets]
  | TxWithdraw assets receiver owner =>
      exists total shares,
        totalAssets v now = Ok total
        /\ v1 = burned owner shares assets
                  (spent sender owner shares (accrued now total v))
        /\ c = mkCall (asset v) CALL "transfer(address,uint256)"
                      [receiver; assets]
  | TxRedeem shares receiver owner =>
      exists total assets,
        totalAssets v now = Ok total
        /\ v1 = burned owner shares assets
                  (accrued now total (spent sender owner shares v))
        /\ c = mkCall (asset v) CALL "transfer(address,uint256)"
                      [receiver; assets]
  | TxApprove _ _ | TxTransfer _ _ | TxTransferFrom _ _ _ => False
  end.
Proof.
  intros H.
  destruct tx as [assets receiver | shares receiver | assets receiver owner
                  | shares receiver owner | spender amount | to amount
                  | from to amount]; unfold dispatch in H; unfold_vault H.
  - crunch_calls H; close_call.
  - crunch_calls H; close_call.
  - crunch_calls H; close_call.
  - crunch_calls H; close_call.
  - crunch_calls H.
  - crunch_calls H.
  - crunch_calls H.
Qed.
End VaultOrdering.

Section VaultOrderingRuns.
Import Scenario MockMorphoVault Vault.

(** Alice's first deposit pulls her assets when the dead shares are in
    place and hers are not minted yet. *)
Lemma vault_calls_ordering_witness :
  exists total,
    totalAssets vault0 1000 = Ok total
    /\ with_dead_shares (accrued 1000 0 vault0) = prepared 1000 total vault0.
Proof.
  assert (H : Calls (dispatch VAULT ALICE 1000 (TxDeposit (10 ^ 9) ALICE)
                              vault0)
                    (with_dead_shares (accrued 1000 0 vault0))
                    (mkCall USDC CALL "transferFrom(address,address,uint256)"
                            [ALICE; VAULT; 10 ^ 9])).
  { lazy head. left. split; reflexivity. }
  apply vault_calls_ordering in H as (total & Ht & Hv & _).
  exists total. split; [exact Ht | exact Hv].
Defined.
End VaultOrderingRuns.
